(** * FME global performance reporting driver (drivers/fpga/dfl-fme-perf.c)

    A shallow embedding of the counter-event subsystem of the FPGA
    Management Engine performance driver: the event catalog, the event
    resolver, the per-type register access drivers, the fabric mode
    arbiter, the counter session and the monitoring facade, followed by
    the properties that the design document states about them.

    Integers are [Z] with the wrap-around of the C types written out;
    the memory-mapped register window is an abstract device that answers
    reads and absorbs writes, and every access is recorded in a trace. *)

From Stdlib Require Import ZArith List String Bool Lia.
From Stdlib Require HexString.
From coqutil Require Import Z.bitblast.
Import ListNotations.
Local Open Scope Z_scope.
Local Open Scope bool_scope.

(** ** Fixed-width integers of the C source *)

Definition U64_MAX : Z := 2 ^ 64 - 1.

(** Conversion to [u64] / [u32] / [u8] (modular reduction). *)
Definition wrap64 (z : Z) : Z := z mod 2 ^ 64.
Definition wrap32 (z : Z) : Z := z mod 2 ^ 32.
Definition wrap8 (z : Z) : Z := z mod 2 ^ 8.

(** Conversion to [int] (32-bit two's complement). *)
Definition to_int (z : Z) : Z := (z + 2 ^ 31) mod 2 ^ 32 - 2 ^ 31.

Definition is_u32 (z : Z) : Prop := 0 <= z < 2 ^ 32.
Definition is_u64 (z : Z) : Prop := 0 <= z < 2 ^ 64.

(** [~x] on a [u64]. *)
Definition not64 (x : Z) : Z := wrap64 (Z.lnot x).

(** ** Bit-field helpers of the kernel *)

Module Linux.

(** Modelled from the spec: the bit and bit-field macros of
    linux/bits.h and linux/bitfield.h ([BIT_ULL], [GENMASK_ULL],
    [FIELD_GET], [FIELD_PREP]) are not part of the driver file; the spec
    speaks of register "sub-fields" that are read, and written while the
    unrelated bits are preserved.  They are given their kernel meaning
    on 64-bit words. *)
Definition BIT_ULL (n : Z) : Z := wrap64 (Z.shiftl 1 n).

Definition GENMASK_ULL (h l : Z) : Z :=
  Z.land (wrap64 (Z.shiftl U64_MAX l)) (Z.shiftr U64_MAX (64 - 1 - h)).

(** Number of trailing zero bits: [__builtin_ffsll(mask) - 1]. *)
Fixpoint ctz (p : positive) : Z :=
  match p with
  | xO q => 1 + ctz q
  | _ => 0
  end.

Definition bf_shf (mask : Z) : Z :=
  match mask with
  | Zpos p => ctz p
  | _ => -1
  end.

Definition FIELD_PREP (mask val : Z) : Z :=
  Z.land (wrap64 (Z.shiftl (wrap64 val) (bf_shf mask))) mask.

Definition FIELD_GET (mask reg : Z) : Z :=
  Z.shiftr (Z.land reg mask) (bf_shf mask).

(** Modelled from the spec: error numbers of the kernel's errno headers,
    which the driver returns negated.  The spec names the classes:
    NotFound ([ENOENT]), InvalidArgument ([EINVAL]), Busy (the driver's
    [EOPNOTSUPP] on a fabric mode conflict); allocation failure is
    [ENOMEM] and a poll that ran out of time is [ETIMEDOUT]. *)
Definition ENOENT : Z := 2.
Definition ENOMEM : Z := 12.
Definition EINVAL : Z := 22.
Definition EOPNOTSUPP : Z := 95.
Definition ETIMEDOUT : Z := 110.

(** Modelled from the spec: flags of linux/perf_event.h that the facade
    tests ("per-task attribution", start on add, update on stop). *)
Definition PERF_ATTACH_TASK : Z := 0x04.
Definition PERF_EF_START : Z := 0x01.
Definition PERF_EF_UPDATE : Z := 0x04.

(** Modelled from the spec: capability flags of linux/perf_event.h
    ("no hardware interrupt delivery", "no exclude filtering"). *)
Definition PERF_PMU_CAP_NO_INTERRUPT : Z := 0x01.
Definition PERF_PMU_CAP_NO_EXCLUDE : Z := 0x80.

(** Modelled from the spec: feature ids of dfl.h; the full counter set
    belongs to the integrated (IPERF) feature, the discrete one (DPERF)
    has the basic and fabric counters only. *)
Definition FME_FEATURE_ID_GLOBAL_IPERF : Z := 0x6.
Definition FME_FEATURE_ID_GLOBAL_DPERF : Z := 0x7.

End Linux.
Import Linux.

(** ** Register map *)

(** Performance counter registers for cache. *)
Definition CACHE_CTRL : Z := 0x8.
Definition CACHE_RESET_CNTR : Z := BIT_ULL 0.
Definition CACHE_FREEZE_CNTR : Z := BIT_ULL 8.
Definition CACHE_CTRL_EVNT : Z := GENMASK_ULL 19 16.
Definition CACHE_EVNT_RD_HIT : Z := 0x0.
Definition CACHE_EVNT_WR_HIT : Z := 0x1.
Definition CACHE_EVNT_RD_MISS : Z := 0x2.
Definition CACHE_EVNT_WR_MISS : Z := 0x3.
Definition CACHE_EVNT_RSVD : Z := 0x4.
Definition CACHE_EVNT_HOLD_REQ : Z := 0x5.
Definition CACHE_EVNT_DATA_WR_PORT_CONTEN : Z := 0x6.
Definition CACHE_EVNT_TAG_WR_PORT_CONTEN : Z := 0x7.
Definition CACHE_EVNT_TX_REQ_STALL : Z := 0x8.
Definition CACHE_EVNT_RX_REQ_STALL : Z := 0x9.
Definition CACHE_EVNT_EVICTIONS : Z := 0xa.
Definition CACHE_CHANNEL_SEL : Z := BIT_ULL 20.
Definition CACHE_CHANNEL_RD : Z := 0.
Definition CACHE_CHANNEL_WR : Z := 1.
Definition CACHE_CNTR0 : Z := 0x10.
Definition CACHE_CNTR1 : Z := 0x18.
Definition CACHE_CNTR_EVNT_CNTR : Z := GENMASK_ULL 47 0.
Definition CACHE_CNTR_EVNT : Z := GENMASK_ULL 63 60.

(** Performance counter registers for fabric. *)
Definition FAB_CTRL : Z := 0x20.
Definition FAB_RESET_CNTR : Z := BIT_ULL 0.
Definition FAB_FREEZE_CNTR : Z := BIT_ULL 8.
Definition FAB_CTRL_EVNT : Z := GENMASK_ULL 19 16.
Definition FAB_EVNT_PCIE0_RD : Z := 0x0.
Definition FAB_EVNT_PCIE0_WR : Z := 0x1.
Definition FAB_EVNT_PCIE1_RD : Z := 0x2.
Definition FAB_EVNT_PCIE1_WR : Z := 0x3.
Definition FAB_EVNT_UPI_RD : Z := 0x4.
Definition FAB_EVNT_UPI_WR : Z := 0x5.
Definition FAB_EVNT_MMIO_RD : Z := 0x6.
Definition FAB_EVNT_MMIO_WR : Z := 0x7.
Definition FAB_PORT_ID : Z := GENMASK_ULL 21 20.
Definition FAB_PORT_FILTER : Z := BIT_ULL 23.
Definition FAB_PORT_FILTER_DISABLE : Z := 0.
Definition FAB_PORT_FILTER_ENABLE : Z := 1.
Definition FAB_CNTR : Z := 0x28.
Definition FAB_CNTR_EVNT_CNTR : Z := GENMASK_ULL 59 0.
Definition FAB_CNTR_EVNT : Z := GENMASK_ULL 63 60.

(** Performance counter registers for clock (cannot be reset or frozen). *)
Definition CLK_CNTR : Z := 0x30.
Definition BASIC_EVNT_CLK : Z := 0x0.

(** Performance counter registers for IOMMU / VT-D. *)
Definition VTD_CTRL : Z := 0x38.
Definition VTD_RESET_CNTR : Z := BIT_ULL 0.
Definition VTD_FREEZE_CNTR : Z := BIT_ULL 8.
Definition VTD_CTRL_EVNT : Z := GENMASK_ULL 19 16.
Definition VTD_EVNT_AFU_MEM_RD_TRANS : Z := 0x0.
Definition VTD_EVNT_AFU_MEM_WR_TRANS : Z := 0x1.
Definition VTD_EVNT_AFU_DEVTLB_RD_HIT : Z := 0x2.
Definition VTD_EVNT_AFU_DEVTLB_WR_HIT : Z := 0x3.
Definition VTD_EVNT_DEVTLB_4K_FILL : Z := 0x4.
Definition VTD_EVNT_DEVTLB_2M_FILL : Z := 0x5.
Definition VTD_EVNT_DEVTLB_1G_FILL : Z := 0x6.
Definition VTD_CNTR : Z := 0x40.
Definition VTD_CNTR_EVNT_CNTR : Z := GENMASK_ULL 47 0.
Definition VTD_CNTR_EVNT : Z := GENMASK_ULL 63 60.

Definition VTD_SIP_CTRL : Z := 0x48.
Definition VTD_SIP_RESET_CNTR : Z := BIT_ULL 0.
Definition VTD_SIP_FREEZE_CNTR : Z := BIT_ULL 8.
Definition VTD_SIP_CTRL_EVNT : Z := GENMASK_ULL 19 16.
Definition VTD_SIP_EVNT_IOTLB_4K_HIT : Z := 0x0.
Definition VTD_SIP_EVNT_IOTLB_2M_HIT : Z := 0x1.
Definition VTD_SIP_EVNT_IOTLB_1G_HIT : Z := 0x2.
Definition VTD_SIP_EVNT_SLPWC_L3_HIT : Z := 0x3.
Definition VTD_SIP_EVNT_SLPWC_L4_HIT : Z := 0x4.
Definition VTD_SIP_EVNT_RCC_HIT : Z := 0x5.
Definition VTD_SIP_EVNT_IOTLB_4K_MISS : Z := 0x6.
Definition VTD_SIP_EVNT_IOTLB_2M_MISS : Z := 0x7.
Definition VTD_SIP_EVNT_IOTLB_1G_MISS : Z := 0x8.
Definition VTD_SIP_EVNT_SLPWC_L3_MISS : Z := 0x9.
Definition VTD_SIP_EVNT_SLPWC_L4_MISS : Z := 0xa.
Definition VTD_SIP_EVNT_RCC_MISS : Z := 0xb.
Definition VTD_SIP_CNTR : Z := 0x50.
Definition VTD_SIP_CNTR_EVNT_CNTR : Z := GENMASK_ULL 47 0.
Definition VTD_SIP_CNTR_EVNT : Z := GENMASK_ULL 63 60.

Definition PERF_TIMEOUT : Z := 30.

Definition PERF_MAX_PORT_NUM : Z := 1.

(** ** Configuration word *)

Definition FME_EVENT_MASK : Z := GENMASK_ULL 11 0.
Definition FME_EVTYPE_MASK : Z := GENMASK_ULL 15 12.
Definition FME_EVTYPE_BASIC : Z := 0.
Definition FME_EVTYPE_CACHE : Z := 1.
Definition FME_EVTYPE_FABRIC : Z := 2.
Definition FME_EVTYPE_VTD : Z := 3.
Definition FME_EVTYPE_VTD_SIP : Z := 4.
Definition FME_EVTYPE_MAX : Z := FME_EVTYPE_VTD_SIP.
Definition FME_PORTID_MASK : Z := GENMASK_ULL 23 16.
Definition FME_PORTID_ROOT : Z := 0xff.

(** ** Data model *)

(** One access to the memory-mapped register window. *)
Inductive mmio_op : Type :=
| MmioRead (addr val : Z)
| MmioWrite (addr val : Z).

Inductive loglevel : Type := KERN_ERR | KERN_DEBUG.

(** [struct fme_perf_priv]: the per-device private data.  [ioaddr] is
    the register window, kept in the machine state below; of the [pmu]
    member, the type number and the capabilities are kept. *)
Record fme_perf_priv : Type := mk_priv {
  pmu_type : Z;
  pmu_capabilities : Z;
  id : Z;
  fab_users : Z;
  fab_port_id : Z;
  fab_lock : bool;
  events_group : list string
}.

(** [struct fme_perf_event_attr]; [name] stands for the device
    attribute. *)
Record fme_perf_event_attr : Type := mk_attr {
  name : string;
  event_id : Z;
  event_type : Z;
  is_port_event : bool;
  data : Z
}.

(** The part of [struct perf_event_attr] the driver looks at. *)
Record perf_event_attr : Type := mk_pattr {
  attr_type : Z;
  attr_config : Z;
  attr_sample_period : Z
}.

(** [struct hw_perf_event]. *)
Record hw_perf_event : Type := mk_hwc {
  event_base : Z;
  idx : Z;
  config_base : Z;
  config : Z;
  prev_count : Z
}.

(** [struct perf_event]; [destroy] tells whether the destroy callback
    has been installed. *)
Record perf_event : Type := mk_event {
  attr : perf_event_attr;
  attach_state : Z;
  cpu : Z;
  hw : hw_perf_event;
  count : Z;
  destroy : bool
}.

Definition set_fab_users (n : Z) (p : fme_perf_priv) : fme_perf_priv :=
  mk_priv (pmu_type p) (pmu_capabilities p) (id p) n (fab_port_id p)
          (fab_lock p) (events_group p).

Definition set_fab_port_id (n : Z) (p : fme_perf_priv) : fme_perf_priv :=
  mk_priv (pmu_type p) (pmu_capabilities p) (id p) (fab_users p) n
          (fab_lock p) (events_group p).

Definition set_fab_lock (b : bool) (p : fme_perf_priv) : fme_perf_priv :=
  mk_priv (pmu_type p) (pmu_capabilities p) (id p) (fab_users p)
          (fab_port_id p) b (events_group p).

Definition set_events_group (l : list string) (p : fme_perf_priv)
  : fme_perf_priv :=
  mk_priv (pmu_type p) (pmu_capabilities p) (id p) (fab_users p)
          (fab_port_id p) (fab_lock p) l.

Definition set_pmu (ty caps : Z) (p : fme_perf_priv) : fme_perf_priv :=
  mk_priv ty caps (id p) (fab_users p) (fab_port_id p) (fab_lock p)
          (events_group p).

Definition set_hw (h : hw_perf_event) (e : perf_event) : perf_event :=
  mk_event (attr e) (attach_state e) (cpu e) h (count e) (destroy e).

Definition set_destroy (b : bool) (e : perf_event) : perf_event :=
  mk_event (attr e) (attach_state e) (cpu e) (hw e) (count e) b.

Definition set_count (c : Z) (e : perf_event) : perf_event :=
  mk_event (attr e) (attach_state e) (cpu e) (hw e) c (destroy e).

Definition set_prev_count (c : Z) (h : hw_perf_event) : hw_perf_event :=
  mk_hwc (event_base h) (idx h) (config_base h) (config h) c.

(** ** Event catalog *)

Local Open Scope string_scope.

Definition FME_EVENT_BASIC (_name : string) (_event : Z) :=
  mk_attr _name _event FME_EVTYPE_BASIC false 0.

(** [data] saves the hardware channel for cache events. *)
Definition FME_EVENT_CACHE (_name : string) (_event _data : Z) :=
  mk_attr ("cache_" ++ _name) _event FME_EVTYPE_CACHE false _data.

Definition FME_EVENT_FABRIC (_name : string) (_event : Z) :=
  mk_attr ("fab_" ++ _name) _event FME_EVTYPE_FABRIC false 0.

Definition FME_EVENT_FABRIC_PORT (_name : string) (_event : Z) :=
  mk_attr ("fab_port_" ++ _name) _event FME_EVTYPE_FABRIC true 0.

Definition FME_EVENT_VTD_PORT (_name : string) (_event : Z) :=
  mk_attr ("vtd_port_" ++ _name) _event FME_EVTYPE_VTD true 0.

Definition FME_EVENT_VTD_SIP (_name : string) (_event : Z) :=
  mk_attr ("vtd_sip_" ++ _name) _event FME_EVTYPE_VTD_SIP false 0.

Definition fme_perf_basic_events : list fme_perf_event_attr :=
  [ FME_EVENT_BASIC "clock" BASIC_EVNT_CLK ].

Definition fme_perf_cache_events : list fme_perf_event_attr :=
  [ FME_EVENT_CACHE "read_hit" CACHE_EVNT_RD_HIT CACHE_CHANNEL_RD;
    FME_EVENT_CACHE "read_miss" CACHE_EVNT_RD_MISS CACHE_CHANNEL_RD;
    FME_EVENT_CACHE "write_hit" CACHE_EVNT_WR_HIT CACHE_CHANNEL_WR;
    FME_EVENT_CACHE "write_miss" CACHE_EVNT_WR_MISS CACHE_CHANNEL_WR;
    FME_EVENT_CACHE "hold_request" CACHE_EVNT_HOLD_REQ CACHE_CHANNEL_RD;
    FME_EVENT_CACHE "data_write_port_contention"
                    CACHE_EVNT_DATA_WR_PORT_CONTEN CACHE_CHANNEL_WR;
    FME_EVENT_CACHE "tag_write_port_contention"
                    CACHE_EVNT_TAG_WR_PORT_CONTEN CACHE_CHANNEL_WR;
    FME_EVENT_CACHE "tx_req_stall" CACHE_EVNT_TX_REQ_STALL CACHE_CHANNEL_RD;
    FME_EVENT_CACHE "rx_req_stall" CACHE_EVNT_RX_REQ_STALL CACHE_CHANNEL_RD;
    FME_EVENT_CACHE "eviction" CACHE_EVNT_EVICTIONS CACHE_CHANNEL_RD ].

Definition fme_perf_fab_events : list fme_perf_event_attr :=
  [ FME_EVENT_FABRIC "pcie0_read" FAB_EVNT_PCIE0_RD;
    FME_EVENT_FABRIC "pcie0_write" FAB_EVNT_PCIE0_WR;
    FME_EVENT_FABRIC "pcie1_read" FAB_EVNT_PCIE1_RD;
    FME_EVENT_FABRIC "pcie1_write" FAB_EVNT_PCIE1_WR;
    FME_EVENT_FABRIC "upi_read" FAB_EVNT_UPI_RD;
    FME_EVENT_FABRIC "upi_write" FAB_EVNT_UPI_WR;
    FME_EVENT_FABRIC "mmio_read" FAB_EVNT_MMIO_RD;
    FME_EVENT_FABRIC "mmio_write" FAB_EVNT_MMIO_WR;

    FME_EVENT_FABRIC_PORT "pcie0_read" FAB_EVNT_PCIE0_RD;
    FME_EVENT_FABRIC_PORT "pcie0_write" FAB_EVNT_PCIE0_WR;
    FME_EVENT_FABRIC_PORT "pcie1_read" FAB_EVNT_PCIE1_RD;
    FME_EVENT_FABRIC_PORT "pcie1_write" FAB_EVNT_PCIE1_WR;
    FME_EVENT_FABRIC_PORT "upi_read" FAB_EVNT_UPI_RD;
    FME_EVENT_FABRIC_PORT "upi_write" FAB_EVNT_UPI_WR;
    FME_EVENT_FABRIC_PORT "mmio_read" FAB_EVNT_MMIO_RD;
    FME_EVENT_FABRIC_PORT "mmio_write" FAB_EVNT_MMIO_WR ].

Definition fme_perf_vtd_events : list fme_perf_event_attr :=
  [ FME_EVENT_VTD_PORT "read_transaction" VTD_EVNT_AFU_MEM_RD_TRANS;
    FME_EVENT_VTD_PORT "write_transaction" VTD_EVNT_AFU_MEM_WR_TRANS;
    FME_EVENT_VTD_PORT "devtlb_read_hit" VTD_EVNT_AFU_DEVTLB_RD_HIT;
    FME_EVENT_VTD_PORT "devtlb_write_hit" VTD_EVNT_AFU_DEVTLB_WR_HIT;
    FME_EVENT_VTD_PORT "devtlb_4k_fill" VTD_EVNT_DEVTLB_4K_FILL;
    FME_EVENT_VTD_PORT "devtlb_2m_fill" VTD_EVNT_DEVTLB_2M_FILL;
    FME_EVENT_VTD_PORT "devtlb_1g_fill" VTD_EVNT_DEVTLB_1G_FILL ].

Definition fme_perf_vtd_sip_events : list fme_perf_event_attr :=
  [ FME_EVENT_VTD_SIP "iotlb_4k_hit" VTD_SIP_EVNT_IOTLB_4K_HIT;
    FME_EVENT_VTD_SIP "iotlb_2m_hit" VTD_SIP_EVNT_IOTLB_2M_HIT;
    FME_EVENT_VTD_SIP "iotlb_1g_hit" VTD_SIP_EVNT_IOTLB_1G_HIT;
    FME_EVENT_VTD_SIP "slpwc_l3_hit" VTD_SIP_EVNT_SLPWC_L3_HIT;
    FME_EVENT_VTD_SIP "slpwc_l4_hit" VTD_SIP_EVNT_SLPWC_L4_HIT;
    FME_EVENT_VTD_SIP "rcc_hit" VTD_SIP_EVNT_RCC_HIT;
    FME_EVENT_VTD_SIP "iotlb_4k_miss" VTD_SIP_EVNT_IOTLB_4K_MISS;
    FME_EVENT_VTD_SIP "iotlb_2m_miss" VTD_SIP_EVNT_IOTLB_2M_MISS;
    FME_EVENT_VTD_SIP "iotlb_1g_miss" VTD_SIP_EVNT_IOTLB_1G_MISS;
    FME_EVENT_VTD_SIP "slpwc_l3_miss" VTD_SIP_EVNT_SLPWC_L3_MISS;
    FME_EVENT_VTD_SIP "slpwc_l4_miss" VTD_SIP_EVNT_SLPWC_L4_MISS;
    FME_EVENT_VTD_SIP "rcc_miss" VTD_SIP_EVNT_RCC_MISS ].

Local Close Scope string_scope.

(** ** The machine: device, access trace, kernel log *)

(** The register window behind [priv->ioaddr].  A read may change the
    device (counters run); [dev_poll_rounds delay timeout] is the number
    of polling rounds the clock allows before [timeout] microseconds
    have passed. *)
Class MmioDevice (D : Type) : Type := {
  dev_readq : Z -> D -> Z * D;
  dev_writeq : Z -> Z -> D -> D;
  dev_poll_rounds : Z -> Z -> nat
}.

Section Driver.

Context {D : Type} `{MmioDevice D}.

Record world : Type := mk_world {
  priv : fme_perf_priv;
  iomem : D;
  mmio : list mmio_op;
  dmesg : list (loglevel * string)
}.

(** Computations of the driver: they thread the machine; [None] is
    undefined behaviour of the C program (an array indexed out of its
    bounds). *)
Definition kern (A : Type) : Type := world -> option (A * world).

Definition ret {A : Type} (a : A) : kern A := fun w => Some (a, w).

Definition bind {A B : Type} (m : kern A) (k : A -> kern B) : kern B :=
  fun w => match m w with
           | Some (a, w') => k a w'
           | None => None
           end.

Definition undefined {A : Type} : kern A := fun _ => None.

Notation "x <- m ;; k" := (bind m (fun x => k))
  (at level 61, m at next level, right associativity).
Notation "m ;; k" := (bind m (fun _ => k))
  (at level 61, right associativity).

Definition get_priv : kern fme_perf_priv := fun w => Some (priv w, w).

Definition modify_priv (f : fme_perf_priv -> fme_perf_priv) : kern unit :=
  fun w => Some (tt, mk_world (f (priv w)) (iomem w) (mmio w) (dmesg w)).

Definition readq (addr : Z) : kern Z := fun w =>
  let (v, d) := dev_readq addr (iomem w) in
  Some (wrap64 v,
        mk_world (priv w) d (mmio w ++ [MmioRead addr (wrap64 v)]) (dmesg w)).

Definition writeq (v addr : Z) : kern unit := fun w =>
  Some (tt, mk_world (priv w) (dev_writeq addr v (iomem w))
                     (mmio w ++ [MmioWrite addr v]) (dmesg w)).

Definition printk (l : loglevel) (msg : string) : kern unit := fun w =>
  Some (tt, mk_world (priv w) (iomem w) (mmio w) (dmesg w ++ [(l, msg)])).

Definition dev_err : string -> kern unit := printk KERN_ERR.
Definition dev_dbg : string -> kern unit := printk KERN_DEBUG.

Definition spin_lock_fab : kern unit := modify_priv (set_fab_lock true).
Definition spin_unlock_fab : kern unit := modify_priv (set_fab_lock false).

(** Modelled from the spec: [readq_poll_timeout_atomic] of linux/iopoll.h
    is not part of the driver file.  "Repeatedly read the counter
    register until its embedded event-tag sub-field equals the requested
    code, bounded by the fixed timeout; timeout is a soft failure": the
    register is read until the condition holds; once the time is up it is
    read one last time, and the result is 0 if the last value read
    satisfies the condition and -ETIMEDOUT otherwise.  The value last
    read comes with the result. *)
Fixpoint poll_loop (rounds : nat) (addr : Z) (cond : Z -> bool) : kern Z :=
  fun w =>
    match readq addr w with
    | Some (v, w1) =>
        if cond v then Some (v, w1)
        else match rounds with
             | O => readq addr w1
             | S k => poll_loop k addr cond w1
             end
    | None => None
    end.

Definition readq_poll_timeout_atomic (addr : Z) (cond : Z -> bool)
    (delay_us timeout_us : Z) : kern (Z * Z) :=
  v <- poll_loop (dev_poll_rounds delay_us timeout_us) addr cond ;;
  ret (if cond v then 0 else - ETIMEDOUT, v).

(** ** Register access drivers *)

(** [struct fme_perf_event_ops]: the callbacks of an event type; the
    [priv] argument is the machine state. *)
Record fme_perf_event_ops : Type := mk_ops {
  event_init : option (Z -> Z -> Z -> kern Z);
  event_destroy : option (Z -> Z -> Z -> kern unit);
  read_counter : Z -> Z -> Z -> kern Z
}.

(** [struct fme_perf_event_group]. *)
Record fme_perf_event_group : Type := mk_group {
  ev_attrs : list fme_perf_event_attr;
  num : Z;
  ops : fme_perf_event_ops
}.

Definition basic_read_event_counter (event port_id data : Z) : kern Z :=
  if event =? BASIC_EVNT_CLK then readq CLK_CNTR else ret 0.

Definition fme_perf_basic_ops : fme_perf_event_ops :=
  mk_ops None None basic_read_event_counter.

Definition cache_read_event_counter (event port_id data : Z) : kern Z :=
  let channel := wrap8 data in
  (* set channel access type and cache event code. *)
  v <- readq CACHE_CTRL ;;
  let v := Z.land v (not64 (Z.lor CACHE_CHANNEL_SEL CACHE_CTRL_EVNT)) in
  let v := Z.lor v (FIELD_PREP CACHE_CHANNEL_SEL channel) in
  let v := Z.lor v (FIELD_PREP CACHE_CTRL_EVNT event) in
  writeq v CACHE_CTRL ;;
  r <- readq_poll_timeout_atomic CACHE_CNTR0
         (fun v => FIELD_GET CACHE_CNTR_EVNT v =? event) 1 PERF_TIMEOUT ;;
  if negb (fst r =? 0) then
    (dev_err "timeout, unmatched cache event code in counter register."%string ;;
     ret 0)
  else
    (v <- readq CACHE_CNTR0 ;;
     let count := FIELD_GET CACHE_CNTR_EVNT_CNTR v in
     v <- readq CACHE_CNTR1 ;;
     let count := wrap64 (count + FIELD_GET CACHE_CNTR_EVNT_CNTR v) in
     ret count).

Definition fme_perf_cache_ops : fme_perf_event_ops :=
  mk_ops None None cache_read_event_counter.

(** The fabric counter set is either in overall mode or monitors one
    port: each new event checks the current working mode and whether
    someone is using the counter set. *)
Definition fabric_event_init (event port_id data : Z) : kern Z :=
  spin_lock_fab ;;
  p <- get_priv ;;
  if negb (fab_users p =? 0) && negb (fab_port_id p =? port_id) then
    (dev_dbg "conflict fabric event monitoring mode."%string ;;
     spin_unlock_fab ;;
     ret (- EOPNOTSUPP))
  else
    (modify_priv (fun q => set_fab_users (wrap32 (fab_users q + 1)) q) ;;
     (* skip if current working mode matches, otherwise change the
        working mode per input port_id *)
     if fab_port_id p =? port_id then
       (spin_unlock_fab ;; ret 0)
     else
       (modify_priv (set_fab_port_id port_id) ;;
        v <- readq FAB_CTRL ;;
        let v := Z.land v (not64 (Z.lor FAB_PORT_FILTER FAB_PORT_ID)) in
        let v :=
          if port_id =? FME_PORTID_ROOT then
            Z.lor v (FIELD_PREP FAB_PORT_FILTER FAB_PORT_FILTER_DISABLE)
          else
            Z.lor (Z.lor v (FIELD_PREP FAB_PORT_FILTER FAB_PORT_FILTER_ENABLE))
                  (FIELD_PREP FAB_PORT_ID port_id) in
        writeq v FAB_CTRL ;;
        spin_unlock_fab ;;
        ret 0)).

Definition fabric_event_destroy (event port_id data : Z) : kern unit :=
  spin_lock_fab ;;
  modify_priv (fun q => set_fab_users (wrap32 (fab_users q - 1)) q) ;;
  spin_unlock_fab.

Definition fabric_read_event_counter (event port_id data : Z) : kern Z :=
  v <- readq FAB_CTRL ;;
  let v := Z.land v (not64 FAB_CTRL_EVNT) in
  let v := Z.lor v (FIELD_PREP FAB_CTRL_EVNT event) in
  writeq v FAB_CTRL ;;
  r <- readq_poll_timeout_atomic FAB_CNTR
         (fun v => FIELD_GET FAB_CNTR_EVNT v =? event) 1 PERF_TIMEOUT ;;
  if negb (fst r =? 0) then
    (dev_err "timeout, unmatched fab event code in counter register."%string ;;
     ret 0)
  else
    (v <- readq FAB_CNTR ;;
     ret (FIELD_GET FAB_CNTR_EVNT_CNTR v)).

Definition fme_perf_fab_ops : fme_perf_event_ops :=
  mk_ops (Some fabric_event_init) (Some fabric_event_destroy)
         fabric_read_event_counter.

Definition vtd_read_event_counter (event port_id data : Z) : kern Z :=
  let event := wrap32 (event + port_id) in
  v <- readq VTD_CTRL ;;
  let v := Z.land v (not64 VTD_CTRL_EVNT) in
  let v := Z.lor v (FIELD_PREP VTD_CTRL_EVNT event) in
  writeq v VTD_CTRL ;;
  r <- readq_poll_timeout_atomic VTD_CNTR
         (fun v => FIELD_GET VTD_CNTR_EVNT v =? event) 1 PERF_TIMEOUT ;;
  if negb (fst r =? 0) then
    (dev_err "timeout, unmatched vtd event code in counter register."%string ;;
     ret 0)
  else
    (v <- readq VTD_CNTR ;;
     ret (FIELD_GET VTD_CNTR_EVNT_CNTR v)).

Definition fme_perf_vtd_ops : fme_perf_event_ops :=
  mk_ops None None vtd_read_event_counter.

Definition vtd_sip_read_event_counter (event port_id data : Z) : kern Z :=
  v <- readq VTD_SIP_CTRL ;;
  let v := Z.land v (not64 VTD_SIP_CTRL_EVNT) in
  let v := Z.lor v (FIELD_PREP VTD_SIP_CTRL_EVNT event) in
  writeq v VTD_SIP_CTRL ;;
  r <- readq_poll_timeout_atomic VTD_SIP_CNTR
         (fun v => FIELD_GET VTD_SIP_CNTR_EVNT v =? event) 1 PERF_TIMEOUT ;;
  if negb (fst r =? 0) then
    (dev_err "timeout, unmatched vtd sip event code in counter register"%string ;;
     ret 0)
  else
    (v <- readq VTD_SIP_CNTR ;;
     ret (FIELD_GET VTD_SIP_CNTR_EVNT_CNTR v)).

Definition fme_perf_vtd_sip_ops : fme_perf_event_ops :=
  mk_ops None None vtd_sip_read_event_counter.

Definition FME_EVENT_GROUP (events : list fme_perf_event_attr)
    (o : fme_perf_event_ops) : fme_perf_event_group :=
  mk_group events (Z.of_nat (List.length events)) o.

(** The event group array is indexed by [FME_EVTYPE_*]. *)
Definition fme_perf_event_groups : list fme_perf_event_group :=
  [ FME_EVENT_GROUP fme_perf_basic_events fme_perf_basic_ops;
    FME_EVENT_GROUP fme_perf_cache_events fme_perf_cache_ops;
    FME_EVENT_GROUP fme_perf_fab_events fme_perf_fab_ops;
    FME_EVENT_GROUP fme_perf_vtd_events fme_perf_vtd_ops;
    FME_EVENT_GROUP fme_perf_vtd_sip_events fme_perf_vtd_sip_ops ].

(** ** Event resolver *)

(** The scan of one group, from slot [i] on: the first slot whose id and
    scope match. *)
Fixpoint scan_ev_attrs (evs : list fme_perf_event_attr) (i : nat)
    (eid : Z) (is_port : bool) : option (nat * fme_perf_event_attr) :=
  match evs with
  | [] => None
  | a :: rest =>
      if (eid =? event_id a) && Bool.eqb is_port (is_port_event a)
      then Some (i, a)
      else scan_ev_attrs rest (S i) eid is_port
  end.

(** The result stands for the pointer [&group->ev_attrs[i]]: the slot
    number within the group of [event_type] and the slot's content. *)
Definition get_event_attr (event_id event_type port_id : Z)
  : option (nat * fme_perf_event_attr) :=
  let is_port_event := negb (port_id =? FME_PORTID_ROOT) in
  if event_type >? FME_EVTYPE_MAX then None
  else
    match nth_error fme_perf_event_groups (Z.to_nat event_type) with
    | None => None
    | Some group =>
        scan_ev_attrs (firstn (Z.to_nat (num group)) (ev_attrs group)) 0
                      event_id is_port_event
    end.

(** [fme_perf_event_groups[event_type].ops]; the array is not checked
    against its bounds. *)
Definition get_event_ops (event_type : Z) : kern fme_perf_event_ops :=
  if (0 <=? event_type) then
    match nth_error fme_perf_event_groups (Z.to_nat event_type) with
    | Some group => ret (ops group)
    | None => undefined
    end
  else undefined.

(** ** Monitoring facade and counter session *)

(** Modelled from the spec: [is_sampling_event] of linux/perf_event.h is
    not part of the driver file; a configuration "requesting
    sampling-based collection" is one with a sample period. *)
Definition is_sampling_event (event : perf_event) : bool :=
  negb (attr_sample_period (attr event) =? 0).

Definition fme_perf_event_destroy (event : perf_event) : kern unit :=
  ops <- get_event_ops (event_base (hw event)) ;;
  match event_destroy ops with
  | Some f => f (wrap32 (idx (hw event))) (wrap32 (config_base (hw event)))
                (config (hw event))
  | None => ret tt
  end.

Definition fme_perf_event_init (event : perf_event)
  : kern (Z * perf_event) :=
  p <- get_priv ;;
  (* test the event attr type check for PMU enumeration; attr.type is a
     __u32 and pmu->type an int, so both are compared as unsigned *)
  if negb (wrap32 (attr_type (attr event)) =? wrap32 (pmu_type p)) then
    ret (- ENOENT, event)
  (* fme counters are shared across all cores: no per-process mode and
     no event sampling mode. *)
  else if is_sampling_event event
          || negb (Z.land (attach_state event) PERF_ATTACH_TASK =? 0) then
    ret (- EINVAL, event)
  else if cpu event <? 0 then
    ret (- EINVAL, event)
  else
    let event_id := wrap32 (FIELD_GET FME_EVENT_MASK (attr_config (attr event))) in
    let event_type := wrap32 (FIELD_GET FME_EVTYPE_MASK (attr_config (attr event))) in
    let port_id := wrap32 (FIELD_GET FME_PORTID_MASK (attr_config (attr event))) in
    match get_event_attr event_id event_type port_id with
    | None => ret (- EINVAL, event)
    | Some (_, ev_attr) =>
        if (is_port_event ev_attr && (port_id >=? PERF_MAX_PORT_NUM))
           || (negb (is_port_event ev_attr)
               && negb (port_id =? FME_PORTID_ROOT)) then
          ret (- EINVAL, event)
        else
          let hwc := mk_hwc event_type (to_int event_id) port_id
                            (data ev_attr) (prev_count (hw event)) in
          let event := set_destroy true (set_hw hwc event) in
          dev_dbg "%s eventid=0x%x, evtype=0x%x, portid=0x%x, data=0x%llx"%string ;;
          ops <- get_event_ops (event_base (hw event)) ;;
          match event_init ops with
          | Some f =>
              r <- f (wrap32 (idx hwc)) (wrap32 (config_base hwc))
                     (config hwc) ;;
              ret (r, event)
          | None => ret (0, event)
          end
    end.

Definition fme_perf_event_update (event : perf_event) : kern perf_event :=
  ops <- get_event_ops (event_base (hw event)) ;;
  now <- read_counter ops (wrap32 (idx (hw event)))
                      (wrap32 (config_base (hw event)))
                      (config (hw event)) ;;
  let prev := wrap64 (prev_count (hw event)) in
  let delta := wrap64 (now - prev) in
  ret (set_count (wrap64 (count event + delta)) event).

Definition fme_perf_event_start (event : perf_event) (flags : Z)
  : kern perf_event :=
  ops <- get_event_ops (event_base (hw event)) ;;
  count <- read_counter ops (wrap32 (idx (hw event)))
                        (wrap32 (config_base (hw event)))
                        (config (hw event)) ;;
  ret (set_hw (set_prev_count count (hw event)) event).

Definition fme_perf_event_stop (event : perf_event) (flags : Z)
  : kern perf_event :=
  fme_perf_event_update event.

Definition fme_perf_event_add (event : perf_event) (flags : Z)
  : kern (Z * perf_event) :=
  if negb (Z.land flags PERF_EF_START =? 0) then
    (e <- fme_perf_event_start event flags ;; ret (0, e))
  else ret (0, event).

Definition fme_perf_event_del (event : perf_event) (flags : Z)
  : kern perf_event :=
  fme_perf_event_stop event PERF_EF_UPDATE.

Definition fme_perf_event_read (event : perf_event) : kern perf_event :=
  fme_perf_event_update event.

(** ** Device attach *)

(** What the rest of the kernel decides during attach: whether the two
    allocations succeed, and the result and the type number handed out
    by [perf_pmu_register]. *)
Record attach_env : Type := mk_env {
  kzalloc_ok : bool;
  kcalloc_ok : bool;
  pmu_register_ret : Z;
  pmu_register_type : Z
}.

(** If the feature id is [FME_FEATURE_ID_GLOBAL_IPERF] the hardware
    supports all counters, otherwise only basic and fabric counters. *)
Definition fme_perf_setup_attrs (env : attach_env) : kern Z :=
  p <- get_priv ;;
  if negb (kcalloc_ok env) then ret (- ENOMEM)
  else
    let names (t : Z) :=
      match nth_error fme_perf_event_groups (Z.to_nat t) with
      | Some g => map name (firstn (Z.to_nat (num g)) (ev_attrs g))
      | None => []
      end in
    let attrs := (names FME_EVTYPE_BASIC ++ names FME_EVTYPE_FABRIC)%list in
    let attrs :=
      if id p =? FME_FEATURE_ID_GLOBAL_IPERF then
        (attrs ++ names FME_EVTYPE_CACHE ++ names FME_EVTYPE_VTD
               ++ names FME_EVTYPE_VTD_SIP)%list
      else attrs in
    modify_priv (set_events_group attrs) ;;
    ret 0.

(** Read and save the current working mode of the fabric counters. *)
Definition fme_perf_setup_hardware : kern unit :=
  v <- readq FAB_CTRL ;;
  if FIELD_GET FAB_PORT_FILTER v =? FAB_PORT_FILTER_DISABLE then
    modify_priv (set_fab_port_id FME_PORTID_ROOT)
  else
    modify_priv (set_fab_port_id (wrap32 (FIELD_GET FAB_PORT_ID v))).

Definition fme_perf_pmu_register (env : attach_env) : kern Z :=
  modify_priv (set_fab_lock false) ;;
  r <- fme_perf_setup_attrs env ;;
  if negb (r =? 0) then ret r
  else
    (fme_perf_setup_hardware ;;
     modify_priv (fun q => set_pmu (pmu_type q)
        (Z.lor PERF_PMU_CAP_NO_INTERRUPT PERF_PMU_CAP_NO_EXCLUDE) q) ;;
     if negb (pmu_register_ret env =? 0) then ret (pmu_register_ret env)
     else
       (modify_priv (fun q => set_pmu (pmu_register_type env)
                                      (pmu_capabilities q) q) ;;
        ret 0)).

(** [devm_kzalloc] hands out a zeroed [priv]. *)
Definition fme_perf_init (feature_id : Z) (env : attach_env) : kern Z :=
  dev_dbg "FME Perf Init"%string ;;
  if negb (kzalloc_ok env) then ret (- ENOMEM)
  else
    (modify_priv (fun _ => mk_priv 0 0 feature_id 0 0 false []) ;;
     r <- fme_perf_pmu_register env ;;
     if negb (r =? 0) then ret r else ret 0).

End Driver.

Arguments world D : clear implicits.
Arguments kern D A : clear implicits.

(** ** Vocabulary of the design document *)

(** The working mode of the fabric counter set: overall, or one port. *)
Inductive fab_mode : Type :=
| Aggregate
| Port (port : Z).

(** The aggregate sentinel classifies as [Aggregate], anything else as
    that port. *)
Definition classify (port_id : Z) : fab_mode :=
  if port_id =? FME_PORTID_ROOT then Aggregate else Port port_id.

Definition current_mode (p : fme_perf_priv) : fab_mode :=
  classify (fab_port_id p).

(** A port is valid for a descriptor's scope: the aggregate sentinel for
    a global event, a port below the maximum port count for a per-port
    event. *)
Definition valid_port_for (a : fme_perf_event_attr) (port_id : Z) : Prop :=
  if is_port_event a then 0 <= port_id < PERF_MAX_PORT_NUM
  else port_id = FME_PORTID_ROOT.

(** The key that is unique within a group: id and scope. *)
Definition id_scope (a : fme_perf_event_attr) : Z * bool :=
  (event_id a, is_port_event a).

(** The width of the value sub-field of each type's counter register:
    the [*_CNTR_EVNT_CNTR] masks are 48 bits wide, the fabric one 60
    bits; the clock counter is a full 64-bit register. *)
Definition counter_field_width (event_type : Z) : Z :=
  if event_type =? FME_EVTYPE_FABRIC then 60
  else if event_type =? FME_EVTYPE_BASIC then 64
  else 48.

(** The delta as the design document words it: both values masked to
    the field width, subtraction modulo that width. *)
Definition masked_delta (width now prev : Z) : Z :=
  (now mod 2 ^ width - prev mod 2 ^ width) mod 2 ^ width.

(** The control word written by [fabric_event_init] when it changes the
    working mode, as a function of the word read and the port. *)
Definition fab_filter_word (v port_id : Z) : Z :=
  let v := Z.land v (not64 (Z.lor FAB_PORT_FILTER FAB_PORT_ID)) in
  if port_id =? FME_PORTID_ROOT then
    Z.lor v (FIELD_PREP FAB_PORT_FILTER FAB_PORT_FILTER_DISABLE)
  else
    Z.lor (Z.lor v (FIELD_PREP FAB_PORT_FILTER FAB_PORT_FILTER_ENABLE))
          (FIELD_PREP FAB_PORT_ID port_id).

(** The word that a cache read writes to the cache control register
    after reading [c] from it: channel and event selector of [c]
    replaced. *)
Definition cache_select_word (c channel event : Z) : Z :=
  let v := Z.land c (not64 (Z.lor CACHE_CHANNEL_SEL CACHE_CTRL_EVNT)) in
  let v := Z.lor v (FIELD_PREP CACHE_CHANNEL_SEL channel) in
  Z.lor v (FIELD_PREP CACHE_CTRL_EVNT event).

(** ** A register file as device *)

(** Plain registers: a read returns what was stored last (0 if nothing
    was), and the clock allows [timeout / delay] polling rounds. *)
Definition regfile : Type := list (Z * Z).

Fixpoint reg_get (addr : Z) (rf : regfile) : Z :=
  match rf with
  | [] => 0
  | (a, v) :: rest => if a =? addr then v else reg_get addr rest
  end.

Definition reg_set (addr v : Z) (rf : regfile) : regfile := (addr, v) :: rf.

#[export] Instance regfile_device : MmioDevice regfile := {|
  dev_readq addr rf := (reg_get addr rf, rf);
  dev_writeq addr v rf := reg_set addr v rf;
  dev_poll_rounds delay_us timeout_us := Z.to_nat (timeout_us / delay_us)
|}.

Definition zero_priv : fme_perf_priv := mk_priv 0 0 0 0 0 false [].

Definition boot (rf : regfile) (p : fme_perf_priv) : world regfile :=
  mk_world p rf [] [].

(** ** Sample machines and sessions *)

(** A device whose fabric control register has the port filter on, for
    port 1. *)
Definition port1_regs : regfile :=
  [(FAB_CTRL, Z.lor FAB_PORT_FILTER (FIELD_PREP FAB_PORT_ID 1))].

(** One aggregate fabric session is open. *)
Definition aggregate_in_use : world regfile :=
  boot [] (mk_priv 0 0 FME_FEATURE_ID_GLOBAL_IPERF 1 FME_PORTID_ROOT false []).

(** Nobody uses the fabric counters, the mode is the aggregate one, and
    every bit of the fabric control register is set. *)
Definition idle_all_ones : world regfile :=
  boot [(FAB_CTRL, 2 ^ 64 - 1)]
       (mk_priv 0 0 FME_FEATURE_ID_GLOBAL_IPERF 0 FME_PORTID_ROOT false []).

(** A machine whose PMU type number is -1: as an unsigned number that
    is 0xffffffff. *)
Definition negative_pmu : world regfile :=
  boot [] (mk_priv (-1) 0 FME_FEATURE_ID_GLOBAL_IPERF 0 0 false []).

Definition attach_ok : attach_env := mk_env true true 0 9.

(** A request with configuration word [cfg] for the PMU of type
    [pmu_ty], counting (not sampling) on CPU 0. *)
Definition counting_request (pmu_ty cfg : Z) : perf_event :=
  mk_event (mk_pattr pmu_ty cfg 0) 0 0 (mk_hwc 0 0 0 0 0) 0 false.

Definition sampling_request (pmu_ty cfg : Z) : perf_event :=
  mk_event (mk_pattr pmu_ty cfg 4000) 0 0 (mk_hwc 0 0 0 0 0) 0 false.

(** The configuration word of fabric event 0 (pcie0_read) on port 1. *)
Definition cfg_fab_pcie0_read_port1 : Z := 0x012000.

(** An aggregate fabric session on pcie0_read whose snapshot was taken
    ten counts before the 60-bit counter field wrapped; the counter now
    reads 5. *)
Definition wrapped_fab_session : perf_event :=
  mk_event (mk_pattr 0 0x0ff2000 0) 0 0
           (mk_hwc FME_EVTYPE_FABRIC 0 FME_PORTID_ROOT 0 (2 ^ 60 - 10))
           0 true.

Definition wrapped_fab_world : world regfile :=
  boot [(FAB_CNTR, 5)]
       (mk_priv 0 0 FME_FEATURE_ID_GLOBAL_IPERF 1 FME_PORTID_ROOT false []).

(** A clock session whose snapshot is 40 while the clock reads 100. *)
Definition clock_session : perf_event :=
  mk_event (mk_pattr 0 0x0ff0000 0) 0 0
           (mk_hwc FME_EVTYPE_BASIC 0 FME_PORTID_ROOT 0 40) 0 true.

Definition clock_world : world regfile :=
  boot [(CLK_CNTR, 100)] zero_priv.

(** Cache banks holding 7 and 11 counts of read hits, and banks whose
    tag never shows the requested write-hit code. *)
Definition cache_banks : regfile := [(CACHE_CNTR0, 7); (CACHE_CNTR1, 11)].

(** ** The session update as the design document words it *)

Section SessionStatements.

Context {D : Type} `{MmioDevice D}.

(** The counter value [now] that the type's driver returns for the
    session in machine [w]. *)
Definition driver_reads (w : world D) (event : perf_event) (now : Z) : Prop :=
  exists ops w',
    get_event_ops (event_base (hw event)) w = Some (ops, w) /\
    read_counter ops (wrap32 (idx (hw event)))
                 (wrap32 (config_base (hw event))) (config (hw event)) w
    = Some (now, w').

(** "The delta added to accumulated equals (Y - X) mod 2^fieldWidth." *)
Definition update_adds_masked_delta (w : world D) (event : perf_event)
  : Prop :=
  forall now e' w',
    driver_reads w event now ->
    fme_perf_event_update event w = Some (e', w') ->
    count e' =
    wrap64 (count event
            + masked_delta (counter_field_width (event_base (hw event)))
                           now (prev_count (hw event))).

(** "After read() or stop(), previousSnapshot equals the value just
    read." *)
Definition update_moves_snapshot (w : world D) (event : perf_event) : Prop :=
  forall now e' w',
    driver_reads w event now ->
    fme_perf_event_update event w = Some (e', w') ->
    prev_count (hw e') = now.

End SessionStatements.

(** ** The fabric arbiter with its open sessions *)

Section Arbiter.

Context {D : Type} `{MmioDevice D}.

(** The machine together with the ports requested by the fabric
    sessions that are open. *)
Record arbiter : Type := mk_arbiter {
  arb_world : world D;
  arb_open : list Z
}.

Fixpoint drop_nth {A : Type} (k : nat) (l : list A) : list A :=
  match l, k with
  | [], _ => []
  | _ :: r, O => r
  | x :: r, S k' => x :: drop_nth k' r
  end.

(** One successful call: an open for a port, or the close of the [k]-th
    open session.  The number of sessions open at a time stays within
    the range of the [u32] user count. *)
Inductive arb_step : arbiter -> arbiter -> Prop :=
| step_open : forall s event port_id data w',
    is_u32 port_id ->
    Z.of_nat (List.length (arb_open s)) < 2 ^ 32 - 1 ->
    fabric_event_init event port_id data (arb_world s) = Some (0, w') ->
    arb_step s (mk_arbiter w' (port_id :: arb_open s))
| step_close : forall s k event port_id data w',
    nth_error (arb_open s) k = Some port_id ->
    fabric_event_destroy event port_id data (arb_world s) = Some (tt, w') ->
    arb_step s (mk_arbiter w' (drop_nth k (arb_open s))).

Inductive arb_reachable : arbiter -> Prop :=
| reach_start : forall w,
    fab_users (priv w) = 0 ->
    arb_reachable (mk_arbiter w [])
| reach_step : forall s s',
    arb_reachable s -> arb_step s s' -> arb_reachable s'.

(** What every reachable arbiter satisfies: the user count is the number
    of open sessions, and every open session asked for the port the
    counter set is working in. *)
Definition arb_inv (s : arbiter) : Prop :=
  fab_users (priv (arb_world s)) = Z.of_nat (List.length (arb_open s)) /\
  Z.of_nat (List.length (arb_open s)) <= 2 ^ 32 - 1 /\
  Forall (fun p => p = fab_port_id (priv (arb_world s))) (arb_open s).

End Arbiter.

Arguments arbiter D : clear implicits.

(** ** Registers of each event type *)

Definition mmio_addr (op : mmio_op) : Z :=
  match op with
  | MmioRead addr _ => addr
  | MmioWrite addr _ => addr
  end.

Definition is_mmio_write (op : mmio_op) : bool :=
  match op with
  | MmioRead _ _ => false
  | MmioWrite _ _ => true
  end.

(** The control and counter registers that the driver of an event type
    works on. *)
Definition type_registers (event_type : Z) : list Z :=
  if event_type =? FME_EVTYPE_BASIC then [CLK_CNTR]
  else if event_type =? FME_EVTYPE_CACHE then
    [CACHE_CTRL; CACHE_CNTR0; CACHE_CNTR1]
  else if event_type =? FME_EVTYPE_FABRIC then [FAB_CTRL; FAB_CNTR]
  else if event_type =? FME_EVTYPE_VTD then [VTD_CTRL; VTD_CNTR]
  else if event_type =? FME_EVTYPE_VTD_SIP then [VTD_SIP_CTRL; VTD_SIP_CNTR]
  else [].

Section ReadFrame.

Context {D : Type} `{MmioDevice D}.

(** What a counter read may do to the machine: it leaves the private
    data alone, it accesses registers among [regs] only, at most
    [budget] times with at most one write, its result is a [u64], and
    it logs nothing unless it gives up with 0 and one error message. *)
Definition read_frame (regs : list Z) (budget : nat)
    (w w' : world D) (r : Z) : Prop :=
  priv w' = priv w /\
  is_u64 r /\
  (exists l,
     mmio w' = mmio w ++ l /\
     Forall (fun op => In (mmio_addr op) regs) l /\
     (List.length l <= budget)%nat /\
     (List.length (filter is_mmio_write l) <= 1)%nat) /\
  (dmesg w' = dmesg w \/
   (r = 0 /\ exists msg, dmesg w' = dmesg w ++ [(KERN_ERR, msg)])).

End ReadFrame.

(** ** The device behind the access trace *)

Section DeviceAnswers.

Context {D : Type} `{MmioDevice D}.

(** [device_answers d l d']: made one after the other on the device in
    state [d], the accesses [l] get the values recorded in them (a read
    records what the register holds at that moment, as a [u64]; a write
    stores the value recorded) and leave the device in state [d']. *)
Fixpoint device_answers (d : D) (l : list mmio_op) (d' : D) : Prop :=
  match l with
  | [] => d' = d
  | MmioRead addr v :: l' =>
      v = wrap64 (fst (dev_readq addr d)) /\
      device_answers (snd (dev_readq addr d)) l' d'
  | MmioWrite addr v :: l' => device_answers (dev_writeq addr v d) l' d'
  end.

(** Between [w] and [w'] the trace has grown by accesses that the
    device of [w] answered, and they have led to the device of [w']. *)
Definition answered (w w' : world D) : Prop :=
  exists l, mmio w' = mmio w ++ l /\ device_answers (iomem w) l (iomem w').

(** A computation that records in the trace exactly what it does to
    the device. *)
Definition honest {A : Type} (m : kern D A) : Prop :=
  forall w a w', m w = Some (a, w') -> answered w w'.

End DeviceAnswers.

(** ** A clock that runs *)

(** A device of which only the clock matters: every read returns the
    current count and lets ten more ticks pass. *)
Definition ticking : Type := Z.

Definition ticking_device : MmioDevice ticking := {|
  dev_readq addr now := (now, now + 10);
  dev_writeq addr v now := now;
  dev_poll_rounds delay_us timeout_us := Z.to_nat (timeout_us / delay_us)
|}.

(** The machine at the start of a session on the running clock. *)
Definition ticking_start : world ticking :=
  @mk_world ticking zero_priv 0 [] [].

(** ** The fields of the configuration word *)

(** The three fields that [fme_perf_event_init] takes out of
    [attr.config], as [u32] values. *)
Definition config_event_id (cfg : Z) : Z :=
  wrap32 (FIELD_GET FME_EVENT_MASK cfg).

Definition config_event_type (cfg : Z) : Z :=
  wrap32 (FIELD_GET FME_EVTYPE_MASK cfg).

Definition config_port_id (cfg : Z) : Z :=
  wrap32 (FIELD_GET FME_PORTID_MASK cfg).

(** [PMU_FORMAT_ATTR(event, "config:0-11")] and its two companions:
    the bit ranges of the configuration word as advertised to user
    space, and the word that user space builds from them. *)
Definition fme_perf_format_attrs : list (string * (Z * Z)) :=
  [ ("event"%string, (0, 11)); ("evtype"%string, (12, 15));
    ("portid"%string, (16, 23)) ].

Definition format_field (lo hi value : Z) : Z :=
  Z.shiftl (value mod 2 ^ (hi - lo + 1)) lo.

Definition format_config (event evtype portid : Z) : Z :=
  Z.lor (format_field 0 11 event)
        (Z.lor (format_field 12 15 evtype) (format_field 16 23 portid)).

(** The event as [fme_perf_event_init] leaves it once the request has
    resolved to the descriptor [a]: the decoded fields and the
    descriptor's [data] in [hw], the destroy callback installed. *)
Definition opened_session (event : perf_event) (a : fme_perf_event_attr)
  : perf_event :=
  let cfg := attr_config (attr event) in
  set_destroy true
    (set_hw (mk_hwc (config_event_type cfg) (to_int (config_event_id cfg))
                    (config_port_id cfg) (data a) (prev_count (hw event)))
            event).

(** A descriptor is what a request asks for: the id, and per-port scope
    exactly when a port is named. *)
Definition matches_request (eid : Z) (is_port : bool)
    (a : fme_perf_event_attr) : Prop :=
  event_id a = eid /\ is_port_event a = is_port.

Section SessionInvariant.

Context {D : Type} `{MmioDevice D}.

(** A session as a successful open leaves it: its stored id, type and
    port resolve to a descriptor of the catalog, the port is valid for
    the descriptor's scope, the stored [config] is the descriptor's
    [data], and the destroy callback is installed. *)
Definition session_ok (event : perf_event) : Prop :=
  exists i a,
    get_event_attr (D := D) (idx (hw event)) (event_base (hw event))
                   (config_base (hw event)) = Some (i, a) /\
    0 <= idx (hw event) < 2 ^ 12 /\
    0 <= event_base (hw event) <= FME_EVTYPE_MAX /\
    0 <= config_base (hw event) < 2 ^ 8 /\
    valid_port_for a (config_base (hw event)) /\
    config (hw event) = data a /\
    destroy event = true.

(** The machine once a request has passed the validation: the debug
    message is in the log, nothing else has happened. *)
Definition after_open_debug (w : world D) : world D :=
  mk_world (priv w) (iomem w) (mmio w)
    (dmesg w ++
     [(KERN_DEBUG,
       "%s eventid=0x%x, evtype=0x%x, portid=0x%x, data=0x%llx"%string)]).

(** The request passes the gates in front of the resolver: it is for
    this PMU (the two type numbers agree as unsigned), it counts (no
    sampling), it is not attached to a task and it names a CPU. *)
Definition passes_gates (w : world D) (event : perf_event) : Prop :=
  wrap32 (attr_type (attr event)) = wrap32 (pmu_type (priv w)) /\
  is_sampling_event event = false /\
  Z.land (attach_state event) PERF_ATTACH_TASK = 0 /\
  0 <= cpu event.

End SessionInvariant.

(** The attribute names in the order of the export, for the full
    counter set and for the basic one. *)
Definition all_event_names : list string :=
  map name (fme_perf_basic_events ++ fme_perf_fab_events
            ++ fme_perf_cache_events ++ fme_perf_vtd_events
            ++ fme_perf_vtd_sip_events).

Definition basic_fabric_event_names : list string :=
  map name (fme_perf_basic_events ++ fme_perf_fab_events).


(** ** The mode that the hardware is in *)

(** The working mode that a value of the fabric control register stands
    for, as [fme_perf_setup_hardware] reads it. *)
Definition hw_mode (v : Z) : Z :=
  if FIELD_GET FAB_PORT_FILTER v =? FAB_PORT_FILTER_DISABLE
  then FME_PORTID_ROOT
  else FIELD_GET FAB_PORT_ID v.

(** On plain registers: the mode in the private data is the mode that
    the fabric control register holds. *)
Definition mode_mirrors_hw (w : world regfile) : Prop :=
  fab_port_id (priv w) = hw_mode (wrap64 (reg_get FAB_CTRL (iomem w))).

(** ** The event listing *)

Definition newline : string := String (Ascii.ascii_of_nat 10) EmptyString.

(** Modelled from the spec: [sprintf] of the kernel library is not part
    of the driver file; the listing shows "event=0x<id>,evtype=0x<type>".
    The conversion "%02x" of an unsigned value: lower-case hexadecimal
    digits, padded with a zero to two digits. *)
Definition sprintf_02x (n : Z) : string :=
  match n with
  | Zpos p =>
      let digits := HexString.Raw.of_pos p EmptyString in
      if (String.length digits <? 2)%nat
      then ("0" ++ digits)%string else digits
  | _ => "00"%string
  end.

(** The text written to the page and the number of characters
    returned. *)
Definition fme_perf_event_sysfs_show (ev_attr : fme_perf_event_attr)
  : string * Z :=
  let buf := ("event=0x" ++ sprintf_02x (event_id ev_attr))%string in
  let buf := (buf ++ ",evtype=0x" ++ sprintf_02x (event_type ev_attr))%string in
  let buf :=
    if is_port_event ev_attr then (buf ++ ",portid=?" ++ newline)%string
    else (buf ++ ",portid=0x" ++ sprintf_02x FME_PORTID_ROOT ++ newline)%string
  in
  (buf, Z.of_nat (String.length buf)).

(** * Properties *)

(** ** Bit fields *)

(** The masks of the register map, as numbers. *)
Example register_masks :
  (CACHE_CTRL_EVNT, CACHE_CHANNEL_SEL, CACHE_CNTR_EVNT_CNTR, CACHE_CNTR_EVNT)
  = (0xF0000, 0x100000, 0xFFFFFFFFFFFF, 0xF000000000000000) /\
  (FAB_CTRL_EVNT, FAB_PORT_ID, FAB_PORT_FILTER, FAB_CNTR_EVNT_CNTR)
  = (0xF0000, 0x300000, 0x800000, 0xFFFFFFFFFFFFFFF) /\
  (FME_EVENT_MASK, FME_EVTYPE_MASK, FME_PORTID_MASK)
  = (0xFFF, 0xF000, 0xFF0000) /\
  (bf_shf FAB_PORT_ID, bf_shf FAB_PORT_FILTER, bf_shf CACHE_CNTR_EVNT,
   bf_shf FME_PORTID_MASK) = (20, 23, 60, 16).
Proof. repeat split. Qed.

Lemma FAB_PORT_ID_ones : FAB_PORT_ID = Z.shiftl (Z.ones 2) 20.
Proof. reflexivity. Qed.

Lemma FAB_PORT_FILTER_ones : FAB_PORT_FILTER = Z.shiftl (Z.ones 1) 23.
Proof. reflexivity. Qed.

Lemma fab_filter_clear_ones :
  not64 (Z.lor FAB_PORT_FILTER FAB_PORT_ID) =
  Z.lor (Z.ones 20) (Z.lor (Z.shiftl (Z.ones 1) 22) (Z.shiftl (Z.ones 40) 24)).
Proof. reflexivity. Qed.

Ltac fab_fields :=
  unfold fab_filter_word, FIELD_GET, FIELD_PREP;
  rewrite fab_filter_clear_ones;
  change (bf_shf FAB_PORT_ID) with 20;
  change (bf_shf FAB_PORT_FILTER) with 23;
  rewrite ?FAB_PORT_ID_ones, ?FAB_PORT_FILTER_ones;
  unfold wrap64, FAB_PORT_FILTER_ENABLE, FAB_PORT_FILTER_DISABLE;
  change (1 mod 2 ^ 64) with (Z.ones 1);
  change (0 mod 2 ^ 64) with 0.

Lemma fab_filter_word_filter (v port_id : Z) :
  FIELD_GET FAB_PORT_FILTER (fab_filter_word v port_id) =
  if port_id =? FME_PORTID_ROOT then FAB_PORT_FILTER_DISABLE
  else FAB_PORT_FILTER_ENABLE.
Proof.
  fab_fields. destruct (port_id =? FME_PORTID_ROOT).
  - Z.bitblast.
  - transitivity (Z.ones 1); [ Z.bitblast | reflexivity ].
Qed.

Lemma fab_filter_word_port (v port_id : Z) :
  FIELD_GET FAB_PORT_ID (fab_filter_word v port_id) =
  if port_id =? FME_PORTID_ROOT then 0 else port_id mod 2 ^ 2.
Proof.
  fab_fields. destruct (port_id =? FME_PORTID_ROOT).
  - Z.bitblast.
  - Z.bitblast.
Qed.

Lemma fab_filter_word_frame (v port_id i : Z) :
  is_u64 v -> 0 <= i -> i <> 20 -> i <> 21 -> i <> 23 ->
  Z.testbit (fab_filter_word v port_id) i = Z.testbit v i.
Proof.
  intros Hv Hi H20 H21 H23.
  rewrite <- (Z.mod_small v (2 ^ 64)) by exact Hv.
  fab_fields.
  destruct (port_id =? FME_PORTID_ROOT); Z.bitblast_core.
Qed.

Lemma cache_select_clear_ones :
  not64 (Z.lor CACHE_CHANNEL_SEL CACHE_CTRL_EVNT) =
  Z.lor (Z.ones 16) (Z.shiftl (Z.ones 43) 21).
Proof. reflexivity. Qed.

Lemma CACHE_CHANNEL_SEL_ones : CACHE_CHANNEL_SEL = Z.shiftl (Z.ones 1) 20.
Proof. reflexivity. Qed.

Lemma CACHE_CTRL_EVNT_ones : CACHE_CTRL_EVNT = Z.shiftl (Z.ones 4) 16.
Proof. reflexivity. Qed.

Ltac cache_fields :=
  unfold cache_select_word, FIELD_GET, FIELD_PREP;
  rewrite cache_select_clear_ones;
  change (bf_shf CACHE_CHANNEL_SEL) with 20;
  change (bf_shf CACHE_CTRL_EVNT) with 16;
  rewrite ?CACHE_CHANNEL_SEL_ones, ?CACHE_CTRL_EVNT_ones;
  unfold wrap64.

Lemma cache_select_word_event (c channel event : Z) :
  FIELD_GET CACHE_CTRL_EVNT (cache_select_word c channel event)
  = event mod 2 ^ 4.
Proof. cache_fields. Z.bitblast. Qed.

Lemma cache_select_word_channel (c channel event : Z) :
  FIELD_GET CACHE_CHANNEL_SEL (cache_select_word c channel event)
  = channel mod 2 ^ 1.
Proof. cache_fields. Z.bitblast. Qed.

Lemma cache_select_word_frame (c channel event i : Z) :
  is_u64 c -> 0 <= i -> ~ 16 <= i <= 20 ->
  Z.testbit (cache_select_word c channel event) i = Z.testbit c i.
Proof.
  intros Hc Hi Hout.
  rewrite <- (Z.mod_small c (2 ^ 64)) by exact Hc.
  cache_fields. Z.bitblast_core.
Qed.

Lemma wrap64_range (z : Z) : is_u64 (wrap64 z).
Proof. unfold is_u64, wrap64. apply Z.mod_pos_bound. lia. Qed.

Lemma wrap32_small (z : Z) : is_u32 z -> wrap32 z = z.
Proof. unfold is_u32, wrap32. intros Hz. apply Z.mod_small. exact Hz. Qed.

(** ** Classification of ports *)

Lemma classify_inj (a b : Z) : classify a = classify b <-> a = b.
Proof.
  unfold classify. split; [ | intros ->; reflexivity ].
  destruct (Z.eqb_spec a FME_PORTID_ROOT), (Z.eqb_spec b FME_PORTID_ROOT);
    intros Hc; congruence.
Qed.

Lemma current_mode_eqb (p : fme_perf_priv) (port_id : Z) :
  (fab_port_id p =? port_id) = true <-> current_mode p = classify port_id.
Proof.
  unfold current_mode. rewrite classify_inj. apply Z.eqb_eq.
Qed.

Lemma current_mode_neqb (p : fme_perf_priv) (port_id : Z) :
  (fab_port_id p =? port_id) = false <-> current_mode p <> classify port_id.
Proof.
  unfold current_mode. rewrite classify_inj. apply Z.eqb_neq.
Qed.

Section Facts.

Context {D : Type} `{MmioDevice D}.

Local Arguments fab_filter_word : simpl never.
Local Arguments FIELD_GET : simpl never.
Local Arguments wrap32 : simpl never.
Local Arguments wrap64 : simpl never.

(** ** Fabric mode arbiter *)

(** The three ways through [fabric_event_init]. *)
Lemma fabric_event_init_conflict (w : world D) (event port_id data : Z) :
  (fab_users (priv w) =? 0) = false ->
  (fab_port_id (priv w) =? port_id) = false ->
  fabric_event_init event port_id data w =
  Some (- EOPNOTSUPP,
        mk_world (set_fab_lock false (priv w)) (iomem w) (mmio w)
                 (dmesg w ++ [(KERN_DEBUG,
                    "conflict fabric event monitoring mode."%string)])).
Proof.
  intros Hu Hp. unfold fabric_event_init, bind, spin_lock_fab, modify_priv,
    get_priv. cbn. rewrite Hu, Hp. reflexivity.
Qed.

Lemma fabric_event_init_same_mode (w : world D) (event port_id data : Z) :
  (fab_port_id (priv w) =? port_id) = true ->
  fabric_event_init event port_id data w =
  Some (0,
        mk_world (set_fab_lock false
                    (set_fab_users (wrap32 (fab_users (priv w) + 1)) (priv w)))
                 (iomem w) (mmio w) (dmesg w)).
Proof.
  intros Hp. unfold fabric_event_init, bind, spin_lock_fab, modify_priv,
    get_priv. cbn. rewrite Hp, andb_false_r. reflexivity.
Qed.

Lemma fabric_event_init_switch (w : world D) (event port_id data : Z) :
  (fab_users (priv w) =? 0) = true ->
  (fab_port_id (priv w) =? port_id) = false ->
  let v := wrap64 (fst (dev_readq FAB_CTRL (iomem w))) in
  let v' := fab_filter_word v port_id in
  fabric_event_init event port_id data w =
  Some (0,
        mk_world (set_fab_lock false
                    (set_fab_port_id port_id
                       (set_fab_users (wrap32 (fab_users (priv w) + 1))
                                      (priv w))))
                 (dev_writeq FAB_CTRL v' (snd (dev_readq FAB_CTRL (iomem w))))
                 (mmio w ++ [MmioRead FAB_CTRL v; MmioWrite FAB_CTRL v'])
                 (dmesg w)).
Proof.
  intros Hu Hp. unfold fabric_event_init, bind, spin_lock_fab, modify_priv,
    get_priv, readq, writeq, spin_unlock_fab, ret. cbn. rewrite Hu, Hp. cbn.
  destruct (dev_readq FAB_CTRL (iomem w)) as [raw d]. cbn.
  rewrite <- app_assoc. reflexivity.
Qed.

(** C1: [fabric_event_init] (the arbiter's open) fails with -EOPNOTSUPP,
    the driver's "busy" answer, exactly when there are users and the
    current mode differs from the classification of the requested port;
    a failure leaves mode, user count and registers alone; a success
    increments the user count by one (as a [u32]), and rewrites the
    filter sub-fields of the fabric control register exactly when the
    prior mode differed from the requested one: filter off for the
    aggregate sentinel, filter on with the port id in the two-bit port
    field otherwise, every other bit as the control register held it
    when it was read. *)
Theorem fabric_event_init_arbitrates (w : world D) (event port_id data : Z) :
  is_u32 (fab_users (priv w)) ->
  exists r w',
    fabric_event_init event port_id data w = Some (r, w') /\
    (r = - EOPNOTSUPP \/ r = 0) /\
    (r = - EOPNOTSUPP <->
     fab_users (priv w) > 0 /\ current_mode (priv w) <> classify port_id) /\
    (r = - EOPNOTSUPP ->
     current_mode (priv w') = current_mode (priv w) /\
     fab_users (priv w') = fab_users (priv w) /\
     iomem w' = iomem w /\ mmio w' = mmio w) /\
    (r = 0 ->
     fab_users (priv w') = wrap32 (fab_users (priv w) + 1) /\
     (fab_users (priv w) < 2 ^ 32 - 1 ->
      fab_users (priv w') = fab_users (priv w) + 1) /\
     current_mode (priv w') = classify port_id /\
     (current_mode (priv w) = classify port_id ->
      iomem w' = iomem w /\ mmio w' = mmio w) /\
     (current_mode (priv w) <> classify port_id ->
      exists v v',
        v = wrap64 (fst (dev_readq FAB_CTRL (iomem w))) /\
        mmio w' = mmio w ++ [MmioRead FAB_CTRL v; MmioWrite FAB_CTRL v'] /\
        iomem w' =
          dev_writeq FAB_CTRL v' (snd (dev_readq FAB_CTRL (iomem w))) /\
        FIELD_GET FAB_PORT_FILTER v' =
          (if port_id =? FME_PORTID_ROOT then FAB_PORT_FILTER_DISABLE
           else FAB_PORT_FILTER_ENABLE) /\
        FIELD_GET FAB_PORT_ID v' =
          (if port_id =? FME_PORTID_ROOT then 0 else port_id mod 2 ^ 2) /\
        (0 <= port_id < 2 ^ 2 -> FIELD_GET FAB_PORT_ID v' = port_id) /\
        (forall i, 0 <= i -> i <> 20 -> i <> 21 -> i <> 23 ->
                   Z.testbit v' i = Z.testbit v i))).
Proof.
  intros Hu.
  assert (Hinc : fab_users (priv w) < 2 ^ 32 - 1 ->
                 wrap32 (fab_users (priv w) + 1) = fab_users (priv w) + 1).
  { intros Hlt. apply wrap32_small. unfold is_u32 in *. lia. }
  destruct (fab_port_id (priv w) =? port_id) eqn:Hp.
  - (* the mode matches *)
    eexists. eexists. split.
    { apply fabric_event_init_same_mode. exact Hp. }
    apply current_mode_eqb in Hp. cbn.
    split; [ right; reflexivity | ].
    split; [ split; [ discriminate | intros [_ Hne]; contradiction ] | ].
    split; [ discriminate | ].
    intros _. repeat split; try assumption.
    intros Hne. contradiction.
  - destruct (fab_users (priv w) =? 0) eqn:Hz.
    + (* no user: the mode changes *)
      eexists. eexists. split.
      { apply fabric_event_init_switch; assumption. }
      apply current_mode_neqb in Hp. apply Z.eqb_eq in Hz. cbn.
      split; [ right; reflexivity | ].
      split; [ split; [ discriminate | intros [Hgt _]; lia ] | ].
      split; [ discriminate | ].
      intros _.
      split; [ reflexivity | ].
      split; [ exact Hinc | ].
      split; [ reflexivity | ].
      split; [ intros He; contradiction | ].
      intros _. eexists. eexists.
      split; [ reflexivity | ].
      split; [ reflexivity | ].
      split; [ reflexivity | ].
      split; [ apply fab_filter_word_filter | ].
      split; [ apply fab_filter_word_port | ].
      split.
      * intros Hr. rewrite fab_filter_word_port.
        destruct (Z.eqb_spec port_id FME_PORTID_ROOT) as [He | He].
        -- unfold FME_PORTID_ROOT in He. lia.
        -- apply Z.mod_small. exact Hr.
      * intros i Hi H20 H21 H23.
        apply fab_filter_word_frame; try assumption. apply wrap64_range.
    + (* users of another mode *)
      eexists. eexists. split.
      { apply fabric_event_init_conflict; assumption. }
      apply current_mode_neqb in Hp. apply Z.eqb_neq in Hz. cbn.
      split; [ left; reflexivity | ].
      split.
      { split; [ intros _ | reflexivity ].
        split; [ unfold is_u32 in Hu; lia | exact Hp ]. }
      split; [ intros _; repeat split | discriminate ].
Qed.

(** C8: [fabric_event_destroy] (the arbiter's close) decrements the user
    count by one (as a [u32]) and changes nothing else: the mode and
    every other field of the private data stay, the lock is free again,
    no register is read or written, nothing is logged. *)
Theorem fabric_event_destroy_only_decrements
    (w : world D) (event port_id data : Z) :
  exists w',
    fabric_event_destroy event port_id data w = Some (tt, w') /\
    fab_users (priv w') = wrap32 (fab_users (priv w) - 1) /\
    (0 < fab_users (priv w) < 2 ^ 32 ->
     fab_users (priv w') = fab_users (priv w) - 1) /\
    fab_port_id (priv w') = fab_port_id (priv w) /\
    current_mode (priv w') = current_mode (priv w) /\
    iomem w' = iomem w /\ mmio w' = mmio w /\ dmesg w' = dmesg w /\
    pmu_type (priv w') = pmu_type (priv w) /\
    pmu_capabilities (priv w') = pmu_capabilities (priv w) /\
    id (priv w') = id (priv w) /\
    events_group (priv w') = events_group (priv w) /\
    fab_lock (priv w') = false.
Proof.
  eexists. split.
  { unfold fabric_event_destroy, bind, spin_lock_fab, spin_unlock_fab,
      modify_priv. cbn. reflexivity. }
  cbn. split; [ reflexivity | ].
  split; [ | repeat split ].
  intros Hr. apply wrap32_small. unfold is_u32. lia.
Qed.

(** ** The arbiter invariant *)

Lemma drop_nth_length {A : Type} (l : list A) (k : nat) (x : A) :
  nth_error l k = Some x ->
  S (List.length (drop_nth k l)) = List.length l.
Proof.
  revert k. induction l as [ | y l IH ]; intros [ | k ] Hk; cbn in *;
    try discriminate; try reflexivity.
  f_equal. apply IH. exact Hk.
Qed.

Lemma drop_nth_Forall {A : Type} (P : A -> Prop) (l : list A) (k : nat) :
  Forall P l -> Forall P (drop_nth k l).
Proof.
  intros Hl. revert k. induction Hl as [ | y l Hy Hl IH ]; intros [ | k ];
    cbn; auto.
Qed.

Lemma arb_step_inv (s s' : arbiter D) :
  arb_inv s -> arb_step s s' -> arb_inv s'.
Proof.
  intros (Hn & Hb & Hall) Hstep.
  destruct Hstep as [ s event port_id data w' Hport Hroom Hinit
                    | s k event port_id data w' Hk Hclose ].
  - (* open *)
    destruct (fab_port_id (priv (arb_world s)) =? port_id) eqn:Hp.
    + rewrite fabric_event_init_same_mode in Hinit by exact Hp.
      injection Hinit as <-. apply Z.eqb_eq in Hp.
      unfold arb_inv. cbn. rewrite Hn.
      split; [ | split ].
      * rewrite wrap32_small by (unfold is_u32; lia). lia.
      * lia.
      * constructor; [ symmetry; exact Hp | exact Hall ].
    + destruct (fab_users (priv (arb_world s)) =? 0) eqn:Hz.
      * rewrite fabric_event_init_switch in Hinit by assumption.
        injection Hinit as <-. apply Z.eqb_eq in Hz.
        assert (Hnil : arb_open s = []).
        { destruct (arb_open s); [ reflexivity | cbn in Hn; lia ]. }
        unfold arb_inv. cbn. rewrite Hz, Hnil. cbn.
        split; [ reflexivity | ].
        split; [ lia | ].
        constructor; [ reflexivity | constructor ].
      * rewrite fabric_event_init_conflict in Hinit by assumption.
        discriminate Hinit.
  - (* close *)
    unfold fabric_event_destroy, bind, spin_lock_fab, spin_unlock_fab,
      modify_priv in Hclose. cbn in Hclose. injection Hclose as <-.
    pose proof (drop_nth_length _ _ _ Hk) as Hlen.
    unfold arb_inv. cbn. rewrite Hn.
    split; [ | split ].
    + rewrite wrap32_small by (unfold is_u32; lia). lia.
    + lia.
    + apply drop_nth_Forall. exact Hall.
Qed.

Lemma arb_reachable_inv (s : arbiter D) : arb_reachable s -> arb_inv s.
Proof.
  induction 1 as [ w Hw | s s' Hs IH Hstep ].
  - unfold arb_inv. cbn. rewrite Hw.
    split; [ reflexivity | split; [ lia | constructor ] ].
  - eapply arb_step_inv; eassumption.
Qed.

(** C4: in every state that successful opens and closes reach from a
    user count of zero (with fewer than 2^32 sessions open at a time),
    if the user count is positive then all open fabric sessions asked
    for ports of one classification, the current mode is that
    classification, and the user count is the number of open
    sessions. *)
Theorem arbiter_sessions_agree (s : arbiter D) :
  arb_reachable s ->
  fab_users (priv (arb_world s)) > 0 ->
  (forall p q, In p (arb_open s) -> In q (arb_open s) ->
               classify p = classify q) /\
  (forall p, In p (arb_open s) ->
             current_mode (priv (arb_world s)) = classify p) /\
  fab_users (priv (arb_world s)) = Z.of_nat (List.length (arb_open s)) /\
  arb_open s <> [].
Proof.
  intros Hr Hpos. destruct (arb_reachable_inv s Hr) as (Hn & _ & Hall).
  rewrite Forall_forall in Hall.
  split; [ | split; [ | split ] ].
  - intros p q Hp Hq. rewrite (Hall p Hp), (Hall q Hq). reflexivity.
  - intros p Hp. unfold current_mode. rewrite (Hall p Hp). reflexivity.
  - exact Hn.
  - intros Hnil. rewrite Hnil in Hn. cbn in Hn. lia.
Qed.

(** ** Device attach *)

Lemma fme_perf_init_attached (w : world D) (feature_id : Z) (env : attach_env) :
  kzalloc_ok env = true -> kcalloc_ok env = true ->
  pmu_register_ret env = 0 ->
  let v := wrap64 (fst (dev_readq FAB_CTRL (iomem w))) in
  exists p,
    fme_perf_init feature_id env w =
    Some (0, mk_world p (snd (dev_readq FAB_CTRL (iomem w)))
                      (mmio w ++ [MmioRead FAB_CTRL v])
                      (dmesg w ++ [(KERN_DEBUG, "FME Perf Init"%string)])) /\
    fab_users p = 0 /\
    fab_lock p = false /\
    id p = feature_id /\
    pmu_type p = pmu_register_type env /\
    fab_port_id p =
      if FIELD_GET FAB_PORT_FILTER v =? FAB_PORT_FILTER_DISABLE
      then FME_PORTID_ROOT else wrap32 (FIELD_GET FAB_PORT_ID v).
Proof.
  intros Hz Hc Hr v.
  unfold fme_perf_init, fme_perf_pmu_register, fme_perf_setup_attrs,
    fme_perf_setup_hardware, bind, dev_dbg, printk, modify_priv, get_priv,
    ret, readq.
  cbn. rewrite Hz, Hc, Hr. cbn.
  destruct (dev_readq FAB_CTRL (iomem w)) as [raw d] eqn:Hread.
  subst v. cbn.
  destruct (FIELD_GET FAB_PORT_FILTER (wrap64 raw) =? FAB_PORT_FILTER_DISABLE);
    cbn; eexists; (split; [ reflexivity | ]); cbn; repeat split.
Qed.

(** C10: when attach succeeds, the initial mode is what the fabric
    control register of the device says, read once at attach (the
    aggregate sentinel if the port filter bit reads as disabled, the
    port-id sub-field otherwise), the user count
    is zero, and a first open whose port classifies as that mode
    succeeds without touching a register. *)
Theorem fme_perf_init_adopts_hardware_mode
    (w : world D) (feature_id : Z) (env : attach_env) :
  kzalloc_ok env = true -> kcalloc_ok env = true ->
  pmu_register_ret env = 0 ->
  exists v w',
    fme_perf_init feature_id env w = Some (0, w') /\
    v = wrap64 (fst (dev_readq FAB_CTRL (iomem w))) /\
    mmio w' = mmio w ++ [MmioRead FAB_CTRL v] /\
    iomem w' = snd (dev_readq FAB_CTRL (iomem w)) /\
    fab_users (priv w') = 0 /\
    fab_port_id (priv w') =
      (if FIELD_GET FAB_PORT_FILTER v =? FAB_PORT_FILTER_DISABLE
       then FME_PORTID_ROOT else FIELD_GET FAB_PORT_ID v) /\
    (forall event port_id data,
       classify port_id = current_mode (priv w') ->
       exists w'',
         fabric_event_init event port_id data w' = Some (0, w'') /\
         fab_users (priv w'') = 1 /\
         current_mode (priv w'') = current_mode (priv w') /\
         iomem w'' = iomem w' /\ mmio w'' = mmio w').
Proof.
  intros Hz Hc Hr.
  destruct (fme_perf_init_attached w feature_id env Hz Hc Hr)
    as (p & Hinit & Hu & Hl & _ & _ & Hmode).
  eexists. eexists. split; [ exact Hinit | ]. cbn [priv iomem mmio dmesg].
  split; [ reflexivity | ].
  split; [ reflexivity | ].
  split; [ reflexivity | ].
  split; [ exact Hu | ].
  split.
  { rewrite Hmode.
    destruct (FIELD_GET FAB_PORT_FILTER _ =? FAB_PORT_FILTER_DISABLE);
      [ reflexivity | ].
    apply wrap32_small. unfold FIELD_GET, is_u32.
    change (bf_shf FAB_PORT_ID) with 20. rewrite FAB_PORT_ID_ones.
    match goal with |- 0 <= ?x < _ => assert (Hx : x = x mod 2 ^ 2) end.
    { Z.bitblast. }
    rewrite Hx. pose proof (Z.mod_pos_bound
      (Z.shiftr (Z.land (wrap64 (fst (dev_readq FAB_CTRL (iomem w))))
                        (Z.shiftl (Z.ones 2) 20)) 20) (2 ^ 2)). lia. }
  intros event port_id data Hcl. symmetry in Hcl.
  apply current_mode_eqb in Hcl.
  eexists. split.
  { apply fabric_event_init_same_mode. exact Hcl. }
  cbn. rewrite Hu. repeat split.
Qed.

(** ** Event resolver *)

Lemma scan_ev_attrs_scope (evs : list fme_perf_event_attr) (k : nat)
    (eid : Z) (is_port : bool) (i : nat) (a : fme_perf_event_attr) :
  scan_ev_attrs evs k eid is_port = Some (i, a) ->
  event_id a = eid /\ is_port_event a = is_port.
Proof.
  revert k. induction evs as [ | b evs IH ]; intros k Hs; cbn in Hs.
  - discriminate.
  - destruct ((eid =? event_id b) && Bool.eqb is_port (is_port_event b))
      eqn:Hm.
    + injection Hs as _ <-. apply andb_prop in Hm. destruct Hm as [He Hb].
      apply Z.eqb_eq in He. apply Bool.eqb_prop in Hb. auto.
    + eapply IH. exact Hs.
Qed.

(** What the resolver hands out has the scope of the port: a global
    descriptor is only ever returned for the aggregate sentinel. *)
Lemma get_event_attr_scope (eid ety port_id : Z) (i : nat)
    (a : fme_perf_event_attr) :
  get_event_attr (D := D) eid ety port_id = Some (i, a) ->
  event_id a = eid /\
  is_port_event a = negb (port_id =? FME_PORTID_ROOT).
Proof.
  unfold get_event_attr. destruct (ety >? FME_EVTYPE_MAX); [ discriminate | ].
  destruct (nth_error fme_perf_event_groups (Z.to_nat ety));
    [ | discriminate ].
  apply scan_ev_attrs_scope.
Qed.

Ltac each_slot i Ha :=
  repeat (destruct i as [ | i ];
          [ injection Ha as <-; vm_compute; reflexivity | ]);
  destruct i; discriminate Ha.

Lemma catalog_types (t i : nat) (g : fme_perf_event_group)
    (a : fme_perf_event_attr) :
  nth_error (fme_perf_event_groups (D := D)) t = Some g ->
  nth_error (ev_attrs g) i = Some a ->
  event_type a = Z.of_nat t.
Proof.
  intros Hg Ha.
  do 5 (destruct t as [ | t ];
        [ injection Hg as <-; cbn [ev_attrs FME_EVENT_GROUP] in Ha;
          each_slot i Ha | ]).
  destruct t; discriminate Hg.
Qed.

Lemma catalog_resolves_global (t i : nat) (g : fme_perf_event_group)
    (a : fme_perf_event_attr) :
  nth_error (fme_perf_event_groups (D := D)) t = Some g ->
  nth_error (ev_attrs g) i = Some a ->
  is_port_event a = false ->
  get_event_attr (D := D) (event_id a) (event_type a) FME_PORTID_ROOT
  = Some (i, a).
Proof.
  intros Hg Ha.
  do 5 (destruct t as [ | t ];
        [ injection Hg as <-; cbn [ev_attrs FME_EVENT_GROUP] in Ha;
          repeat (destruct i as [ | i ];
                  [ injection Ha as <-; vm_compute;
                    solve [ reflexivity | discriminate ] | ]);
          destruct i; discriminate Ha | ]).
  destruct t; discriminate Hg.
Qed.

Lemma catalog_resolves_port (t i : nat) (g : fme_perf_event_group)
    (a : fme_perf_event_attr) :
  nth_error (fme_perf_event_groups (D := D)) t = Some g ->
  nth_error (ev_attrs g) i = Some a ->
  is_port_event a = true ->
  get_event_attr (D := D) (event_id a) (event_type a) 0 = Some (i, a).
Proof.
  intros Hg Ha.
  do 5 (destruct t as [ | t ];
        [ injection Hg as <-; cbn [ev_attrs FME_EVENT_GROUP] in Ha;
          repeat (destruct i as [ | i ];
                  [ injection Ha as <-; vm_compute;
                    solve [ reflexivity | discriminate ] | ]);
          destruct i; discriminate Ha | ]).
  destruct t; discriminate Hg.
Qed.

Lemma catalog_id_scope_unique (t : nat) (g : fme_perf_event_group) :
  nth_error (fme_perf_event_groups (D := D)) t = Some g ->
  NoDup (map id_scope (ev_attrs g)).
Proof.
  intros Hg.
  do 5 (destruct t as [ | t ];
        [ injection Hg as <-; cbn;
          repeat (constructor; [ cbn; intuition discriminate | ]);
          constructor | ]).
  destruct t; discriminate Hg.
Qed.

(** C5: for every descriptor of the catalog, resolving its id and type
    with a port that is valid for its scope returns that very slot; and
    within a group no two descriptors share both id and scope. *)
Theorem get_event_attr_resolves_catalog :
  (forall (t i : nat) (g : fme_perf_event_group) (a : fme_perf_event_attr)
          (port_id : Z),
     nth_error (fme_perf_event_groups (D := D)) t = Some g ->
     nth_error (ev_attrs g) i = Some a ->
     valid_port_for a port_id ->
     event_type a = Z.of_nat t /\
     get_event_attr (D := D) (event_id a) (event_type a) port_id
     = Some (i, a)) /\
  (forall (t : nat) (g : fme_perf_event_group),
     nth_error (fme_perf_event_groups (D := D)) t = Some g ->
     NoDup (map id_scope (ev_attrs g))) /\
  (forall (t i j : nat) (g : fme_perf_event_group)
          (a b : fme_perf_event_attr),
     nth_error (fme_perf_event_groups (D := D)) t = Some g ->
     nth_error (ev_attrs g) i = Some a ->
     nth_error (ev_attrs g) j = Some b ->
     event_id a = event_id b -> is_port_event a = is_port_event b ->
     i = j).
Proof.
  split; [ | split ].
  - intros t i g a port_id Hg Ha Hv.
    split; [ eapply catalog_types; eassumption | ].
    unfold valid_port_for in Hv.
    destruct (is_port_event a) eqn:Hp.
    + assert (port_id = 0) as -> by (unfold PERF_MAX_PORT_NUM in Hv; lia).
      eapply catalog_resolves_port; eassumption.
    + subst port_id. eapply catalog_resolves_global; eassumption.
  - exact catalog_id_scope_unique.
  - intros t i j g a b Hg Ha Hb Hid Hsc.
    pose proof (catalog_id_scope_unique t g Hg) as Hnd.
    rewrite NoDup_nth_error in Hnd. apply Hnd.
    + rewrite length_map. apply nth_error_Some. rewrite Ha. discriminate.
    + rewrite !nth_error_map, Ha, Hb. cbn. unfold id_scope.
      rewrite Hid, Hsc. reflexivity.
Qed.

(** ** Monitoring facade: validation at open *)

(** An event of another PMU is passed on: the perf core offers events
    to the PMUs in turn, and -ENOENT says "not mine". *)
Lemma fme_perf_event_init_other_pmu (w : world D) (event : perf_event) :
  wrap32 (attr_type (attr event)) <> wrap32 (pmu_type (priv w)) ->
  fme_perf_event_init event w = Some ((- ENOENT, event), w).
Proof.
  intros Hty. unfold fme_perf_event_init, bind, get_priv.
  apply Z.eqb_neq in Hty. rewrite Hty. reflexivity.
Qed.

(** C9: an open request for this PMU that asks for sampling, or is
    attached to a task, or names no CPU, fails with -EINVAL; the machine
    (registers, access trace, private data, log) and the event are as
    before. *)
Theorem fme_perf_event_init_rejects_sampling_task_nocpu
    (w : world D) (event : perf_event) :
  attr_type (attr event) = pmu_type (priv w) ->
  is_sampling_event event = true \/
  Z.land (attach_state event) PERF_ATTACH_TASK <> 0 \/
  cpu event < 0 ->
  fme_perf_event_init event w = Some ((- EINVAL, event), w).
Proof.
  intros Hty Hbad. unfold fme_perf_event_init, bind, get_priv.
  rewrite Hty, Z.eqb_refl. cbn [negb].
  destruct (is_sampling_event event) eqn:Hs; [ reflexivity | ].
  destruct (Z.eqb_spec (Z.land (attach_state event) PERF_ATTACH_TASK) 0)
    as [Ht | Ht]; [ | reflexivity ].
  cbn [negb orb].
  destruct (Z.ltb_spec (cpu event) 0) as [Hc | Hc]; [ reflexivity | ].
  destruct Hbad as [Hb | [Hb | Hb]];
    [ discriminate Hb | contradiction | lia ].
Qed.

(** C6: an open request for this PMU whose configuration word resolves
    to a per-port descriptor with a port at or above the maximum port
    count, or to a global descriptor with a port other than the
    aggregate sentinel, fails with -EINVAL; the machine and the event
    are as before: no session state is set up. *)
Theorem fme_perf_event_init_rejects_port_out_of_scope
    (w : world D) (event : perf_event) (i : nat) (a : fme_perf_event_attr) :
  let cfg := attr_config (attr event) in
  let event_id := wrap32 (FIELD_GET FME_EVENT_MASK cfg) in
  let event_type := wrap32 (FIELD_GET FME_EVTYPE_MASK cfg) in
  let port_id := wrap32 (FIELD_GET FME_PORTID_MASK cfg) in
  attr_type (attr event) = pmu_type (priv w) ->
  get_event_attr (D := D) event_id event_type port_id = Some (i, a) ->
  (is_port_event a = true /\ port_id >= PERF_MAX_PORT_NUM) \/
  (is_port_event a = false /\ port_id <> FME_PORTID_ROOT) ->
  fme_perf_event_init event w = Some ((- EINVAL, event), w).
Proof.
  intros cfg event_id event_type port_id Hty Hres Hbad.
  unfold fme_perf_event_init, bind, get_priv.
  rewrite Hty, Z.eqb_refl. cbn [negb].
  destruct (is_sampling_event event
            || negb (Z.land (attach_state event) PERF_ATTACH_TASK =? 0));
    [ reflexivity | ].
  destruct (cpu event <? 0); [ reflexivity | ].
  fold cfg. fold event_id event_type port_id. rewrite Hres.
  destruct Hbad as [[Hp Hge] | [Hp Hne]]; rewrite Hp; cbn [andb negb orb].
  - destruct (Z.geb_spec port_id PERF_MAX_PORT_NUM) as [Hc | Hc];
      [ reflexivity | lia ].
  - destruct (Z.eqb_spec port_id FME_PORTID_ROOT) as [Hc | Hc];
      [ contradiction | reflexivity ].
Qed.

(** ** Register access drivers *)

Lemma readq_run (addr : Z) (w : world D) :
  readq addr w =
  Some (wrap64 (fst (dev_readq addr (iomem w))),
        mk_world (priv w) (snd (dev_readq addr (iomem w)))
                 (mmio w ++ [MmioRead addr
                               (wrap64 (fst (dev_readq addr (iomem w))))])
                 (dmesg w)).
Proof.
  unfold readq. destruct (dev_readq addr (iomem w)). reflexivity.
Qed.

(** The polling loop always ends; it only reads the polled register;
    every value but the last one misses the condition, and if the last
    one misses it too, all the rounds were used. *)
Lemma poll_loop_trace (n : nat) (addr : Z) (cond : Z -> bool) (w : world D) :
  exists v w' polled,
    poll_loop n addr cond w = Some (v, w') /\
    mmio w' = mmio w ++ map (MmioRead addr) (polled ++ [v]) /\
    priv w' = priv w /\ dmesg w' = dmesg w /\
    Forall (fun x => cond x = false) polled /\
    (cond v = false -> List.length polled = S n).
Proof.
  revert w. induction n as [ | n IH ]; intros w; cbn [poll_loop];
    rewrite readq_run;
    set (v := wrap64 (fst (dev_readq addr (iomem w))));
    set (w1 := mk_world _ _ _ _);
    destruct (cond v) eqn:Hc.
  - exists v, w1, []. cbn. repeat split; auto. congruence.
  - rewrite readq_run.
    eexists. eexists. exists [v]. split; [ reflexivity | ]. cbn.
    rewrite <- app_assoc. repeat split; auto.
  - exists v, w1, []. cbn. repeat split; auto. congruence.
  - destruct (IH w1) as (v' & w' & polled & Hrun & Hm & Hp & Hd & Hall & Hlen).
    exists v', w', (v :: polled). split; [ exact Hrun | ].
    rewrite Hm, Hp, Hd. subst w1. cbn. rewrite <- app_assoc.
    repeat split; auto.
Qed.

Lemma readq_poll_timeout_atomic_trace (addr : Z) (cond : Z -> bool)
    (delay_us timeout_us : Z) (w : world D) :
  exists v w' polled,
    readq_poll_timeout_atomic addr cond delay_us timeout_us w =
      Some ((if cond v then 0 else - ETIMEDOUT, v), w') /\
    mmio w' = mmio w ++ map (MmioRead addr) (polled ++ [v]) /\
    priv w' = priv w /\ dmesg w' = dmesg w /\
    Forall (fun x => cond x = false) polled /\
    (cond v = false ->
     List.length polled = S (dev_poll_rounds delay_us timeout_us)).
Proof.
  destruct (poll_loop_trace (dev_poll_rounds delay_us timeout_us) addr cond w)
    as (v & w' & polled & Hrun & Hrest).
  exists v, w', polled. split; [ | exact Hrest ].
  unfold readq_poll_timeout_atomic, bind. rewrite Hrun. reflexivity.
Qed.

(** The polling loop with the number of its reads: at most one per
    round, one more for the round in which the time ran out, and the
    last one. *)
Lemma poll_loop_bounded (n : nat) (addr : Z) (cond : Z -> bool) (w : world D) :
  exists v w' polled,
    poll_loop n addr cond w = Some (v, w') /\
    mmio w' = mmio w ++ map (MmioRead addr) (polled ++ [v]) /\
    priv w' = priv w /\ dmesg w' = dmesg w /\
    Forall (fun x => cond x = false) polled /\
    (cond v = false -> List.length polled = S n) /\
    (List.length polled <= S n)%nat /\
    is_u64 v.
Proof.
  revert w. induction n as [ | n IH ]; intros w; cbn [poll_loop];
    rewrite readq_run;
    set (v := wrap64 (fst (dev_readq addr (iomem w))));
    set (w1 := mk_world _ _ _ _);
    destruct (cond v) eqn:Hc.
  - exists v, w1, []. cbn. repeat split; auto; try congruence; try lia;
      apply wrap64_range.
  - rewrite readq_run.
    eexists. eexists. exists [v]. split; [ reflexivity | ]. cbn.
    rewrite <- app_assoc. repeat split; auto; try lia; apply wrap64_range.
  - exists v, w1, []. cbn. repeat split; auto; try congruence; try lia;
      apply wrap64_range.
  - destruct (IH w1)
      as (v' & w' & polled & Hrun & Hm & Hp & Hd & Hall & Hlen & Hle & Hv).
    exists v', w', (v :: polled). split; [ exact Hrun | ].
    rewrite Hm, Hp, Hd. subst w1. cbn. rewrite <- app_assoc.
    repeat split; auto; try lia; apply Hv.
Qed.

Lemma readq_poll_timeout_atomic_bounded (addr : Z) (cond : Z -> bool)
    (delay_us timeout_us : Z) (w : world D) :
  exists v w' polled,
    readq_poll_timeout_atomic addr cond delay_us timeout_us w =
      Some ((if cond v then 0 else - ETIMEDOUT, v), w') /\
    mmio w' = mmio w ++ map (MmioRead addr) (polled ++ [v]) /\
    priv w' = priv w /\ dmesg w' = dmesg w /\
    Forall (fun x => cond x = false) polled /\
    (cond v = false ->
     List.length polled = S (dev_poll_rounds delay_us timeout_us)) /\
    (List.length polled <= S (dev_poll_rounds delay_us timeout_us))%nat /\
    is_u64 v.
Proof.
  destruct (poll_loop_bounded (dev_poll_rounds delay_us timeout_us) addr cond w)
    as (v & w' & polled & Hrun & Hrest).
  exists v, w', polled. split; [ | exact Hrest ].
  unfold readq_poll_timeout_atomic, bind. rewrite Hrun. reflexivity.
Qed.

(** The trace is a faithful record: what a computation appends to it
    is what the device answered. *)
Lemma device_answers_app (d d1 d2 : D) (l1 l2 : list mmio_op) :
  device_answers d l1 d1 -> device_answers d1 l2 d2 ->
  device_answers d (l1 ++ l2) d2.
Proof.
  revert d. induction l1 as [ | [addr v | addr v] l1 IH ]; intros d; cbn.
  - intros ->. auto.
  - intros [Hv H1] H2. split; [ exact Hv | ]. apply IH; assumption.
  - intros H1 H2. apply IH; assumption.
Qed.

Lemma answered_refl (w : world D) : answered w w.
Proof. exists []. rewrite app_nil_r. split; reflexivity. Qed.

Lemma answered_trans (w1 w2 w3 : world D) :
  answered w1 w2 -> answered w2 w3 -> answered w1 w3.
Proof.
  intros (l1 & Hm1 & Ha1) (l2 & Hm2 & Ha2). exists (l1 ++ l2).
  split; [ rewrite Hm2, Hm1, app_assoc; reflexivity | ].
  eapply device_answers_app; eassumption.
Qed.

Lemma answered_trace (w w' : world D) (l : list mmio_op) :
  answered w w' -> mmio w' = mmio w ++ l ->
  device_answers (iomem w) l (iomem w').
Proof.
  intros (l0 & Hm & Ha) Hl. rewrite Hm in Hl. apply app_inv_head in Hl.
  subst l0. exact Ha.
Qed.

Lemma honest_ret {A : Type} (a : A) : honest (D := D) (ret a).
Proof. intros w a' w' Hrun. injection Hrun as _ <-. apply answered_refl. Qed.

Lemma honest_bind {A B : Type} (m : kern D A) (k : A -> kern D B) :
  honest m -> (forall a, honest (k a)) -> honest (bind m k).
Proof.
  intros Hm Hk w b w' Hrun. unfold bind in Hrun.
  destruct (m w) as [[a w1] | ] eqn:Hmw; [ | discriminate Hrun ].
  eapply answered_trans; [ eapply Hm | eapply Hk ]; eassumption.
Qed.

Lemma honest_readq (addr : Z) : honest (D := D) (readq addr).
Proof.
  intros w a w' Hrun. rewrite readq_run in Hrun. injection Hrun as _ <-.
  eexists. split; [ reflexivity | ]. cbn. split; reflexivity.
Qed.

Lemma honest_writeq (v addr : Z) : honest (D := D) (writeq v addr).
Proof.
  intros w a w' Hrun. injection Hrun as _ <-.
  eexists. split; [ reflexivity | ]. cbn. reflexivity.
Qed.

Lemma honest_printk (l : loglevel) (msg : string) :
  honest (D := D) (printk l msg).
Proof.
  intros w a w' Hrun. injection Hrun as _ <-. exists [].
  cbn. rewrite app_nil_r. split; reflexivity.
Qed.

Lemma honest_modify_priv (f : fme_perf_priv -> fme_perf_priv) :
  honest (D := D) (modify_priv f).
Proof.
  intros w a w' Hrun. injection Hrun as _ <-. exists [].
  cbn. rewrite app_nil_r. split; reflexivity.
Qed.

Lemma honest_get_priv : honest (D := D) get_priv.
Proof. intros w a w' Hrun. injection Hrun as _ <-. apply answered_refl. Qed.

Lemma honest_poll_loop (n : nat) (addr : Z) (cond : Z -> bool) :
  honest (D := D) (poll_loop n addr cond).
Proof.
  induction n as [ | n IH ]; intros w a w' Hrun; cbn [poll_loop] in Hrun;
    destruct (readq addr w) as [[v w1] | ] eqn:Hr; try discriminate Hrun;
    pose proof (honest_readq addr _ _ _ Hr) as H1;
    destruct (cond v).
  - injection Hrun as _ <-. exact H1.
  - eapply answered_trans; [ exact H1 | ].
    eapply honest_readq; eassumption.
  - injection Hrun as _ <-. exact H1.
  - eapply answered_trans; [ exact H1 | ]. eapply IH; eassumption.
Qed.

Lemma honest_readq_poll_timeout_atomic (addr : Z) (cond : Z -> bool)
    (delay_us timeout_us : Z) :
  honest (D := D) (readq_poll_timeout_atomic addr cond delay_us timeout_us).
Proof.
  unfold readq_poll_timeout_atomic. apply honest_bind.
  - apply honest_poll_loop.
  - intros v. apply honest_ret.
Qed.

Ltac honesty :=
  repeat first
    [ apply honest_ret | apply honest_readq | apply honest_writeq
    | apply honest_printk | apply honest_modify_priv | apply honest_get_priv
    | apply honest_readq_poll_timeout_atomic
    | apply honest_bind; [ | intros ? ]
    | match goal with
      | |- honest (if ?c then _ else _) => destruct c
      end ].

Lemma basic_read_event_counter_honest (event port_id data : Z) :
  honest (D := D) (basic_read_event_counter event port_id data).
Proof. unfold basic_read_event_counter. honesty. Qed.

Lemma cache_read_event_counter_honest (event port_id data : Z) :
  honest (D := D) (cache_read_event_counter event port_id data).
Proof. unfold cache_read_event_counter. honesty. Qed.

Lemma fabric_read_event_counter_honest (event port_id data : Z) :
  honest (D := D) (fabric_read_event_counter event port_id data).
Proof. unfold fabric_read_event_counter. honesty. Qed.

Lemma vtd_read_event_counter_honest (event port_id data : Z) :
  honest (D := D) (vtd_read_event_counter event port_id data).
Proof. unfold vtd_read_event_counter. honesty. Qed.

Lemma vtd_sip_read_event_counter_honest (event port_id data : Z) :
  honest (D := D) (vtd_sip_read_event_counter event port_id data).
Proof. unfold vtd_sip_read_event_counter. honesty. Qed.

Lemma cache_value_field (v : Z) :
  FIELD_GET CACHE_CNTR_EVNT_CNTR v = v mod 2 ^ 48.
Proof.
  unfold FIELD_GET. change (bf_shf CACHE_CNTR_EVNT_CNTR) with 0.
  rewrite Z.shiftr_0_r. change CACHE_CNTR_EVNT_CNTR with (Z.ones 48).
  apply Z.land_ones. lia.
Qed.

(** C7: a cache event read selects channel and event in the cache
    control register of the device (every other bit as read), polls the
    tag of the first bank register, and then either the first value
    whose tag is the requested event code came within the polling
    rounds, and the result is the sum of the low 48-bit value
    sub-fields that the two bank registers of the device hold next; or
    the poll ran out of time, and the result is 0, with an error message
    in the log.  Every value is the one the device answered, in this
    order.  The read never fails. *)
Theorem cache_read_event_counter_sums_banks
    (w : world D) (event port_id data : Z) :
  exists r w' c c' polled last,
    cache_read_event_counter event port_id data w = Some (r, w') /\
    c = wrap64 (fst (dev_readq CACHE_CTRL (iomem w))) /\
    FIELD_GET CACHE_CTRL_EVNT c' = event mod 2 ^ 4 /\
    FIELD_GET CACHE_CHANNEL_SEL c' = wrap8 data mod 2 ^ 1 /\
    (forall i, 0 <= i -> ~ 16 <= i <= 20 ->
               Z.testbit c' i = Z.testbit c i) /\
    let handshake :=
      [MmioRead CACHE_CTRL c; MmioWrite CACHE_CTRL c']
      ++ map (MmioRead CACHE_CNTR0) (polled ++ [last]) in
    Forall (fun v => FIELD_GET CACHE_CNTR_EVNT v <> event) polled /\
    (List.length polled <= S (dev_poll_rounds 1 PERF_TIMEOUT))%nat /\
    priv w' = priv w /\
    ((FIELD_GET CACHE_CNTR_EVNT last = event /\
      exists v0 v1,
        let reads :=
          handshake ++ [MmioRead CACHE_CNTR0 v0; MmioRead CACHE_CNTR1 v1] in
        mmio w' = mmio w ++ reads /\
        device_answers (iomem w) reads (iomem w') /\
        r = v0 mod 2 ^ 48 + v1 mod 2 ^ 48 /\
        dmesg w' = dmesg w)
     \/
     (FIELD_GET CACHE_CNTR_EVNT last <> event /\
      List.length polled = S (dev_poll_rounds 1 PERF_TIMEOUT) /\
      mmio w' = mmio w ++ handshake /\
      device_answers (iomem w) handshake (iomem w') /\
      r = 0 /\
      dmesg w' = dmesg w ++
        [(KERN_ERR,
          "timeout, unmatched cache event code in counter register."%string)])).
Proof.
  unfold cache_read_event_counter.
  unfold bind at 1. rewrite readq_run.
  set (c := wrap64 (fst (dev_readq CACHE_CTRL (iomem w)))).
  unfold bind at 1. unfold writeq at 1.
  set (c' := Z.lor _ (FIELD_PREP CACHE_CTRL_EVNT event)).
  set (w0 := mk_world _ _ _ _).
  destruct (readq_poll_timeout_atomic_bounded CACHE_CNTR0
              (fun v => FIELD_GET CACHE_CNTR_EVNT v =? event) 1 PERF_TIMEOUT w0)
    as (last & w1 & polled & Hrun & Hm & Hp & Hd & Hall & Hlen & Hle & _).
  pose proof (answered_trace _ _ _
                (honest_readq_poll_timeout_atomic _ _ _ _ _ _ _ Hrun) Hm)
    as Hans.
  unfold bind at 1. rewrite Hrun. cbn [fst].
  assert (Hc : is_u64 c) by apply wrap64_range.
  assert (Hsel : c' = cache_select_word c (wrap8 data) event) by reflexivity.
  assert (Hall' : Forall (fun v => FIELD_GET CACHE_CNTR_EVNT v <> event) polled).
  { eapply Forall_impl; [ | exact Hall ]. cbn. intros x Hx.
    apply Z.eqb_neq. exact Hx. }
  assert (Hfields :
            FIELD_GET CACHE_CTRL_EVNT c' = event mod 2 ^ 4 /\
            FIELD_GET CACHE_CHANNEL_SEL c' = wrap8 data mod 2 ^ 1 /\
            (forall i, 0 <= i -> ~ 16 <= i <= 20 ->
                       Z.testbit c' i = Z.testbit c i)).
  { rewrite Hsel.
    split; [ apply cache_select_word_event | ].
    split; [ apply cache_select_word_channel | ].
    intros i Hi Hout. apply cache_select_word_frame; assumption. }
  destruct Hfields as (Hf1 & Hf2 & Hf3).
  destruct (Z.eqb_spec (FIELD_GET CACHE_CNTR_EVNT last) event) as [Hc' | Hc'].
  - (* matched *)
    cbn [negb Z.eqb]. unfold bind. rewrite !readq_run. cbn [iomem priv mmio dmesg].
    eexists. eexists. exists c, c', polled, last.
    split; [ reflexivity | ].
    split; [ reflexivity | ].
    split; [ exact Hf1 | ]. split; [ exact Hf2 | ]. split; [ exact Hf3 | ].
    cbn zeta. cbn [priv mmio dmesg iomem].
    split; [ exact Hall' | ].
    split; [ exact Hle | ].
    split; [ rewrite Hp; reflexivity | ].
    left. split; [ exact Hc' | ].
    eexists. eexists.
    split.
    { rewrite Hm. subst w0. cbn [mmio]. rewrite <- !app_assoc. reflexivity. }
    split.
    { cbn [app device_answers]. split; [ reflexivity | ].
      eapply device_answers_app; [ exact Hans | ].
      cbn [device_answers]. repeat split. }
    split; [ | rewrite Hd; reflexivity ].
    rewrite !cache_value_field. unfold wrap64.
    apply Z.mod_small.
    match goal with |- 0 <= ?a mod _ + ?b mod _ < _ =>
      pose proof (Z.mod_pos_bound a (2 ^ 48));
      pose proof (Z.mod_pos_bound b (2 ^ 48)) end.
    lia.
  - (* timed out *)
    cbn [negb Z.eqb Z.opp ETIMEDOUT]. unfold bind, dev_err, printk, ret.
    eexists. eexists. exists c, c', polled, last.
    split; [ reflexivity | ].
    split; [ reflexivity | ].
    split; [ exact Hf1 | ]. split; [ exact Hf2 | ]. split; [ exact Hf3 | ].
    cbn zeta. cbn [priv mmio dmesg iomem].
    split; [ exact Hall' | ].
    split; [ exact Hle | ].
    split; [ rewrite Hp; reflexivity | ].
    right. split; [ exact Hc' | ].
    split; [ apply Hlen; reflexivity | ].
    split.
    { rewrite Hm. subst w0. cbn [mmio]. rewrite <- !app_assoc. reflexivity. }
    split.
    { cbn [app device_answers]. split; [ reflexivity | ]. exact Hans. }
    split; [ reflexivity | rewrite Hd; reflexivity ].
Qed.

(** ** Counter session *)

Ltac run_select_poll_read :=
  intros;
  unfold cache_read_event_counter, fabric_read_event_counter,
    vtd_read_event_counter, vtd_sip_read_event_counter;
  unfold bind at 1; rewrite readq_run;
  unfold bind at 1; unfold writeq at 1;
  match goal with
  | |- context [bind (readq_poll_timeout_atomic ?a ?c ?d ?t) _ ?w0] =>
      destruct (readq_poll_timeout_atomic_trace a c d t w0)
        as (last & w1 & polled & Hrun & _);
      unfold bind at 1; rewrite Hrun; cbn [fst]
  end;
  match goal with
  | |- context [negb (?x =? 0)] => destruct (negb (x =? 0))
  end;
  unfold bind, dev_err, printk, ret; rewrite ?readq_run;
  eexists; eexists; reflexivity.

Lemma cache_read_event_counter_total (event port_id data : Z) (w : world D) :
  exists now w', cache_read_event_counter event port_id data w = Some (now, w').
Proof. run_select_poll_read. Qed.

Lemma fabric_read_event_counter_total (event port_id data : Z) (w : world D) :
  exists now w',
    fabric_read_event_counter event port_id data w = Some (now, w').
Proof. run_select_poll_read. Qed.

Lemma vtd_read_event_counter_total (event port_id data : Z) (w : world D) :
  exists now w', vtd_read_event_counter event port_id data w = Some (now, w').
Proof. run_select_poll_read. Qed.

Lemma vtd_sip_read_event_counter_total (event port_id data : Z) (w : world D) :
  exists now w',
    vtd_sip_read_event_counter event port_id data w = Some (now, w').
Proof. run_select_poll_read. Qed.

Lemma basic_read_event_counter_total (event port_id data : Z) (w : world D) :
  exists now w',
    basic_read_event_counter event port_id data w = Some (now, w').
Proof.
  unfold basic_read_event_counter. destruct (event =? BASIC_EVNT_CLK).
  - rewrite readq_run. eexists. eexists. reflexivity.
  - eexists. eexists. reflexivity.
Qed.

(** A session of a known type always gets a value from its driver. *)
Lemma driver_reads_total (w : world D) (event : perf_event) :
  0 <= event_base (hw event) <= FME_EVTYPE_MAX ->
  exists now, driver_reads w event now.
Proof.
  intros Hty. unfold driver_reads.
  assert (Hcases : event_base (hw event) = 0 \/ event_base (hw event) = 1 \/
                   event_base (hw event) = 2 \/ event_base (hw event) = 3 \/
                   event_base (hw event) = 4)
    by (unfold FME_EVTYPE_MAX, FME_EVTYPE_VTD_SIP in Hty; lia).
  destruct Hcases as [-> | [-> | [-> | [-> | ->]]]]; cbn.
  - destruct (basic_read_event_counter_total (wrap32 (idx (hw event)))
      (wrap32 (config_base (hw event))) (config (hw event)) w) as (n & w' & E).
    exists n. eexists. eexists. split; [ reflexivity | exact E ].
  - destruct (cache_read_event_counter_total (wrap32 (idx (hw event)))
      (wrap32 (config_base (hw event))) (config (hw event)) w) as (n & w' & E).
    exists n. eexists. eexists. split; [ reflexivity | exact E ].
  - destruct (fabric_read_event_counter_total (wrap32 (idx (hw event)))
      (wrap32 (config_base (hw event))) (config (hw event)) w) as (n & w' & E).
    exists n. eexists. eexists. split; [ reflexivity | exact E ].
  - destruct (vtd_read_event_counter_total (wrap32 (idx (hw event)))
      (wrap32 (config_base (hw event))) (config (hw event)) w) as (n & w' & E).
    exists n. eexists. eexists. split; [ reflexivity | exact E ].
  - destruct (vtd_sip_read_event_counter_total (wrap32 (idx (hw event)))
      (wrap32 (config_base (hw event))) (config (hw event)) w) as (n & w' & E).
    exists n. eexists. eexists. split; [ reflexivity | exact E ].
Qed.

Lemma wrap64_sub_wrap64_r (a b : Z) : wrap64 (a - wrap64 b) = wrap64 (a - b).
Proof. unfold wrap64. apply Zminus_mod_idemp_r. Qed.

(** What one update does, given the value the driver returns. *)
Lemma fme_perf_event_update_run (w : world D) (event : perf_event) (now : Z) :
  driver_reads w event now ->
  exists w',
    fme_perf_event_update event w =
    Some (set_count (wrap64 (count event
                             + wrap64 (now - prev_count (hw event)))) event,
          w').
Proof.
  intros (ops & w' & Hops & Hread). exists w'.
  unfold fme_perf_event_update, bind. rewrite Hops, Hread. unfold ret.
  rewrite wrap64_sub_wrap64_r. reflexivity.
Qed.

(** C2 (as the code has it): in read() and stop(), with the previous
    snapshot X and the driver returning Y, the delta added to the
    accumulated count is (Y - X) modulo 2^64, the width of the C type,
    whatever the width of the counter field; the count itself is kept
    modulo 2^64.  Without wrap-around (X <= Y) the delta is Y - X. *)
Theorem fme_perf_event_update_delta_mod_2_64
    (w : world D) (event : perf_event) (flags : Z) :
  0 <= event_base (hw event) <= FME_EVTYPE_MAX ->
  exists now e' w',
    driver_reads w event now /\
    fme_perf_event_read event w = Some (e', w') /\
    fme_perf_event_stop event flags w = Some (e', w') /\
    count e' =
      (count event + (now - prev_count (hw event)) mod 2 ^ 64) mod 2 ^ 64 /\
    (is_u64 now -> 0 <= prev_count (hw event) <= now ->
     (now - prev_count (hw event)) mod 2 ^ 64 = now - prev_count (hw event)).
Proof.
  intros Hty. destruct (driver_reads_total w event Hty) as (now & Hnow).
  destruct (fme_perf_event_update_run w event now Hnow) as (w' & Hrun).
  exists now. eexists. exists w'.
  split; [ exact Hnow | ].
  unfold fme_perf_event_read, fme_perf_event_stop.
  split; [ exact Hrun | ].
  split; [ exact Hrun | ].
  split; [ reflexivity | ].
  intros Hu Hle. apply Z.mod_small. unfold is_u64 in Hu. lia.
Qed.

(** What read() and stop() do to a session: they add the delta to the
    accumulated count and leave the previous snapshot, like every other
    field of the session, as it was. *)
Lemma fme_perf_event_update_keeps_snapshot
    (w : world D) (event : perf_event) (flags : Z) :
  0 <= event_base (hw event) <= FME_EVTYPE_MAX ->
  exists now e' w',
    driver_reads w event now /\
    fme_perf_event_read event w = Some (e', w') /\
    fme_perf_event_stop event flags w = Some (e', w') /\
    prev_count (hw e') = prev_count (hw event) /\
    hw e' = hw event /\
    e' = set_count (wrap64 (count event
                            + wrap64 (now - prev_count (hw event)))) event.
Proof.
  intros Hty. destruct (driver_reads_total w event Hty) as (now & Hnow).
  destruct (fme_perf_event_update_run w event now Hnow) as (w' & Hrun).
  exists now. eexists. exists w'.
  split; [ exact Hnow | ].
  unfold fme_perf_event_read, fme_perf_event_stop.
  repeat (split; [ first [ exact Hrun | reflexivity ] | ]). reflexivity.
Qed.

(** start() is the operation that records the snapshot. *)
Lemma fme_perf_event_start_snapshot (w : world D) (event : perf_event)
    (flags now : Z) :
  driver_reads w event now ->
  exists w',
    fme_perf_event_start event flags w =
    Some (set_hw (set_prev_count now (hw event)) event, w').
Proof.
  intros (ops & w' & Hops & Hread). exists w'.
  unfold fme_perf_event_start, bind. rewrite Hops, Hread. reflexivity.
Qed.

End Facts.

(** * The properties on sample machines *)

Lemma fabric_event_init_arbitrates_sample :
  is_u32 (fab_users (priv aggregate_in_use)) /\
  (exists w',
     fabric_event_init 0 0 0 aggregate_in_use = Some (- EOPNOTSUPP, w') /\
     fab_users (priv w') = 1 /\ mmio w' = []) /\
  is_u32 (fab_users (priv idle_all_ones)) /\
  exists w',
    fabric_event_init 0 0 0 idle_all_ones = Some (0, w') /\
    fab_users (priv w') = 1 /\
    mmio w' = [MmioRead FAB_CTRL (2 ^ 64 - 1);
               MmioWrite FAB_CTRL 0xFFFFFFFFFFCFFFFF] /\
    reg_get FAB_CTRL (iomem w') = 0xFFFFFFFFFFCFFFFF.
Proof.
  assert (Hu : is_u32 (fab_users (priv aggregate_in_use)))
    by (unfold is_u32; cbn; lia).
  assert (Hi : is_u32 (fab_users (priv idle_all_ones)))
    by (unfold is_u32; cbn; lia).
  split; [ exact Hu | ]. split; [ | split; [ exact Hi | ] ].
  - destruct (fabric_event_init_arbitrates aggregate_in_use 0 0 0 Hu)
      as (r & w' & Hrun & _ & Hiff & Hbusy & _).
    assert (Hr : r = - EOPNOTSUPP).
    { apply Hiff. split; [ cbn; lia | discriminate ]. }
    subst r. exists w'. split; [ exact Hrun | ].
    destruct (Hbusy eq_refl) as (_ & Husers & _ & Hm).
    split; [ rewrite Husers; reflexivity | rewrite Hm; reflexivity ].
  - destruct (fabric_event_init_arbitrates idle_all_ones 0 0 0 Hi)
      as (r & w' & Hrun & Hcases & Hiff & _ & Hok).
    assert (Hr : r = 0).
    { destruct Hcases as [Hbusy | Hzero]; [ | exact Hzero ].
      destruct (proj1 Hiff Hbusy) as (Hpos & _). cbn in Hpos. lia. }
    subst r. exists w'. split; [ exact Hrun | ].
    destruct (Hok eq_refl) as (_ & Hinc & _ & _ & Hswitch).
    destruct Hswitch as (v & v' & Hv & Hm & Hio & _ & _ & Hport & Hbits);
      [ discriminate | ].
    split; [ rewrite Hinc by (cbn; lia); reflexivity | ].
    assert (Hv1 : v = 2 ^ 64 - 1) by (rewrite Hv; reflexivity).
    assert (Hv' : v' = 0xFFFFFFFFFFCFFFFF).
    { vm_compute in Hrun. injection Hrun as Hw.
      rewrite <- Hw in Hm. cbn in Hm. injection Hm as _ Hw'.
      symmetry. exact Hw'. }
    split; [ rewrite Hm, Hv1, Hv'; reflexivity | ].
    rewrite Hio, Hv'. reflexivity.
Defined.

Lemma fabric_event_destroy_only_decrements_sample :
  0 < fab_users (priv aggregate_in_use) < 2 ^ 32 /\
  exists w',
    fabric_event_destroy 0 FME_PORTID_ROOT 0 aggregate_in_use
    = Some (tt, w') /\
    fab_users (priv w') = 0 /\
    fab_port_id (priv w') = FME_PORTID_ROOT /\ mmio w' = [].
Proof.
  assert (Hr : 0 < fab_users (priv aggregate_in_use) < 2 ^ 32)
    by (cbn; lia).
  split; [ exact Hr | ].
  destruct (fabric_event_destroy_only_decrements aggregate_in_use 0
              FME_PORTID_ROOT 0)
    as (w' & Hrun & _ & Hdec & Hport & _ & _ & Hm & _).
  exists w'. split; [ exact Hrun | ].
  split; [ rewrite (Hdec Hr); reflexivity | ].
  split; [ rewrite Hport; reflexivity | rewrite Hm; reflexivity ].
Defined.

(** Two sessions on port 0 opened from scratch. *)
Lemma two_port0_sessions_reachable :
  arb_reachable (mk_arbiter (boot [] (mk_priv 0 0 0 2 0 false [])) [0; 0]).
Proof.
  pose (w0 := boot [] zero_priv).
  pose (w1 := boot [] (mk_priv 0 0 0 1 0 false [])).
  pose (w2 := boot [] (mk_priv 0 0 0 2 0 false [])).
  apply (reach_step (mk_arbiter w1 [0])).
  - apply (reach_step (mk_arbiter w0 [])).
    + apply reach_start. reflexivity.
    + apply (step_open (mk_arbiter w0 []) 0 0 0 w1);
        [ unfold is_u32; lia | cbn; lia | reflexivity ].
  - apply (step_open (mk_arbiter w1 [0]) 0 0 0 w2);
      [ unfold is_u32; lia | cbn; lia | reflexivity ].
Defined.

Lemma arbiter_sessions_agree_sample :
  let s := mk_arbiter (boot [] (mk_priv 0 0 0 2 0 false [])) [0; 0] in
  arb_reachable s /\ fab_users (priv (arb_world s)) > 0 /\
  current_mode (priv (arb_world s)) = classify 0 /\
  fab_users (priv (arb_world s)) = 2.
Proof.
  intros s.
  assert (Hpos : fab_users (priv (arb_world s)) > 0) by (cbn; lia).
  destruct (arbiter_sessions_agree s two_port0_sessions_reachable Hpos)
    as (_ & Hmode & Hn & _).
  split; [ exact two_port0_sessions_reachable | ].
  split; [ exact Hpos | ].
  split; [ apply (Hmode 0); left; reflexivity | exact Hn ].
Defined.

Lemma fme_perf_init_adopts_hardware_mode_sample :
  kzalloc_ok attach_ok = true /\ kcalloc_ok attach_ok = true /\
  pmu_register_ret attach_ok = 0 /\
  (exists w',
     fme_perf_init FME_FEATURE_ID_GLOBAL_IPERF attach_ok
                   (boot port1_regs zero_priv) = Some (0, w') /\
     fab_users (priv w') = 0 /\
     fab_port_id (priv w') = 1 /\
     exists w'',
       fabric_event_init FAB_EVNT_PCIE0_RD 1 0 w' = Some (0, w'') /\
       fab_users (priv w'') = 1 /\ mmio w'' = mmio w') /\
  exists w',
    fme_perf_init FME_FEATURE_ID_GLOBAL_IPERF attach_ok
                  (boot [] zero_priv) = Some (0, w') /\
    fab_users (priv w') = 0 /\
    fab_port_id (priv w') = FME_PORTID_ROOT.
Proof.
  repeat (split; [ reflexivity | ]). split.
  - destruct (fme_perf_init_adopts_hardware_mode (boot port1_regs zero_priv)
                FME_FEATURE_ID_GLOBAL_IPERF attach_ok eq_refl eq_refl eq_refl)
      as (v & w' & Hrun & Hv & Hm & Hio & Hu & Hmode & Hopen).
    exists w'. split; [ exact Hrun | ].
    split; [ exact Hu | ].
    assert (Hport : fab_port_id (priv w') = 1)
      by (rewrite Hmode, Hv; reflexivity).
    split; [ exact Hport | ].
    destruct (Hopen FAB_EVNT_PCIE0_RD 1 0) as (w'' & Ho & Hu' & _ & _ & Hm').
    { unfold current_mode. rewrite Hport. reflexivity. }
    exists w''. repeat split; assumption.
  - destruct (fme_perf_init_adopts_hardware_mode (boot [] zero_priv)
                FME_FEATURE_ID_GLOBAL_IPERF attach_ok eq_refl eq_refl eq_refl)
      as (v & w' & Hrun & Hv & _ & _ & Hu & Hmode & _).
    exists w'. split; [ exact Hrun | ].
    split; [ exact Hu | ]. rewrite Hmode, Hv. reflexivity.
Defined.

Lemma get_event_attr_resolves_catalog_sample :
  valid_port_for (FME_EVENT_FABRIC_PORT "pcie0_read" FAB_EVNT_PCIE0_RD) 0 /\
  get_event_attr (D := regfile) FAB_EVNT_PCIE0_RD FME_EVTYPE_FABRIC 0 =
  Some (8%nat, FME_EVENT_FABRIC_PORT "pcie0_read" FAB_EVNT_PCIE0_RD).
Proof.
  assert (Hv : valid_port_for
                 (FME_EVENT_FABRIC_PORT "pcie0_read" FAB_EVNT_PCIE0_RD) 0)
    by (cbn; unfold PERF_MAX_PORT_NUM; lia).
  split; [ exact Hv | ].
  destruct (get_event_attr_resolves_catalog (D := regfile)) as (Hres & _).
  destruct (Hres 2%nat 8%nat _ _ 0 eq_refl eq_refl Hv) as [_ Hget].
  exact Hget.
Defined.

Lemma fme_perf_event_init_rejects_port_out_of_scope_sample :
  let event := counting_request 0 cfg_fab_pcie0_read_port1 in
  let w := boot [] zero_priv in
  get_event_attr (D := regfile) 0 FME_EVTYPE_FABRIC 1 =
    Some (8%nat, FME_EVENT_FABRIC_PORT "pcie0_read" FAB_EVNT_PCIE0_RD) /\
  1 >= PERF_MAX_PORT_NUM /\
  fme_perf_event_init event w = Some ((- EINVAL, event), w).
Proof.
  intros event w.
  assert (Hget : get_event_attr (D := regfile) 0 FME_EVTYPE_FABRIC 1 =
            Some (8%nat, FME_EVENT_FABRIC_PORT "pcie0_read" FAB_EVNT_PCIE0_RD))
    by reflexivity.
  assert (Hge : 1 >= PERF_MAX_PORT_NUM) by (unfold PERF_MAX_PORT_NUM; lia).
  split; [ exact Hget | ].
  split; [ exact Hge | ].
  apply (fme_perf_event_init_rejects_port_out_of_scope w event 8%nat
           (FME_EVENT_FABRIC_PORT "pcie0_read" FAB_EVNT_PCIE0_RD)).
  - reflexivity.
  - exact Hget.
  - left. split; [ reflexivity | exact Hge ].
Defined.

Lemma fme_perf_event_init_rejects_sampling_sample :
  let event := sampling_request 0 cfg_fab_pcie0_read_port1 in
  let w := boot [] zero_priv in
  is_sampling_event event = true /\
  fme_perf_event_init event w = Some ((- EINVAL, event), w).
Proof.
  intros event w. split; [ reflexivity | ].
  apply (fme_perf_event_init_rejects_sampling_task_nocpu w event).
  - reflexivity.
  - left. reflexivity.
Defined.

Lemma wrapped_fab_session_reads_5 :
  driver_reads wrapped_fab_world wrapped_fab_session 5.
Proof.
  unfold driver_reads. eexists. eexists.
  split; [ reflexivity | cbv; reflexivity ].
Qed.

Lemma clock_session_reads_100 : driver_reads clock_world clock_session 100.
Proof.
  unfold driver_reads. eexists. eexists.
  split; [ reflexivity | cbv; reflexivity ].
Qed.

(** The fabric session across the wrap of the 60-bit field: the masked
    delta would be 15, the driver adds 2^64 - 2^60 + 15. *)
Lemma fme_perf_event_update_delta_not_field_masked :
  masked_delta (counter_field_width (event_base (hw wrapped_fab_session)))
               5 (prev_count (hw wrapped_fab_session)) = 15 /\
  option_map (fun r => count (fst r))
             (fme_perf_event_update wrapped_fab_session wrapped_fab_world)
  = Some (2 ^ 64 - 2 ^ 60 + 15) /\
  ~ update_adds_masked_delta wrapped_fab_world wrapped_fab_session.
Proof.
  split; [ reflexivity | ].
  split; [ vm_compute; reflexivity | ].
  intros Hclaim.
  destruct (fme_perf_event_update wrapped_fab_session wrapped_fab_world)
    as [[e' w'] | ] eqn:Hrun; [ | vm_compute in Hrun; discriminate Hrun ].
  specialize (Hclaim 5 e' w' wrapped_fab_session_reads_5 Hrun).
  vm_compute in Hrun. injection Hrun as <- _.
  vm_compute in Hclaim. discriminate Hclaim.
Qed.

Lemma fme_perf_event_update_delta_mod_2_64_sample :
  0 <= event_base (hw wrapped_fab_session) <= FME_EVTYPE_MAX /\
  exists e' w',
    fme_perf_event_read wrapped_fab_session wrapped_fab_world
    = Some (e', w') /\
    count e' = (5 - (2 ^ 60 - 10)) mod 2 ^ 64.
Proof.
  assert (Hty : 0 <= event_base (hw wrapped_fab_session) <= FME_EVTYPE_MAX)
    by (vm_compute; split; discriminate).
  split; [ exact Hty | ].
  destruct (fme_perf_event_update_delta_mod_2_64 wrapped_fab_world
              wrapped_fab_session 0 Hty)
    as (now & e' & w' & _ & Hread & _ & _).
  exists e', w'. split; [ exact Hread | ].
  vm_compute in Hread. injection Hread as <- _. reflexivity.
Defined.

(** C3: the code against the design document ("set previousSnapshot =
    now"), on the clock session: the snapshot is 40, the clock register
    reads 100 and stands still.  After a read() the snapshot is still
    40 and not the 100 just read: the store of the value read, which
    start() has, is missing in the update.  A second read() therefore
    adds the distance from the start once more: the count is 60 after
    the first read and 120 after the second, while the clock has
    covered 60. *)
Theorem fme_perf_event_read_leaves_stale_snapshot :
  driver_reads clock_world clock_session 100 /\
  ~ update_moves_snapshot clock_world clock_session /\
  exists e1 w1 e2 w2 e3 w3,
    fme_perf_event_read clock_session clock_world = Some (e1, w1) /\
    prev_count (hw e1) = 40 /\ count e1 = 60 /\
    driver_reads w1 e1 100 /\
    fme_perf_event_read e1 w1 = Some (e2, w2) /\
    prev_count (hw e2) = 40 /\ count e2 = 120 /\
    fme_perf_event_start clock_session 0 clock_world = Some (e3, w3) /\
    prev_count (hw e3) = 100.
Proof.
  split; [ exact clock_session_reads_100 | ].
  split.
  { intros Hclaim.
    destruct (fme_perf_event_update clock_session clock_world)
      as [[e' w'] | ] eqn:Hrun; [ | vm_compute in Hrun; discriminate Hrun ].
    specialize (Hclaim 100 e' w' clock_session_reads_100 Hrun).
    vm_compute in Hrun. injection Hrun as <- _.
    vm_compute in Hclaim. discriminate Hclaim. }
  do 6 eexists.
  split; [ vm_compute; reflexivity | ].
  split; [ reflexivity | ]. split; [ reflexivity | ].
  split.
  { unfold driver_reads. eexists. eexists.
    split; [ reflexivity | cbv; reflexivity ]. }
  split; [ vm_compute; reflexivity | ].
  split; [ reflexivity | ]. split; [ reflexivity | ].
  split; [ vm_compute; reflexivity | reflexivity ].
Qed.

(** A counting request for the cache read-hit event is accepted: the
    decoded fields and the channel are stored in the event, the destroy
    callback is installed, no register is touched. *)
Example cache_read_hit_open :
  fme_perf_event_init (counting_request 0 0x0ff1000) (boot [] zero_priv)
  = Some ((0, mk_event (mk_pattr 0 0x0ff1000 0) 0 0
                       (mk_hwc FME_EVTYPE_CACHE CACHE_EVNT_RD_HIT
                               FME_PORTID_ROOT CACHE_CHANNEL_RD 0) 0 true),
          mk_world zero_priv [] []
            [(KERN_DEBUG,
              "%s eventid=0x%x, evtype=0x%x, portid=0x%x, data=0x%llx"%string)]).
Proof. vm_compute. reflexivity. Qed.

(** Cache reads on plain registers: banks tagged with the read-hit code
    give the sum of their counts; a write-hit read never sees its tag
    and gives 0 with a message, after 32 reads of the first bank. *)
Example cache_read_hit_sums_banks :
  option_map fst
    (cache_read_event_counter CACHE_EVNT_RD_HIT FME_PORTID_ROOT
       CACHE_CHANNEL_RD (boot cache_banks zero_priv)) = Some 18.
Proof. vm_compute. reflexivity. Qed.

Example cache_write_hit_times_out :
  option_map (fun r => (fst r, List.length (mmio (snd r)), dmesg (snd r)))
    (cache_read_event_counter CACHE_EVNT_WR_HIT FME_PORTID_ROOT
       CACHE_CHANNEL_WR (boot cache_banks zero_priv))
  = Some (0, 34%nat,
          [(KERN_ERR,
            "timeout, unmatched cache event code in counter register."%string)]).
Proof. vm_compute. reflexivity. Qed.

(** The arbiter scenario of the design document: an aggregate session is
    open, a port-0 open is refused; after the close the port-0 open
    succeeds and turns the filter on. *)
Example arbiter_scenario :
  let w0 := boot [] (mk_priv 0 0 0 0 FME_PORTID_ROOT false []) in
  exists w1 w2 w3 w4,
    fabric_event_init 0 FME_PORTID_ROOT 0 w0 = Some (0, w1) /\
    fabric_event_init 0 0 0 w1 = Some (- EOPNOTSUPP, w2) /\
    fabric_event_destroy 0 FME_PORTID_ROOT 0 w2 = Some (tt, w3) /\
    fabric_event_init 0 0 0 w3 = Some (0, w4) /\
    fab_users (priv w4) = 1 /\ fab_port_id (priv w4) = 0 /\
    mmio w4 = [MmioRead FAB_CTRL 0; MmioWrite FAB_CTRL FAB_PORT_FILTER].
Proof.
  intros w0. do 4 eexists.
  repeat (split; [ vm_compute; reflexivity | ]). vm_compute. reflexivity.
Qed.

(** * Further properties of the driver *)

(** ** Event selector and tag fields *)

Lemma ctrl_evnt_ones : GENMASK_ULL 19 16 = Z.shiftl (Z.ones 4) 16.
Proof. reflexivity. Qed.

Lemma ctrl_evnt_clear_ones :
  not64 (GENMASK_ULL 19 16) = Z.lor (Z.ones 16) (Z.shiftl (Z.ones 44) 20).
Proof. reflexivity. Qed.

Lemma cntr_tag_ones : GENMASK_ULL 63 60 = Z.shiftl (Z.ones 4) 60.
Proof. reflexivity. Qed.

Ltac evnt_fields :=
  unfold FIELD_GET, FIELD_PREP;
  rewrite ?ctrl_evnt_clear_ones;
  change (bf_shf (GENMASK_ULL 19 16)) with 16;
  change (bf_shf (GENMASK_ULL 63 60)) with 60;
  rewrite ?ctrl_evnt_ones, ?cntr_tag_ones;
  unfold wrap64.

(** The selector field of the word written holds the event code, cut
    to four bits. *)
Lemma select_word_field (c event : Z) :
  FIELD_GET (GENMASK_ULL 19 16)
    (Z.lor (Z.land c (not64 (GENMASK_ULL 19 16)))
           (FIELD_PREP (GENMASK_ULL 19 16) event)) = event mod 2 ^ 4.
Proof. evnt_fields. Z.bitblast. Qed.

(** Every other bit of the word written is as read. *)
Lemma select_word_frame (c event i : Z) :
  is_u64 c -> 0 <= i -> ~ 16 <= i <= 19 ->
  Z.testbit (Z.lor (Z.land c (not64 (GENMASK_ULL 19 16)))
                   (FIELD_PREP (GENMASK_ULL 19 16) event)) i
  = Z.testbit c i.
Proof.
  intros Hc Hi Hout.
  rewrite <- (Z.mod_small c (2 ^ 64)) by exact Hc.
  evnt_fields. Z.bitblast_core.
Qed.

Lemma select_word_keeps_filter (c event : Z) :
  is_u64 c ->
  let c' := Z.lor (Z.land c (not64 (GENMASK_ULL 19 16)))
                  (FIELD_PREP (GENMASK_ULL 19 16) event) in
  FIELD_GET FAB_PORT_FILTER c' = FIELD_GET FAB_PORT_FILTER c /\
  FIELD_GET FAB_PORT_ID c' = FIELD_GET FAB_PORT_ID c.
Proof.
  intros Hc c'. subst c'.
  rewrite <- (Z.mod_small c (2 ^ 64)) by exact Hc.
  unfold FIELD_GET.
  change (bf_shf FAB_PORT_ID) with 20. change (bf_shf FAB_PORT_FILTER) with 23.
  rewrite FAB_PORT_ID_ones, FAB_PORT_FILTER_ones.
  evnt_fields. split; Z.bitblast.
Qed.

(** The tag of a 64-bit word is a four-bit number. *)
Lemma cntr_tag_range (v : Z) : 0 <= FIELD_GET (GENMASK_ULL 63 60) v < 2 ^ 4.
Proof.
  assert (E : FIELD_GET (GENMASK_ULL 63 60) v
              = FIELD_GET (GENMASK_ULL 63 60) v mod 2 ^ 4).
  { evnt_fields. Z.bitblast. }
  rewrite E. apply Z.mod_pos_bound. lia.
Qed.

Lemma fab_value_field (v : Z) : FIELD_GET FAB_CNTR_EVNT_CNTR v = v mod 2 ^ 60.
Proof.
  unfold FIELD_GET. change (bf_shf FAB_CNTR_EVNT_CNTR) with 0.
  rewrite Z.shiftr_0_r. change FAB_CNTR_EVNT_CNTR with (Z.ones 60).
  apply Z.land_ones. lia.
Qed.

Section ReadDrivers.

Context {D : Type} `{MmioDevice D}.

Local Arguments FIELD_GET : simpl never.
Local Arguments FIELD_PREP : simpl never.
Local Arguments wrap32 : simpl never.
Local Arguments wrap64 : simpl never.
Local Arguments not64 : simpl never.

(** ** The select, poll and read protocol of the single-register drivers *)

(** Runs a driver up to the end of its poll. *)
Ltac run_to_poll c c' w0 lastv w1 polled Hrun Hm Hp Hd Hall Hlen Hle :=
  unfold bind at 1; rewrite readq_run;
  match goal with
  | |- context [wrap64 (fst (dev_readq ?a (iomem ?w)))] =>
      set (c := wrap64 (fst (dev_readq a (iomem w))))
  end;
  unfold bind at 1; unfold writeq at 1;
  match goal with
  | |- context [bind (readq_poll_timeout_atomic ?a ?cond ?d ?t) _
                     (mk_world ?p ?io (?m ++ [MmioWrite ?ctrl ?word]) ?dm)] =>
      set (w0 := mk_world p io (m ++ [MmioWrite ctrl word]) dm);
      set (c' := word) in *;
      destruct (readq_poll_timeout_atomic_bounded a cond d t w0)
        as (lastv & w1 & polled & Hrun & Hm & Hp & Hd & Hall & Hlen & Hle & _);
      unfold bind at 1; rewrite Hrun; cbn [fst]
  end.

(** X1: a fabric counter read rewrites only the event selector of the
    fabric control register of the device (the port filter and port id
    stay as read), polls the tag of the counter register, and returns
    the low 60 bits that the counter register holds next when the first
    matching tag came within the polling rounds; when the time is up it
    returns 0 and logs an error.  Every value is the one the device
    answered, in this order.  The private data, and so the arbiter, is
    not touched. *)
Theorem fabric_read_event_counter_protocol
    (w : world D) (event port_id data : Z) :
  exists r w' c polled last,
    fabric_read_event_counter event port_id data w = Some (r, w') /\
    priv w' = priv w /\
    c = wrap64 (fst (dev_readq FAB_CTRL (iomem w))) /\
    is_u64 c /\
    let c' := Z.lor (Z.land c (not64 FAB_CTRL_EVNT))
                    (FIELD_PREP FAB_CTRL_EVNT event) in
    let handshake :=
      [MmioRead FAB_CTRL c; MmioWrite FAB_CTRL c']
      ++ map (MmioRead FAB_CNTR) (polled ++ [last]) in
    FIELD_GET FAB_CTRL_EVNT c' = event mod 2 ^ 4 /\
    FIELD_GET FAB_PORT_FILTER c' = FIELD_GET FAB_PORT_FILTER c /\
    FIELD_GET FAB_PORT_ID c' = FIELD_GET FAB_PORT_ID c /\
    (forall i, 0 <= i -> ~ 16 <= i <= 19 ->
               Z.testbit c' i = Z.testbit c i) /\
    Forall (fun v => FIELD_GET FAB_CNTR_EVNT v <> event) polled /\
    (List.length polled <= S (dev_poll_rounds 1 PERF_TIMEOUT))%nat /\
    ((FIELD_GET FAB_CNTR_EVNT last = event /\
      exists v,
        mmio w' = mmio w ++ handshake ++ [MmioRead FAB_CNTR v] /\
        device_answers (iomem w) (handshake ++ [MmioRead FAB_CNTR v]) (iomem w') /\
        r = v mod 2 ^ 60 /\ dmesg w' = dmesg w)
     \/
     (FIELD_GET FAB_CNTR_EVNT last <> event /\
      List.length polled = S (dev_poll_rounds 1 PERF_TIMEOUT) /\
      mmio w' = mmio w ++ handshake /\
      device_answers (iomem w) handshake (iomem w') /\
      r = 0 /\
      dmesg w' = dmesg w ++
        [(KERN_ERR,
          "timeout, unmatched fab event code in counter register."%string)])).
Proof.
  unfold fabric_read_event_counter.
  run_to_poll c c' w0 lastv w1 polled Hrun Hm Hp Hd Hall Hlen Hle.
  pose proof (answered_trace _ _ _
                (honest_readq_poll_timeout_atomic _ _ _ _ _ _ _ Hrun) Hm)
    as Hans.
  assert (Hc : is_u64 c) by apply wrap64_range.
  assert (Hall' : Forall (fun v => FIELD_GET FAB_CNTR_EVNT v <> event) polled).
  { eapply Forall_impl; [ | exact Hall ]. cbn. intros x Hx.
    apply Z.eqb_neq. exact Hx. }
  pose proof (select_word_keeps_filter c event Hc) as [Hfil Hpid].
  destruct (Z.eqb_spec (FIELD_GET FAB_CNTR_EVNT lastv) event) as [Hm' | Hm'].
  - cbn [negb Z.eqb]. unfold bind. rewrite readq_run. unfold ret.
    eexists. eexists. exists c, polled, lastv.
    split; [ reflexivity | ]. cbn zeta. cbn [priv mmio dmesg].
    split; [ rewrite Hp; reflexivity | ].
    split; [ reflexivity | ].
    split; [ exact Hc | ].
    split; [ apply select_word_field | ].
    split; [ exact Hfil | ].
    split; [ exact Hpid | ].
    split; [ intros i Hi Hout; apply select_word_frame; assumption | ].
    split; [ exact Hall' | ].
    split; [ exact Hle | ].
    left. split; [ exact Hm' | ].
    eexists.
    split.
    { rewrite Hm. subst w0. cbn [mmio]. rewrite <- !app_assoc. reflexivity. }
    split.
    { cbn [iomem app device_answers]. split; [ reflexivity | ].
      eapply device_answers_app; [ exact Hans | ].
      cbn [device_answers]. repeat split. }
    split; [ apply fab_value_field | rewrite Hd; reflexivity ].
  - cbn [negb Z.eqb Z.opp ETIMEDOUT]. unfold bind, dev_err, printk, ret.
    eexists. eexists. exists c, polled, lastv.
    split; [ reflexivity | ]. cbn zeta. cbn [priv mmio dmesg].
    split; [ rewrite Hp; reflexivity | ].
    split; [ reflexivity | ].
    split; [ exact Hc | ].
    split; [ apply select_word_field | ].
    split; [ exact Hfil | ].
    split; [ exact Hpid | ].
    split; [ intros i Hi Hout; apply select_word_frame; assumption | ].
    split; [ exact Hall' | ].
    split; [ exact Hle | ].
    right. split; [ exact Hm' | ].
    split; [ apply Hlen; reflexivity | ].
    split.
    { rewrite Hm. subst w0. cbn [mmio]. rewrite <- !app_assoc. reflexivity. }
    split.
    { cbn [iomem app device_answers]. split; [ reflexivity | ].
      exact Hans. }
    split; [ reflexivity | rewrite Hd; reflexivity ].
Qed.

(** X2: an IOMMU first-level read selects the event code plus the port
    number (added as a [u32]), compares the tag polled with that sum,
    and returns the low 48 bits that the counter register of the device
    holds next on a match, or 0 with an error message when the time is
    up; only the selector bits of the control register change, and
    every value is the one the device answered, in this order. *)
Theorem vtd_read_event_counter_offsets_by_port
    (w : world D) (event port_id data : Z) :
  let code := wrap32 (event + port_id) in
  exists r w' c polled last,
    vtd_read_event_counter event port_id data w = Some (r, w') /\
    priv w' = priv w /\
    c = wrap64 (fst (dev_readq VTD_CTRL (iomem w))) /\
    is_u64 c /\
    let c' := Z.lor (Z.land c (not64 VTD_CTRL_EVNT))
                    (FIELD_PREP VTD_CTRL_EVNT code) in
    let handshake :=
      [MmioRead VTD_CTRL c; MmioWrite VTD_CTRL c']
      ++ map (MmioRead VTD_CNTR) (polled ++ [last]) in
    FIELD_GET VTD_CTRL_EVNT c' = code mod 2 ^ 4 /\
    (forall i, 0 <= i -> ~ 16 <= i <= 19 ->
               Z.testbit c' i = Z.testbit c i) /\
    Forall (fun v => FIELD_GET VTD_CNTR_EVNT v <> code) polled /\
    (List.length polled <= S (dev_poll_rounds 1 PERF_TIMEOUT))%nat /\
    ((FIELD_GET VTD_CNTR_EVNT last = code /\
      exists v,
        mmio w' = mmio w ++ handshake ++ [MmioRead VTD_CNTR v] /\
        device_answers (iomem w) (handshake ++ [MmioRead VTD_CNTR v]) (iomem w') /\
        r = v mod 2 ^ 48 /\ dmesg w' = dmesg w)
     \/
     (FIELD_GET VTD_CNTR_EVNT last <> code /\
      List.length polled = S (dev_poll_rounds 1 PERF_TIMEOUT) /\
      mmio w' = mmio w ++ handshake /\
      device_answers (iomem w) handshake (iomem w') /\
      r = 0 /\
      dmesg w' = dmesg w ++
        [(KERN_ERR,
          "timeout, unmatched vtd event code in counter register."%string)])).
Proof.
  intros code. unfold vtd_read_event_counter. fold code.
  run_to_poll c c' w0 lastv w1 polled Hrun Hm Hp Hd Hall Hlen Hle.
  pose proof (answered_trace _ _ _
                (honest_readq_poll_timeout_atomic _ _ _ _ _ _ _ Hrun) Hm)
    as Hans.
  assert (Hc : is_u64 c) by apply wrap64_range.
  assert (Hall' : Forall (fun v => FIELD_GET VTD_CNTR_EVNT v <> code) polled).
  { eapply Forall_impl; [ | exact Hall ]. cbn. intros x Hx.
    apply Z.eqb_neq. exact Hx. }
  destruct (Z.eqb_spec (FIELD_GET VTD_CNTR_EVNT lastv) code) as [Hm' | Hm'].
  - cbn [negb Z.eqb]. unfold bind. rewrite readq_run. unfold ret.
    eexists. eexists. exists c, polled, lastv.
    split; [ reflexivity | ]. cbn zeta. cbn [priv mmio dmesg].
    split; [ rewrite Hp; reflexivity | ].
    split; [ reflexivity | ].
    split; [ exact Hc | ].
    split; [ apply select_word_field | ].
    split; [ intros i Hi Hout; apply select_word_frame; assumption | ].
    split; [ exact Hall' | ].
    split; [ exact Hle | ].
    left. split; [ exact Hm' | ].
    eexists.
    split.
    { rewrite Hm. subst w0. cbn [mmio]. rewrite <- !app_assoc. reflexivity. }
    split.
    { cbn [iomem app device_answers]. split; [ reflexivity | ].
      eapply device_answers_app; [ exact Hans | ].
      cbn [device_answers]. repeat split. }
    split; [ exact (cache_value_field _) | rewrite Hd; reflexivity ].
  - cbn [negb Z.eqb Z.opp ETIMEDOUT]. unfold bind, dev_err, printk, ret.
    eexists. eexists. exists c, polled, lastv.
    split; [ reflexivity | ]. cbn zeta. cbn [priv mmio dmesg].
    split; [ rewrite Hp; reflexivity | ].
    split; [ reflexivity | ].
    split; [ exact Hc | ].
    split; [ apply select_word_field | ].
    split; [ intros i Hi Hout; apply select_word_frame; assumption | ].
    split; [ exact Hall' | ].
    split; [ exact Hle | ].
    right. split; [ exact Hm' | ].
    split; [ apply Hlen; reflexivity | ].
    split.
    { rewrite Hm. subst w0. cbn [mmio]. rewrite <- !app_assoc. reflexivity. }
    split.
    { cbn [iomem app device_answers]. split; [ reflexivity | ].
      exact Hans. }
    split; [ reflexivity | rewrite Hd; reflexivity ].
Qed.

(** X3: an IOMMU second-level read follows the same protocol on its own
    register pair of the device, with the event code as given (the port
    is not used): the low 48 bits that the counter register holds after
    a matching poll, or 0 with an error message when the time is up. *)
Theorem vtd_sip_read_event_counter_protocol
    (w : world D) (event port_id data : Z) :
  exists r w' c polled last,
    vtd_sip_read_event_counter event port_id data w = Some (r, w') /\
    priv w' = priv w /\
    c = wrap64 (fst (dev_readq VTD_SIP_CTRL (iomem w))) /\
    is_u64 c /\
    let c' := Z.lor (Z.land c (not64 VTD_SIP_CTRL_EVNT))
                    (FIELD_PREP VTD_SIP_CTRL_EVNT event) in
    let handshake :=
      [MmioRead VTD_SIP_CTRL c; MmioWrite VTD_SIP_CTRL c']
      ++ map (MmioRead VTD_SIP_CNTR) (polled ++ [last]) in
    FIELD_GET VTD_SIP_CTRL_EVNT c' = event mod 2 ^ 4 /\
    (forall i, 0 <= i -> ~ 16 <= i <= 19 ->
               Z.testbit c' i = Z.testbit c i) /\
    Forall (fun v => FIELD_GET VTD_SIP_CNTR_EVNT v <> event) polled /\
    (List.length polled <= S (dev_poll_rounds 1 PERF_TIMEOUT))%nat /\
    ((FIELD_GET VTD_SIP_CNTR_EVNT last = event /\
      exists v,
        mmio w' = mmio w ++ handshake ++ [MmioRead VTD_SIP_CNTR v] /\
        device_answers (iomem w) (handshake ++ [MmioRead VTD_SIP_CNTR v]) (iomem w') /\
        r = v mod 2 ^ 48 /\ dmesg w' = dmesg w)
     \/
     (FIELD_GET VTD_SIP_CNTR_EVNT last <> event /\
      List.length polled = S (dev_poll_rounds 1 PERF_TIMEOUT) /\
      mmio w' = mmio w ++ handshake /\
      device_answers (iomem w) handshake (iomem w') /\
      r = 0 /\
      dmesg w' = dmesg w ++
        [(KERN_ERR,
          "timeout, unmatched vtd sip event code in counter register"%string)])).
Proof.
  unfold vtd_sip_read_event_counter.
  run_to_poll c c' w0 lastv w1 polled Hrun Hm Hp Hd Hall Hlen Hle.
  pose proof (answered_trace _ _ _
                (honest_readq_poll_timeout_atomic _ _ _ _ _ _ _ Hrun) Hm)
    as Hans.
  assert (Hc : is_u64 c) by apply wrap64_range.
  assert (Hall' :
    Forall (fun v => FIELD_GET VTD_SIP_CNTR_EVNT v <> event) polled).
  { eapply Forall_impl; [ | exact Hall ]. cbn. intros x Hx.
    apply Z.eqb_neq. exact Hx. }
  destruct (Z.eqb_spec (FIELD_GET VTD_SIP_CNTR_EVNT lastv) event)
    as [Hm' | Hm'].
  - cbn [negb Z.eqb]. unfold bind. rewrite readq_run. unfold ret.
    eexists. eexists. exists c, polled, lastv.
    split; [ reflexivity | ]. cbn zeta. cbn [priv mmio dmesg].
    split; [ rewrite Hp; reflexivity | ].
    split; [ reflexivity | ].
    split; [ exact Hc | ].
    split; [ apply select_word_field | ].
    split; [ intros i Hi Hout; apply select_word_frame; assumption | ].
    split; [ exact Hall' | ].
    split; [ exact Hle | ].
    left. split; [ exact Hm' | ].
    eexists.
    split.
    { rewrite Hm. subst w0. cbn [mmio]. rewrite <- !app_assoc. reflexivity. }
    split.
    { cbn [iomem app device_answers]. split; [ reflexivity | ].
      eapply device_answers_app; [ exact Hans | ].
      cbn [device_answers]. repeat split. }
    split; [ exact (cache_value_field _) | rewrite Hd; reflexivity ].
  - cbn [negb Z.eqb Z.opp ETIMEDOUT]. unfold bind, dev_err, printk, ret.
    eexists. eexists. exists c, polled, lastv.
    split; [ reflexivity | ]. cbn zeta. cbn [priv mmio dmesg].
    split; [ rewrite Hp; reflexivity | ].
    split; [ reflexivity | ].
    split; [ exact Hc | ].
    split; [ apply select_word_field | ].
    split; [ intros i Hi Hout; apply select_word_frame; assumption | ].
    split; [ exact Hall' | ].
    split; [ exact Hle | ].
    right. split; [ exact Hm' | ].
    split; [ apply Hlen; reflexivity | ].
    split.
    { rewrite Hm. subst w0. cbn [mmio]. rewrite <- !app_assoc. reflexivity. }
    split.
    { cbn [iomem app device_answers]. split; [ reflexivity | ].
      exact Hans. }
    split; [ reflexivity | rewrite Hd; reflexivity ].
Qed.

(** ** Event codes that do not fit the tag *)

Lemma tag_never_matches (code v : Z) :
  2 ^ 4 <= code -> (FIELD_GET (GENMASK_ULL 63 60) v =? code) = false.
Proof.
  intros Hc. apply Z.eqb_neq. pose proof (cntr_tag_range v). lia.
Qed.


(** ** What a counter read leaves alone *)

Lemma polled_reads_frame (regs : list Z) (addr : Z) (vs : list Z) :
  In addr regs ->
  Forall (fun op => In (mmio_addr op) regs) (map (MmioRead addr) vs) /\
  filter is_mmio_write (map (MmioRead addr) vs) = [].
Proof.
  intros Hin. induction vs as [ | v vs [IH1 IH2] ]; cbn.
  - split; [ constructor | reflexivity ].
  - split; [ constructor; [ exact Hin | exact IH1 ] | exact IH2 ].
Qed.

Ltac in_regs :=
  cbn [In mmio_addr];
  first [ left; reflexivity | right; in_regs ].

Ltac frame_of_trace regs cntr polled lastv Hle :=
  let Hfa := fresh "Hfa" in
  let Hfi := fresh "Hfi" in
  destruct (polled_reads_frame regs cntr (polled ++ [lastv])) as [Hfa Hfi];
  [ in_regs | ];
  split;
  [ repeat first [ exact Hfa
                 | apply Forall_nil
                 | apply Forall_cons; [ in_regs | ]
                 | apply Forall_app; split ]
  | split;
    [ cbn [List.length app]; rewrite ?length_app, ?length_map, ?length_app;
      cbn [List.length]; lia
    | cbn [filter is_mmio_write app];
      rewrite ?filter_app, Hfi; cbn; lia ] ].

Ltac frame_after_poll regs cntr polled lastv w0 Hm Hp Hd Hle :=
  match goal with
  | |- context [negb (?x =? 0)] => destruct (negb (x =? 0))
  end;
  [ unfold bind, dev_err, printk, ret
  | unfold bind; rewrite ?readq_run; unfold ret ];
  eexists; eexists; (split; [ reflexivity | ]);
  unfold read_frame; cbn [priv mmio dmesg];
  (split; [ rewrite Hp; reflexivity | ]);
  (split;
   [ first [ exact (conj (Z.le_refl 0) eq_refl)
           | apply wrap64_range
           | rewrite ?fab_value_field, ?(cache_value_field _);
             unfold is_u64;
             match goal with
             | |- 0 <= ?a mod ?m < _ =>
                 pose proof (Z.mod_pos_bound a m ltac:(lia)); lia
             end ]
   | ]);
  (split;
   [ eexists; split;
     [ rewrite Hm; subst w0; cbn [mmio]; rewrite <- !app_assoc;
       reflexivity
     | frame_of_trace regs cntr polled lastv Hle ]
   | rewrite Hd; first [ left; reflexivity
                       | right; split; [ reflexivity | eexists; reflexivity ] ] ]).

Ltac polled_driver_frame regs cntr :=
  intros;
  unfold cache_read_event_counter, fabric_read_event_counter,
    vtd_read_event_counter, vtd_sip_read_event_counter;
  let c := fresh "c" in
  let c' := fresh "c'" in
  let w0 := fresh "w0" in
  let lastv := fresh "lastv" in
  let w1 := fresh "w1" in
  let polled := fresh "polled" in
  let Hrun := fresh "Hrun" in
  let Hm := fresh "Hm" in
  let Hp := fresh "Hp" in
  let Hd := fresh "Hd" in
  let Hall := fresh "Hall" in
  let Hlen := fresh "Hlen" in
  let Hle := fresh "Hle" in
  run_to_poll c c' w0 lastv w1 polled Hrun Hm Hp Hd Hall Hlen Hle;
  frame_after_poll regs cntr polled lastv w0 Hm Hp Hd Hle.

Lemma fabric_read_event_counter_frame (event port_id data : Z) (w : world D) :
  exists r w',
    fabric_read_event_counter event port_id data w = Some (r, w') /\
    read_frame [FAB_CTRL; FAB_CNTR]
               (dev_poll_rounds 1 PERF_TIMEOUT + 6) w w' r.
Proof. polled_driver_frame [FAB_CTRL; FAB_CNTR] FAB_CNTR. Qed.

Lemma vtd_read_event_counter_frame (event port_id data : Z) (w : world D) :
  exists r w',
    vtd_read_event_counter event port_id data w = Some (r, w') /\
    read_frame [VTD_CTRL; VTD_CNTR]
               (dev_poll_rounds 1 PERF_TIMEOUT + 6) w w' r.
Proof. polled_driver_frame [VTD_CTRL; VTD_CNTR] VTD_CNTR. Qed.

Lemma vtd_sip_read_event_counter_frame (event port_id data : Z)
    (w : world D) :
  exists r w',
    vtd_sip_read_event_counter event port_id data w = Some (r, w') /\
    read_frame [VTD_SIP_CTRL; VTD_SIP_CNTR]
               (dev_poll_rounds 1 PERF_TIMEOUT + 6) w w' r.
Proof. polled_driver_frame [VTD_SIP_CTRL; VTD_SIP_CNTR] VTD_SIP_CNTR. Qed.

Lemma cache_read_event_counter_frame (event port_id data : Z) (w : world D) :
  exists r w',
    cache_read_event_counter event port_id data w = Some (r, w') /\
    read_frame [CACHE_CTRL; CACHE_CNTR0; CACHE_CNTR1]
               (dev_poll_rounds 1 PERF_TIMEOUT + 6) w w' r.
Proof.
  polled_driver_frame [CACHE_CTRL; CACHE_CNTR0; CACHE_CNTR1] CACHE_CNTR0.
Qed.

Lemma basic_read_event_counter_frame (event port_id data : Z) (w : world D) :
  exists r w',
    basic_read_event_counter event port_id data w = Some (r, w') /\
    read_frame [CLK_CNTR] (dev_poll_rounds 1 PERF_TIMEOUT + 6) w w' r.
Proof.
  unfold basic_read_event_counter. destruct (event =? BASIC_EVNT_CLK).
  - rewrite readq_run. eexists. eexists. split; [ reflexivity | ].
    unfold read_frame. cbn [priv mmio dmesg].
    split; [ reflexivity | ].
    split; [ apply wrap64_range | ].
    split; [ | left; reflexivity ].
    eexists. split; [ reflexivity | ].
    split; [ repeat constructor | cbn; lia ].
  - eexists. eexists. split; [ reflexivity | ].
    unfold read_frame.
    split; [ reflexivity | ].
    split; [ exact (conj (Z.le_refl 0) eq_refl) | ].
    split; [ | left; reflexivity ].
    exists []. rewrite app_nil_r.
    split; [ reflexivity | ]. split; [ constructor | cbn; lia ].
Qed.

Lemma type_registers_disjoint (t t' a : Z) :
  0 <= t <= FME_EVTYPE_MAX -> 0 <= t' <= FME_EVTYPE_MAX -> t <> t' ->
  In a (type_registers t) -> ~ In a (type_registers t').
Proof.
  unfold FME_EVTYPE_MAX, FME_EVTYPE_VTD_SIP. intros Ht Ht' Hne.
  assert (Hc : t = 0 \/ t = 1 \/ t = 2 \/ t = 3 \/ t = 4) by lia.
  assert (Hc' : t' = 0 \/ t' = 1 \/ t' = 2 \/ t' = 3 \/ t' = 4) by lia.
  destruct Hc as [-> | [-> | [-> | [-> | ->]]]];
    destruct Hc' as [-> | [-> | [-> | [-> | ->]]]];
    try (exfalso; apply Hne; reflexivity);
    vm_compute; intuition congruence.
Qed.

(** Each type's driver, as reached through the group array. *)
Lemma read_counter_frame (w : world D) (t event port_id data : Z) :
  0 <= t <= FME_EVTYPE_MAX ->
  exists ops r w',
    get_event_ops t w = Some (ops, w) /\
    read_counter ops event port_id data w = Some (r, w') /\
    read_frame (type_registers t) (dev_poll_rounds 1 PERF_TIMEOUT + 6) w w' r.
Proof.
  intros Ht.
  assert (Hc : t = 0 \/ t = 1 \/ t = 2 \/ t = 3 \/ t = 4)
    by (unfold FME_EVTYPE_MAX, FME_EVTYPE_VTD_SIP in Ht; lia).
  destruct Hc as [-> | [-> | [-> | [-> | ->]]]].
  - destruct (basic_read_event_counter_frame event port_id data w)
      as (r & w' & Hrun & Hf).
    eexists. exists r, w'. split; [ reflexivity | ]. split; assumption.
  - destruct (cache_read_event_counter_frame event port_id data w)
      as (r & w' & Hrun & Hf).
    eexists. exists r, w'. split; [ reflexivity | ]. split; assumption.
  - destruct (fabric_read_event_counter_frame event port_id data w)
      as (r & w' & Hrun & Hf).
    eexists. exists r, w'. split; [ reflexivity | ]. split; assumption.
  - destruct (vtd_read_event_counter_frame event port_id data w)
      as (r & w' & Hrun & Hf).
    eexists. exists r, w'. split; [ reflexivity | ]. split; assumption.
  - destruct (vtd_sip_read_event_counter_frame event port_id data w)
      as (r & w' & Hrun & Hf).
    eexists. exists r, w'. split; [ reflexivity | ]. split; assumption.
Qed.

(** X6: whatever its type, a counter read of a known type returns a
    [u64], leaves the driver's private data (and so the arbiter) alone,
    accesses only the registers of its own type, none of another
    type's, at most six times more than there are polling rounds and
    with at most one write, and logs nothing unless it gives up with 0
    and one error message. *)
Theorem read_counter_stays_within_its_type
    (w : world D) (t event port_id data : Z) :
  0 <= t <= FME_EVTYPE_MAX ->
  exists ops r w' l,
    get_event_ops t w = Some (ops, w) /\
    read_counter ops event port_id data w = Some (r, w') /\
    is_u64 r /\
    priv w' = priv w /\
    mmio w' = mmio w ++ l /\
    Forall (fun op => In (mmio_addr op) (type_registers t)) l /\
    (forall t', 0 <= t' <= FME_EVTYPE_MAX -> t' <> t ->
                Forall (fun op => ~ In (mmio_addr op) (type_registers t')) l) /\
    (List.length l <= dev_poll_rounds 1 PERF_TIMEOUT + 6)%nat /\
    (List.length (filter is_mmio_write l) <= 1)%nat /\
    (dmesg w' = dmesg w \/
     (r = 0 /\ exists msg, dmesg w' = dmesg w ++ [(KERN_ERR, msg)])).
Proof.
  intros Ht.
  destruct (read_counter_frame w t event port_id data Ht)
    as (ops & r & w' & Hops & Hrun & Hp & Hr & (l & Hm & Hin & Hlen & Hwr) & Hd).
  exists ops, r, w', l.
  repeat (split; [ assumption | ]).
  split; [ | repeat (split; [ assumption | ]); exact Hd ].
  intros t' Ht' Hne. eapply Forall_impl; [ | exact Hin ].
  intros op Hop. cbn beta in *.
  eapply type_registers_disjoint; [ exact Ht | exact Ht' | | exact Hop ].
  intros E. apply Hne. symmetry. exact E.
Qed.

End ReadDrivers.

(** ** Event resolver: what it finds and what it does not *)

Lemma config_event_id_mod (cfg : Z) : config_event_id cfg = cfg mod 2 ^ 12.
Proof.
  unfold config_event_id, FIELD_GET. change (bf_shf FME_EVENT_MASK) with 0.
  rewrite Z.shiftr_0_r. change FME_EVENT_MASK with (Z.ones 12).
  rewrite Z.land_ones by lia. apply wrap32_small. unfold is_u32.
  pose proof (Z.mod_pos_bound cfg (2 ^ 12)). lia.
Qed.

Lemma config_event_type_mod (cfg : Z) :
  config_event_type cfg = Z.shiftr cfg 12 mod 2 ^ 4.
Proof.
  unfold config_event_type, FIELD_GET.
  change (bf_shf FME_EVTYPE_MASK) with 12.
  change FME_EVTYPE_MASK with (Z.shiftl (Z.ones 4) 12).
  assert (E : Z.shiftr (Z.land cfg (Z.shiftl (Z.ones 4) 12)) 12
              = Z.shiftr cfg 12 mod 2 ^ 4) by Z.bitblast.
  rewrite E. apply wrap32_small. unfold is_u32.
  pose proof (Z.mod_pos_bound (Z.shiftr cfg 12) (2 ^ 4)). lia.
Qed.

Lemma config_port_id_mod (cfg : Z) :
  config_port_id cfg = Z.shiftr cfg 16 mod 2 ^ 8.
Proof.
  unfold config_port_id, FIELD_GET.
  change (bf_shf FME_PORTID_MASK) with 16.
  change FME_PORTID_MASK with (Z.shiftl (Z.ones 8) 16).
  assert (E : Z.shiftr (Z.land cfg (Z.shiftl (Z.ones 8) 16)) 16
              = Z.shiftr cfg 16 mod 2 ^ 8) by Z.bitblast.
  rewrite E. apply wrap32_small. unfold is_u32.
  pose proof (Z.mod_pos_bound (Z.shiftr cfg 16) (2 ^ 8)). lia.
Qed.

Ltac negative_bits :=
  repeat match goal with
         | |- context [Z.testbit ?a ?i] =>
             rewrite (Z.testbit_neg_r a i) by lia
         end;
  cbn [andb orb]; rewrite ?orb_false_r; reflexivity.

(** X7: the fields taken out of a configuration word are within 12, 4
    and 8 bits and depend on bits 0 to 23 only; a word laid out by the
    advertised format (event in bits 0-11, evtype in 12-15, portid in
    16-23) gives back its three fields, whatever sits in the bits
    above. *)
Theorem config_fields_round_trip (event evtype portid high : Z) :
  0 <= event < 2 ^ 12 -> 0 <= evtype < 2 ^ 4 -> 0 <= portid < 2 ^ 8 ->
  let cfg := Z.lor (format_config event evtype portid) (Z.shiftl high 24) in
  config_event_id cfg = event /\
  config_event_type cfg = evtype /\
  config_port_id cfg = portid /\
  (forall other,
     other mod 2 ^ 24 = cfg mod 2 ^ 24 ->
     config_event_id other = event /\
     config_event_type other = evtype /\
     config_port_id other = portid).
Proof.
  intros He Ht Hp cfg.
  assert (Hid : forall x, x mod 2 ^ 24 = cfg mod 2 ^ 24 ->
                          config_event_id x = event).
  { intros x Hx. rewrite config_event_id_mod.
    rewrite <- (Z.mod_small event (2 ^ 12)) by exact He.
    assert (E : x mod 2 ^ 12 = (x mod 2 ^ 24) mod 2 ^ 12) by Z.bitblast.
    rewrite E, Hx. subst cfg. unfold format_config, format_field.
    change (11 - 0 + 1) with 12. change (15 - 12 + 1) with 4.
    change (23 - 16 + 1) with 8.
    Z.bitblast; negative_bits. }
  assert (Hty : forall x, x mod 2 ^ 24 = cfg mod 2 ^ 24 ->
                          config_event_type x = evtype).
  { intros x Hx. rewrite config_event_type_mod.
    rewrite <- (Z.mod_small evtype (2 ^ 4)) by exact Ht.
    assert (E : Z.shiftr x 12 mod 2 ^ 4
                = Z.shiftr (x mod 2 ^ 24) 12 mod 2 ^ 4) by Z.bitblast.
    rewrite E, Hx. subst cfg. unfold format_config, format_field.
    change (11 - 0 + 1) with 12. change (15 - 12 + 1) with 4.
    change (23 - 16 + 1) with 8.
    Z.bitblast; negative_bits. }
  assert (Hpo : forall x, x mod 2 ^ 24 = cfg mod 2 ^ 24 ->
                          config_port_id x = portid).
  { intros x Hx. rewrite config_port_id_mod.
    rewrite <- (Z.mod_small portid (2 ^ 8)) by exact Hp.
    assert (E : Z.shiftr x 16 mod 2 ^ 8
                = Z.shiftr (x mod 2 ^ 24) 16 mod 2 ^ 8) by Z.bitblast.
    rewrite E, Hx. subst cfg. unfold format_config, format_field.
    change (11 - 0 + 1) with 12. change (15 - 12 + 1) with 4.
    change (23 - 16 + 1) with 8.
    Z.bitblast; negative_bits. }
  split; [ apply Hid; reflexivity | ].
  split; [ apply Hty; reflexivity | ].
  split; [ apply Hpo; reflexivity | ].
  intros other Ho. auto.
Qed.

Section Facade.

Context {D : Type} `{MmioDevice D}.

Local Arguments FIELD_GET : simpl never.
Local Arguments wrap32 : simpl never.
Local Arguments wrap64 : simpl never.
Local Arguments to_int : simpl never.

Lemma scan_ev_attrs_found (evs : list fme_perf_event_attr) (k : nat)
    (eid : Z) (is_port : bool) (i : nat) (a : fme_perf_event_attr) :
  scan_ev_attrs evs k eid is_port = Some (i, a) ->
  exists j,
    i = (k + j)%nat /\ nth_error evs j = Some a /\
    matches_request eid is_port a /\
    forall j' b, (j' < j)%nat -> nth_error evs j' = Some b ->
                 ~ matches_request eid is_port b.
Proof.
  revert k. induction evs as [ | b evs IH ]; intros k Hs; cbn in Hs.
  - discriminate.
  - destruct ((eid =? event_id b) && Bool.eqb is_port (is_port_event b))
      eqn:Hm.
    + injection Hs as <- <-. apply andb_prop in Hm. destruct Hm as [He Hb].
      apply Z.eqb_eq in He. apply Bool.eqb_prop in Hb.
      exists 0%nat. split; [ lia | ]. split; [ reflexivity | ].
      split; [ split; congruence | ]. intros j' b' Hj. lia.
    + destruct (IH (S k) Hs) as (j & Hi & Hn & Hmt & Hfirst).
      exists (S j). split; [ lia | ]. split; [ exact Hn | ].
      split; [ exact Hmt | ].
      intros [ | j' ] b' Hj Hb'; cbn in Hb'.
      * injection Hb' as <-. intros [He Hb].
        rewrite <- He, Z.eqb_refl, <- Hb, Bool.eqb_reflx in Hm.
        discriminate Hm.
      * apply (Hfirst j' b'); [ lia | exact Hb' ].
Qed.

Lemma scan_ev_attrs_missing (evs : list fme_perf_event_attr) (k : nat)
    (eid : Z) (is_port : bool) :
  scan_ev_attrs evs k eid is_port = None <->
  forall a, In a evs -> ~ matches_request eid is_port a.
Proof.
  revert k. induction evs as [ | b evs IH ]; intros k; cbn.
  - split; [ intros _ a [] | reflexivity ].
  - destruct ((eid =? event_id b) && Bool.eqb is_port (is_port_event b))
      eqn:Hm.
    + split; [ discriminate | ]. intros Hno. exfalso.
      apply andb_prop in Hm. destruct Hm as [He Hb].
      apply Z.eqb_eq in He. apply Bool.eqb_prop in Hb.
      apply (Hno b); [ left; reflexivity | split; congruence ].
    + rewrite IH. split.
      * intros Hno a [<- | Ha]; [ | apply Hno; exact Ha ].
        intros [He Hb].
        rewrite <- He, Z.eqb_refl, <- Hb, Bool.eqb_reflx in Hm.
        discriminate Hm.
      * intros Hno a Ha. apply Hno. right. exact Ha.
Qed.

Lemma group_scans_all (t : nat) (g : fme_perf_event_group) :
  nth_error (fme_perf_event_groups (D := D)) t = Some g ->
  firstn (Z.to_nat (num g)) (ev_attrs g) = ev_attrs g.
Proof.
  intros Hg.
  do 5 (destruct t as [ | t ]; [ injection Hg as <-; reflexivity | ]).
  destruct t; discriminate Hg.
Qed.

Lemma known_type_group (ety : Z) :
  0 <= ety <= FME_EVTYPE_MAX ->
  exists g, nth_error (fme_perf_event_groups (D := D)) (Z.to_nat ety) = Some g.
Proof.
  intros Ht.
  assert (Hc : ety = 0 \/ ety = 1 \/ ety = 2 \/ ety = 3 \/ ety = 4)
    by (unfold FME_EVTYPE_MAX, FME_EVTYPE_VTD_SIP in Ht; lia).
  destruct Hc as [-> | [-> | [-> | [-> | ->]]]]; eexists; reflexivity.
Qed.

Lemma get_event_attr_found (eid ety port_id : Z) (i : nat)
    (a : fme_perf_event_attr) :
  0 <= ety ->
  get_event_attr (D := D) eid ety port_id = Some (i, a) ->
  ety <= FME_EVTYPE_MAX /\
  event_type a = ety /\
  matches_request eid (negb (port_id =? FME_PORTID_ROOT)) a /\
  exists g,
    nth_error (fme_perf_event_groups (D := D)) (Z.to_nat ety) = Some g /\
    nth_error (ev_attrs g) i = Some a /\
    forall j b, (j < i)%nat -> nth_error (ev_attrs g) j = Some b ->
                ~ matches_request eid (negb (port_id =? FME_PORTID_ROOT)) b.
Proof.
  intros Hty. unfold get_event_attr.
  destruct (Z.gtb_spec ety FME_EVTYPE_MAX) as [Hgt | Hle];
    [ discriminate | ].
  destruct (known_type_group ety (conj Hty Hle)) as (g & Hg).
  rewrite Hg, (group_scans_all _ _ Hg). intros Hs.
  destruct (scan_ev_attrs_found _ _ _ _ _ _ Hs)
    as (j & Hi & Hn & Hmt & Hfirst).
  cbn in Hi. subst j.
  split; [ exact Hle | ].
  split; [ rewrite (catalog_types _ _ _ _ Hg Hn); lia | ].
  split; [ exact Hmt | ].
  exists g. split; [ reflexivity | ]. split; assumption.
Qed.

(** X8: the resolver is exact.  What it returns is the first slot of
    the group of that type whose id is the one asked for and whose scope
    is per-port exactly when the port is not the aggregate sentinel, and
    that slot's own type is the type asked for; it returns nothing
    exactly when the type is beyond the last group or the group has no
    such slot. *)
Theorem get_event_attr_exact (eid ety port_id : Z) :
  0 <= ety ->
  let is_port := negb (port_id =? FME_PORTID_ROOT) in
  (forall i a,
     get_event_attr (D := D) eid ety port_id = Some (i, a) ->
     ety <= FME_EVTYPE_MAX /\
     event_type a = ety /\
     matches_request eid is_port a /\
     exists g,
       nth_error (fme_perf_event_groups (D := D)) (Z.to_nat ety) = Some g /\
       nth_error (ev_attrs g) i = Some a /\
       forall j b, (j < i)%nat -> nth_error (ev_attrs g) j = Some b ->
                   ~ matches_request eid is_port b) /\
  (get_event_attr (D := D) eid ety port_id = None <->
   ety > FME_EVTYPE_MAX \/
   forall g a,
     nth_error (fme_perf_event_groups (D := D)) (Z.to_nat ety) = Some g ->
     In a (ev_attrs g) -> ~ matches_request eid is_port a).
Proof.
  intros Hty is_port.
  split; [ intros i a; apply get_event_attr_found; exact Hty | ].
  unfold get_event_attr. fold is_port.
  destruct (Z.gtb_spec ety FME_EVTYPE_MAX) as [Hgt | Hle].
  - split; [ intros _; left; lia | reflexivity ].
  - destruct (known_type_group ety (conj Hty Hle)) as (g & Hg).
    rewrite Hg, (group_scans_all _ _ Hg).
    rewrite scan_ev_attrs_missing. split.
    + intros Hno. right. intros g' a Hg' Ha. injection Hg' as <-.
      apply Hno. exact Ha.
    + intros [Hgt | Hno]; [ lia | ]. intros a Ha.
      apply (Hno g a eq_refl Ha).
Qed.

(** ** Monitoring facade: what an open does *)

Lemma config_fields_range (cfg : Z) :
  0 <= config_event_id cfg < 2 ^ 12 /\
  0 <= config_event_type cfg < 2 ^ 4 /\
  0 <= config_port_id cfg < 2 ^ 8.
Proof.
  rewrite config_event_id_mod, config_event_type_mod, config_port_id_mod.
  pose proof (Z.mod_pos_bound cfg (2 ^ 12)).
  pose proof (Z.mod_pos_bound (Z.shiftr cfg 12) (2 ^ 4)).
  pose proof (Z.mod_pos_bound (Z.shiftr cfg 16) (2 ^ 8)). lia.
Qed.

Lemma to_int_small (z : Z) : 0 <= z < 2 ^ 31 -> to_int z = z.
Proof.
  intros Hz. unfold to_int. rewrite Z.mod_small by lia. lia.
Qed.

Lemma valid_port_passes (a : fme_perf_event_attr) (port_id : Z) :
  valid_port_for a port_id ->
  (is_port_event a && (port_id >=? PERF_MAX_PORT_NUM))
  || (negb (is_port_event a) && negb (port_id =? FME_PORTID_ROOT)) = false.
Proof.
  unfold valid_port_for. destruct (is_port_event a); cbn; intros Hv.
  - rewrite orb_false_r. rewrite Z.geb_leb. apply Z.leb_gt. lia.
  - subst port_id. reflexivity.
Qed.

Lemma checked_port_valid (a : fme_perf_event_attr) (port_id : Z) :
  0 <= port_id ->
  (is_port_event a && (port_id >=? PERF_MAX_PORT_NUM))
  || (negb (is_port_event a) && negb (port_id =? FME_PORTID_ROOT)) = false ->
  valid_port_for a port_id.
Proof.
  unfold valid_port_for. destruct (is_port_event a); cbn; intros Hp Hv.
  - rewrite orb_false_r, Z.geb_leb in Hv. apply Z.leb_gt in Hv. lia.
  - apply negb_false_iff, Z.eqb_eq in Hv. exact Hv.
Qed.

(** A validated and resolved request reaches the type's callbacks. *)
Lemma fme_perf_event_init_resolved (w : world D) (event : perf_event)
    (i : nat) (a : fme_perf_event_attr) :
  let cfg := attr_config (attr event) in
  passes_gates w event ->
  get_event_attr (D := D) (config_event_id cfg) (config_event_type cfg)
                 (config_port_id cfg) = Some (i, a) ->
  valid_port_for a (config_port_id cfg) ->
  fme_perf_event_init event w =
  bind (get_event_ops (config_event_type cfg))
       (fun ops =>
          match event_init ops with
          | Some f =>
              bind (f (config_event_id cfg) (config_port_id cfg) (data a))
                   (fun r => ret (r, opened_session event a))
          | None => ret (0, opened_session event a)
          end)
       (after_open_debug w).
Proof.
  intros cfg (Hty & Hs & Ht & Hc) Hres Hv.
  unfold fme_perf_event_init. unfold bind at 1. unfold get_priv.
  rewrite Hty, Z.eqb_refl, Hs, Ht. cbn [negb orb Z.eqb].
  destruct (Z.ltb_spec (cpu event) 0) as [Hneg | _]; [ lia | ].
  change (wrap32 (FIELD_GET FME_EVENT_MASK (attr_config (attr event))))
    with (config_event_id cfg).
  change (wrap32 (FIELD_GET FME_EVTYPE_MASK (attr_config (attr event))))
    with (config_event_type cfg).
  change (wrap32 (FIELD_GET FME_PORTID_MASK (attr_config (attr event))))
    with (config_port_id cfg).
  rewrite Hres, (valid_port_passes _ _ Hv).
  destruct (config_fields_range cfg) as (Hid & Hty' & Hpo).
  unfold bind at 1. unfold dev_dbg, printk. fold (after_open_debug w).
  cbn [hw set_destroy set_hw event_base idx config_base config].
  rewrite (to_int_small (config_event_id cfg)) by lia.
  rewrite (wrap32_small (config_event_id cfg)) by (unfold is_u32; lia).
  rewrite (wrap32_small (config_port_id cfg)) by (unfold is_u32; lia).
  unfold opened_session. fold cfg.
  rewrite (to_int_small (config_event_id cfg)) by lia.
  reflexivity.
Qed.

(** X9: a request for this PMU whose id, type and port name no
    descriptor of the catalog fails with -EINVAL (not with the -ENOENT
    of the PMU enumeration), before anything is stored or touched. *)
Theorem fme_perf_event_init_unknown_event (w : world D) (event : perf_event) :
  let cfg := attr_config (attr event) in
  attr_type (attr event) = pmu_type (priv w) ->
  get_event_attr (D := D) (config_event_id cfg) (config_event_type cfg)
                 (config_port_id cfg) = None ->
  fme_perf_event_init event w = Some ((- EINVAL, event), w).
Proof.
  intros cfg Hty Hres. unfold fme_perf_event_init, bind, get_priv.
  rewrite Hty, Z.eqb_refl. cbn [negb].
  destruct (is_sampling_event event
            || negb (Z.land (attach_state event) PERF_ATTACH_TASK =? 0));
    [ reflexivity | ].
  destruct (cpu event <? 0); [ reflexivity | ].
  change (wrap32 (FIELD_GET FME_EVENT_MASK (attr_config (attr event))))
    with (config_event_id cfg).
  change (wrap32 (FIELD_GET FME_EVTYPE_MASK (attr_config (attr event))))
    with (config_event_type cfg).
  change (wrap32 (FIELD_GET FME_PORTID_MASK (attr_config (attr event))))
    with (config_port_id cfg).
  rewrite Hres. reflexivity.
Qed.

Lemma resolved_type_cases (cfg : Z) (i : nat) (a : fme_perf_event_attr) :
  get_event_attr (D := D) (config_event_id cfg) (config_event_type cfg)
                 (config_port_id cfg) = Some (i, a) ->
  event_type a = config_event_type cfg /\
  (config_event_type cfg = FME_EVTYPE_BASIC \/
   config_event_type cfg = FME_EVTYPE_CACHE \/
   config_event_type cfg = FME_EVTYPE_FABRIC \/
   config_event_type cfg = FME_EVTYPE_VTD \/
   config_event_type cfg = FME_EVTYPE_VTD_SIP).
Proof.
  intros Hres. destruct (config_fields_range cfg) as (_ & Hty & _).
  destruct (get_event_attr_found _ _ _ _ _ (proj1 Hty) Hres)
    as (Hle & Het & _).
  split; [ exact Het | ].
  unfold FME_EVTYPE_MAX, FME_EVTYPE_VTD_SIP, FME_EVTYPE_BASIC,
    FME_EVTYPE_CACHE, FME_EVTYPE_FABRIC, FME_EVTYPE_VTD in *. lia.
Qed.

(** X10: a valid request for an event of any type but fabric is accepted
    with 0: the decoded id, type and port and the descriptor's [data]
    are stored in the event and the destroy callback is installed; one
    debug line is logged; no register is accessed and the private data
    (the feature id is not consulted, the arbiter is not involved) stays
    as it was. *)
Theorem fme_perf_event_init_accepts (w : world D) (event : perf_event)
    (i : nat) (a : fme_perf_event_attr) :
  let cfg := attr_config (attr event) in
  passes_gates w event ->
  get_event_attr (D := D) (config_event_id cfg) (config_event_type cfg)
                 (config_port_id cfg) = Some (i, a) ->
  valid_port_for a (config_port_id cfg) ->
  event_type a <> FME_EVTYPE_FABRIC ->
  fme_perf_event_init event w =
  Some ((0, opened_session event a), after_open_debug w).
Proof.
  intros cfg Hg Hres Hv Hnf.
  rewrite (fme_perf_event_init_resolved w event i a Hg Hres Hv). fold cfg.
  destruct (resolved_type_cases cfg i a Hres) as (Het & Hc).
  rewrite Het in Hnf.
  destruct Hc as [Hc | [Hc | [Hc | [Hc | Hc]]]]; rewrite Hc;
    solve [ reflexivity | contradiction ].
Qed.

Lemma get_event_ops_fabric (w : world D) :
  get_event_ops FME_EVTYPE_FABRIC w = Some (fme_perf_fab_ops, w).
Proof. reflexivity. Qed.

(** X11: a valid request for a fabric event is put to the arbiter with
    the decoded port: it fails with -EOPNOTSUPP exactly when there are
    users and the mode differs from the port's classification, and then
    user count, mode and registers are as before; otherwise it returns 0
    with one more user in the requested mode.  Either way the event
    comes back with the decoded fields stored and the destroy callback
    installed. *)
Theorem fme_perf_event_init_fabric_arbitrated (w : world D)
    (event : perf_event) (i : nat) (a : fme_perf_event_attr) :
  let cfg := attr_config (attr event) in
  let port_id := config_port_id cfg in
  passes_gates w event ->
  get_event_attr (D := D) (config_event_id cfg) (config_event_type cfg)
                 (config_port_id cfg) = Some (i, a) ->
  valid_port_for a port_id ->
  event_type a = FME_EVTYPE_FABRIC ->
  is_u32 (fab_users (priv w)) ->
  exists r w',
    fme_perf_event_init event w = Some ((r, opened_session event a), w') /\
    (r = - EOPNOTSUPP \/ r = 0) /\
    (r = - EOPNOTSUPP <->
     fab_users (priv w) > 0 /\ current_mode (priv w) <> classify port_id) /\
    (r = - EOPNOTSUPP ->
     fab_users (priv w') = fab_users (priv w) /\
     fab_port_id (priv w') = fab_port_id (priv w) /\
     iomem w' = iomem w /\ mmio w' = mmio w) /\
    (r = 0 ->
     fab_users (priv w') = wrap32 (fab_users (priv w) + 1) /\
     fab_port_id (priv w') = port_id /\
     (current_mode (priv w) = classify port_id ->
      iomem w' = iomem w /\ mmio w' = mmio w)).
Proof.
  intros cfg port_id Hg Hres Hv Hf Hu.
  rewrite (fme_perf_event_init_resolved w event i a Hg Hres Hv). fold cfg.
  destruct (resolved_type_cases cfg i a Hres) as (Het & _).
  rewrite Het in Hf. rewrite Hf. fold port_id.
  unfold bind at 1. rewrite get_event_ops_fabric.
  cbn [event_init fme_perf_fab_ops].
  set (wd := after_open_debug w).
  assert (Hpw : priv wd = priv w) by reflexivity.
  assert (Hmw : mmio wd = mmio w) by reflexivity.
  assert (Hiw : iomem wd = iomem w) by reflexivity.
  unfold bind at 1.
  destruct (fab_port_id (priv wd) =? port_id) eqn:Hp.
  - rewrite fabric_event_init_same_mode by exact Hp.
    rewrite Hpw in Hp. apply current_mode_eqb in Hp.
    eexists. eexists. split; [ reflexivity | ]. cbn [priv iomem mmio].
    split; [ right; reflexivity | ].
    split; [ split; [ discriminate | intros [_ Hne]; contradiction ] | ].
    split; [ discriminate | ].
    intros _. cbn. repeat split; auto.
    unfold current_mode in Hp. apply classify_inj in Hp. exact Hp.
  - destruct (fab_users (priv wd) =? 0) eqn:Hz.
    + rewrite fabric_event_init_switch by assumption.
      rewrite Hpw in Hp, Hz. apply current_mode_neqb in Hp.
      apply Z.eqb_eq in Hz.
      eexists. eexists. split; [ reflexivity | ]. cbn [priv iomem mmio].
      split; [ right; reflexivity | ].
      split; [ split; [ discriminate | intros [Hgt _]; lia ] | ].
      split; [ discriminate | ].
      intros _. cbn. repeat split; auto; contradiction.
    + rewrite fabric_event_init_conflict by assumption.
      rewrite Hpw in Hp, Hz. apply current_mode_neqb in Hp.
      apply Z.eqb_neq in Hz.
      eexists. eexists. split; [ reflexivity | ]. cbn [priv iomem mmio].
      split; [ left; reflexivity | ].
      split.
      { split; [ intros _ | reflexivity ].
        split; [ unfold is_u32 in Hu; lia | exact Hp ]. }
      split; [ intros _; cbn; repeat split | discriminate ].
Qed.

(** ** Every way through an open *)

Lemma fme_perf_event_init_gates (w : world D) (event : perf_event) :
  wrap32 (attr_type (attr event)) = wrap32 (pmu_type (priv w)) ->
  fme_perf_event_init event w = Some ((- EINVAL, event), w) \/
  passes_gates w event.
Proof.
  intros Hty. unfold passes_gates.
  destruct (is_sampling_event event) eqn:Hs.
  { left. unfold fme_perf_event_init, bind, get_priv.
    rewrite Hty, Z.eqb_refl, Hs. reflexivity. }
  destruct (Z.eqb_spec (Z.land (attach_state event) PERF_ATTACH_TASK) 0)
    as [Ht | Ht].
  2:{ left. unfold fme_perf_event_init, bind, get_priv.
      rewrite Hty, Z.eqb_refl, Hs. apply Z.eqb_neq in Ht. rewrite Ht.
      reflexivity. }
  destruct (Z.ltb_spec (cpu event) 0) as [Hc | Hc].
  { left. unfold fme_perf_event_init, bind, get_priv.
    rewrite Hty, Z.eqb_refl, Hs, Ht. cbn [negb orb Z.eqb].
    apply Z.ltb_lt in Hc. rewrite Hc. reflexivity. }
  right. auto.
Qed.

Lemma fme_perf_event_init_validation (w : world D) (event : perf_event) :
  let cfg := attr_config (attr event) in
  passes_gates w event ->
  fme_perf_event_init event w = Some ((- EINVAL, event), w) \/
  exists i a,
    get_event_attr (D := D) (config_event_id cfg) (config_event_type cfg)
                   (config_port_id cfg) = Some (i, a) /\
    valid_port_for a (config_port_id cfg).
Proof.
  intros cfg (Hty & Hs & Ht & Hc).
  destruct (get_event_attr (D := D) (config_event_id cfg)
              (config_event_type cfg) (config_port_id cfg))
    as [[i a] | ] eqn:Hres.
  2:{ left. unfold fme_perf_event_init, bind, get_priv.
      rewrite Hty, Z.eqb_refl, Hs, Ht. cbn [negb orb Z.eqb].
      destruct (Z.ltb_spec (cpu event) 0) as [Hneg | _]; [ lia | ].
      change (wrap32 (FIELD_GET FME_EVENT_MASK (attr_config (attr event))))
        with (config_event_id cfg).
      change (wrap32 (FIELD_GET FME_EVTYPE_MASK (attr_config (attr event))))
        with (config_event_type cfg).
      change (wrap32 (FIELD_GET FME_PORTID_MASK (attr_config (attr event))))
        with (config_port_id cfg).
      rewrite Hres. reflexivity. }
  destruct ((is_port_event a && (config_port_id cfg >=? PERF_MAX_PORT_NUM))
            || (negb (is_port_event a)
                && negb (config_port_id cfg =? FME_PORTID_ROOT))) eqn:Hchk.
  - left. unfold fme_perf_event_init, bind, get_priv.
    rewrite Hty, Z.eqb_refl, Hs, Ht. cbn [negb orb Z.eqb].
    destruct (Z.ltb_spec (cpu event) 0) as [Hneg | _]; [ lia | ].
    change (wrap32 (FIELD_GET FME_EVENT_MASK (attr_config (attr event))))
      with (config_event_id cfg).
    change (wrap32 (FIELD_GET FME_EVTYPE_MASK (attr_config (attr event))))
      with (config_event_type cfg).
    change (wrap32 (FIELD_GET FME_PORTID_MASK (attr_config (attr event))))
      with (config_port_id cfg).
    rewrite Hres, Hchk. reflexivity.
  - right. exists i, a. split; [ reflexivity | ].
    apply checked_port_valid; [ | exact Hchk ].
    apply (config_fields_range cfg).
Qed.

Lemma fabric_event_init_cases (w : world D) (event port_id data : Z) :
  exists r w',
    fabric_event_init event port_id data w = Some (r, w') /\
    ((r = - EOPNOTSUPP /\ fab_users (priv w) <> 0 /\
      fab_port_id (priv w) <> port_id /\
      fab_users (priv w') = fab_users (priv w) /\
      fab_port_id (priv w') = fab_port_id (priv w) /\
      iomem w' = iomem w /\ mmio w' = mmio w)
     \/
     (r = 0 /\
      (fab_users (priv w) = 0 \/ fab_port_id (priv w) = port_id) /\
      fab_users (priv w') = wrap32 (fab_users (priv w) + 1) /\
      fab_port_id (priv w') = port_id /\
      fab_lock (priv w') = false /\
      pmu_type (priv w') = pmu_type (priv w) /\
      dmesg w' = dmesg w /\
      (fab_port_id (priv w) = port_id ->
       iomem w' = iomem w /\ mmio w' = mmio w))).
Proof.
  destruct (fab_port_id (priv w) =? port_id) eqn:Hp.
  - rewrite fabric_event_init_same_mode by exact Hp.
    apply Z.eqb_eq in Hp.
    eexists. eexists. split; [ reflexivity | ]. right. cbn.
    repeat split; auto.
  - destruct (fab_users (priv w) =? 0) eqn:Hz.
    + rewrite fabric_event_init_switch by assumption.
      apply Z.eqb_eq in Hz. apply Z.eqb_neq in Hp.
      eexists. eexists. split; [ reflexivity | ]. right. cbn.
      repeat split; auto; contradiction.
    + rewrite fabric_event_init_conflict by assumption.
      apply Z.eqb_neq in Hz. apply Z.eqb_neq in Hp.
      eexists. eexists. split; [ reflexivity | ]. left. cbn.
      repeat split; auto.
Qed.

Lemma fme_perf_event_init_cases (w : world D) (event : perf_event) :
  let cfg := attr_config (attr event) in
  (wrap32 (attr_type (attr event)) <> wrap32 (pmu_type (priv w)) /\
   fme_perf_event_init event w = Some ((- ENOENT, event), w)) \/
  (wrap32 (attr_type (attr event)) = wrap32 (pmu_type (priv w)) /\
   fme_perf_event_init event w = Some ((- EINVAL, event), w)) \/
  (passes_gates w event /\
   exists i a,
     get_event_attr (D := D) (config_event_id cfg) (config_event_type cfg)
                    (config_port_id cfg) = Some (i, a) /\
     valid_port_for a (config_port_id cfg) /\
     config_event_type cfg <> FME_EVTYPE_FABRIC /\
     fme_perf_event_init event w =
     Some ((0, opened_session event a), after_open_debug w)) \/
  (passes_gates w event /\
   exists i a r w',
     get_event_attr (D := D) (config_event_id cfg) (config_event_type cfg)
                    (config_port_id cfg) = Some (i, a) /\
     valid_port_for a (config_port_id cfg) /\
     config_event_type cfg = FME_EVTYPE_FABRIC /\
     fabric_event_init (config_event_id cfg) (config_port_id cfg) (data a)
                       (after_open_debug w) = Some (r, w') /\
     fme_perf_event_init event w = Some ((r, opened_session event a), w')).
Proof.
  intros cfg.
  destruct (Z.eq_dec (wrap32 (attr_type (attr event)))
                     (wrap32 (pmu_type (priv w)))) as [Hty | Hty].
  2:{ left. split; [ exact Hty | ].
      apply fme_perf_event_init_other_pmu. exact Hty. }
  right.
  destruct (fme_perf_event_init_gates w event Hty) as [Hr | Hg];
    [ left; auto | ].
  destruct (fme_perf_event_init_validation w event Hg)
    as [Hr | (i & a & Hres & Hv)]; [ left; auto | ].
  right.
  pose proof (fme_perf_event_init_resolved w event i a Hg Hres Hv) as Hrun.
  fold cfg in Hrun, Hres, Hv.
  destruct (resolved_type_cases cfg i a Hres) as (Het & Hc).
  destruct (Z.eq_dec (config_event_type cfg) FME_EVTYPE_FABRIC) as [Hf | Hnf].
  - right. split; [ exact Hg | ].
    destruct (fabric_event_init_cases (after_open_debug w)
                (config_event_id cfg) (config_port_id cfg) (data a))
      as (r & w' & Hfab & _).
    exists i, a, r, w'. repeat (split; [ assumption | ]).
    rewrite Hrun, Hf. unfold bind at 1. rewrite get_event_ops_fabric.
    cbn [event_init fme_perf_fab_ops]. unfold bind. rewrite Hfab. reflexivity.
  - left. split; [ exact Hg | ].
    exists i, a. repeat (split; [ assumption | ]).
    rewrite Hrun.
    destruct Hc as [Hc | [Hc | [Hc | [Hc | Hc]]]]; rewrite Hc in *;
      solve [ reflexivity | contradiction ].
Qed.

Lemma opened_session_ok (event : perf_event) (i : nat)
    (a : fme_perf_event_attr) :
  let cfg := attr_config (attr event) in
  get_event_attr (D := D) (config_event_id cfg) (config_event_type cfg)
                 (config_port_id cfg) = Some (i, a) ->
  valid_port_for a (config_port_id cfg) ->
  session_ok (D := D) (opened_session event a).
Proof.
  intros cfg Hres Hv.
  destruct (config_fields_range cfg) as (Hid & Hty & Hpo).
  destruct (get_event_attr_found _ _ _ _ _ (proj1 Hty) Hres) as (Hle & _).
  exists i, a. unfold opened_session. fold cfg.
  cbn [hw set_destroy set_hw idx event_base config_base config destroy].
  rewrite (to_int_small (config_event_id cfg)) by lia.
  repeat split; try assumption; try lia.
Qed.

(** X12: an open always returns, with one of four results: -ENOENT
    exactly for an event of another PMU (the type of the request, a
    [u32], and the type of the PMU, an [int], differ when both are
    taken as unsigned), -EINVAL, -EOPNOTSUPP or 0.
    With the first two neither the event nor the machine has changed.
    -EOPNOTSUPP only comes from a fabric request, and leaves user count,
    mode and registers as they were.  With 0, and also with
    -EOPNOTSUPP, the event holds a well-formed session: stored id, type
    and port resolve to a catalog descriptor, the port is valid for it,
    the type is within the group array, the destroy callback is
    installed; count and snapshot are as before. *)
Theorem fme_perf_event_init_outcomes (w : world D) (event : perf_event) :
  exists r e' w',
    fme_perf_event_init event w = Some ((r, e'), w') /\
    (r = - ENOENT \/ r = - EINVAL \/ r = - EOPNOTSUPP \/ r = 0) /\
    (r = - ENOENT <->
     wrap32 (attr_type (attr event)) <> wrap32 (pmu_type (priv w))) /\
    (r = - ENOENT \/ r = - EINVAL -> e' = event /\ w' = w) /\
    (r = - EOPNOTSUPP ->
     config_event_type (attr_config (attr event)) = FME_EVTYPE_FABRIC /\
     fab_users (priv w') = fab_users (priv w) /\
     fab_port_id (priv w') = fab_port_id (priv w) /\
     iomem w' = iomem w /\ mmio w' = mmio w) /\
    (r = - EOPNOTSUPP \/ r = 0 ->
     passes_gates w event /\
     session_ok (D := D) e' /\
     attr e' = attr event /\ count e' = count event /\
     prev_count (hw e') = prev_count (hw event)).
Proof.
  destruct (fme_perf_event_init_cases w event)
    as [(Hty & Hrun) | [(Hty & Hrun) | [(Hg & i & a & Hres & Hv & Hnf & Hrun)
       | (Hg & i & a & r & w' & Hres & Hv & Hf & Hfab & Hrun)]]].
  - eexists. eexists. eexists. split; [ exact Hrun | ].
    split; [ auto | ].
    split; [ split; auto | ].
    split; [ auto | ].
    split; [ discriminate | intros [Hr | Hr]; discriminate Hr ].
  - eexists. eexists. eexists. split; [ exact Hrun | ].
    split; [ auto | ].
    split; [ split; [ discriminate | contradiction ] | ].
    split; [ auto | ].
    split; [ discriminate | intros [Hr | Hr]; discriminate Hr ].
  - eexists. eexists. eexists. split; [ exact Hrun | ].
    split; [ auto | ].
    split; [ split; [ discriminate | intros Hne; destruct Hg; contradiction ] | ].
    split; [ intros [Hr | Hr]; discriminate Hr | ].
    split; [ discriminate | ].
    intros _. split; [ exact Hg | ].
    split; [ eapply opened_session_ok; eassumption | ].
    repeat split.
  - destruct (fabric_event_init_cases (after_open_debug w)
                (config_event_id (attr_config (attr event)))
                (config_port_id (attr_config (attr event))) (data a))
      as (r0 & w0 & Hfab0 & Hcase).
    rewrite Hfab in Hfab0. injection Hfab0 as <- <-.
    eexists. eexists. eexists. split; [ exact Hrun | ].
    assert (Hok : passes_gates w event /\
                  session_ok (D := D) (opened_session event a) /\
                  attr (opened_session event a) = attr event /\
                  count (opened_session event a) = count event /\
                  prev_count (hw (opened_session event a))
                  = prev_count (hw event)).
    { split; [ exact Hg | ].
      split; [ eapply opened_session_ok; eassumption | ]. repeat split. }
    destruct Hcase as [(-> & _ & _ & Hu & Hp & Hio & Hm) | (-> & _)].
    + split; [ auto | ].
      split; [ split; [ discriminate
                      | intros Hne; destruct Hg; contradiction ] | ].
      split; [ intros [Hr | Hr]; discriminate Hr | ].
      split; [ intros _; repeat split; assumption | ].
      intros _. exact Hok.
    + split; [ auto | ].
      split; [ split; [ discriminate
                      | intros Hne; destruct Hg; contradiction ] | ].
      split; [ intros [Hr | Hr]; discriminate Hr | ].
      split; [ discriminate | ].
      intros _. exact Hok.
Qed.

End Facade.

Section Session.

Context {D : Type} `{MmioDevice D}.

Local Arguments wrap32 : simpl never.
Local Arguments wrap64 : simpl never.

(** ** The life of a session *)

Lemma session_ok_type (e : perf_event) :
  session_ok (D := D) e -> 0 <= event_base (hw e) <= FME_EVTYPE_MAX.
Proof. intros (i & a & _ & _ & Ht & _). exact Ht. Qed.

Lemma session_ok_same_slot (e e1 : perf_event) :
  session_ok (D := D) e ->
  idx (hw e1) = idx (hw e) -> event_base (hw e1) = event_base (hw e) ->
  config_base (hw e1) = config_base (hw e) -> config (hw e1) = config (hw e) ->
  destroy e1 = destroy e ->
  session_ok (D := D) e1.
Proof.
  intros (i & a & Hres & Hok) Hi Hb Hc Hcf Hd. exists i, a.
  rewrite Hi, Hb, Hc, Hcf, Hd. split; assumption.
Qed.

(** A session of known type reads its driver; the private data stays. *)
Lemma session_reads (w : world D) (e : perf_event) :
  0 <= event_base (hw e) <= FME_EVTYPE_MAX ->
  exists now w',
    driver_reads w e now /\
    (exists ops,
       get_event_ops (event_base (hw e)) w = Some (ops, w) /\
       read_counter ops (wrap32 (idx (hw e))) (wrap32 (config_base (hw e)))
                    (config (hw e)) w = Some (now, w')) /\
    priv w' = priv w.
Proof.
  intros Ht.
  destruct (read_counter_frame w (event_base (hw e)) (wrap32 (idx (hw e)))
              (wrap32 (config_base (hw e))) (config (hw e)) Ht)
    as (ops & r & w' & Hops & Hrun & Hp & _).
  exists r, w'. split; [ exists ops, w'; auto | ].
  split; [ exists ops; auto | exact Hp ].
Qed.

Lemma fme_perf_event_destroy_run (w : world D) (e : perf_event) :
  0 <= event_base (hw e) <= FME_EVTYPE_MAX ->
  fme_perf_event_destroy e w =
  Some (tt,
        if event_base (hw e) =? FME_EVTYPE_FABRIC then
          mk_world (set_fab_lock false
                      (set_fab_users (wrap32 (fab_users (priv w) - 1))
                                     (priv w)))
                   (iomem w) (mmio w) (dmesg w)
        else w).
Proof.
  intros Ht.
  assert (Hc : event_base (hw e) = 0 \/ event_base (hw e) = 1 \/
               event_base (hw e) = 2 \/ event_base (hw e) = 3 \/
               event_base (hw e) = 4)
    by (unfold FME_EVTYPE_MAX, FME_EVTYPE_VTD_SIP in Ht; lia).
  unfold fme_perf_event_destroy.
  destruct Hc as [-> | [-> | [-> | [-> | ->]]]]; reflexivity.
Qed.

(** X13: on a well-formed session every later operation is defined, the
    unchecked index into the group array being within bounds: start,
    read, stop, del and add return a well-formed session again and leave
    the private data alone (add returns 0, and does nothing at all
    without PERF_EF_START); destroy accesses no register, and only for a
    fabric session changes anything, namely the user count, by one. *)
Theorem session_operations_defined
    (w : world D) (e : perf_event) (flags : Z) :
  session_ok (D := D) e ->
  (exists e1 w1,
     fme_perf_event_start e flags w = Some (e1, w1) /\
     session_ok (D := D) e1 /\ count e1 = count e /\ priv w1 = priv w) /\
  (exists e1 w1,
     fme_perf_event_read e w = Some (e1, w1) /\
     fme_perf_event_stop e flags w = Some (e1, w1) /\
     fme_perf_event_del e flags w = Some (e1, w1) /\
     session_ok (D := D) e1 /\ hw e1 = hw e /\ priv w1 = priv w) /\
  (exists e1 w1,
     fme_perf_event_add e flags w = Some ((0, e1), w1) /\
     session_ok (D := D) e1 /\ count e1 = count e /\ priv w1 = priv w /\
     (Z.land flags PERF_EF_START = 0 -> e1 = e /\ w1 = w)) /\
  (exists w1,
     fme_perf_event_destroy e w = Some (tt, w1) /\
     iomem w1 = iomem w /\ mmio w1 = mmio w /\ dmesg w1 = dmesg w /\
     fab_port_id (priv w1) = fab_port_id (priv w) /\
     (event_base (hw e) <> FME_EVTYPE_FABRIC -> w1 = w) /\
     (event_base (hw e) = FME_EVTYPE_FABRIC ->
      fab_users (priv w1) = wrap32 (fab_users (priv w) - 1))).
Proof.
  intros Hok. pose proof (session_ok_type e Hok) as Ht.
  destruct (session_reads w e Ht) as (now & w' & Hreads & (ops & Hops & Hrd) & Hp).
  assert (Hstart : fme_perf_event_start e flags w =
                   Some (set_hw (set_prev_count now (hw e)) e, w')).
  { unfold fme_perf_event_start, bind. rewrite Hops, Hrd. reflexivity. }
  assert (Hupd : fme_perf_event_update e w =
                 Some (set_count (wrap64 (count e
                         + wrap64 (now - wrap64 (prev_count (hw e))))) e, w')).
  { unfold fme_perf_event_update, bind. rewrite Hops, Hrd. reflexivity. }
  split; [ | split; [ | split ] ].
  - eexists. eexists. split; [ exact Hstart | ].
    split; [ eapply session_ok_same_slot; [ exact Hok | .. ]; reflexivity | ].
    split; [ reflexivity | exact Hp ].
  - eexists. eexists.
    unfold fme_perf_event_read, fme_perf_event_del, fme_perf_event_stop.
    repeat (split; [ exact Hupd | ]).
    split; [ eapply session_ok_same_slot; [ exact Hok | .. ]; reflexivity | ].
    split; [ reflexivity | exact Hp ].
  - unfold fme_perf_event_add.
    destruct (Z.eqb_spec (Z.land flags PERF_EF_START) 0) as [Hz | Hnz].
    + cbn [negb]. exists e, w. repeat split; auto.
    + cbn [negb]. unfold bind. rewrite Hstart. unfold ret.
      eexists. eexists. split; [ reflexivity | ].
      split; [ eapply session_ok_same_slot; [ exact Hok | .. ]; reflexivity | ].
      split; [ reflexivity | ].
      split; [ exact Hp | intros Hz; contradiction ].
  - rewrite (fme_perf_event_destroy_run w e Ht).
    eexists. split; [ reflexivity | ].
    destruct (Z.eqb_spec (event_base (hw e)) FME_EVTYPE_FABRIC) as [Hf | Hf];
      cbn; repeat split; auto; try contradiction.
Qed.

(** X14: an open that returned 0 followed by the destroy of the event it
    set up gives back the arbiter slot: the user count is the one before
    the open (there being room for one more user), the mode is the one
    the open left, and the destroy itself accesses no register; for a
    session that is not a fabric one the destroy changes nothing. *)
Theorem open_then_destroy_restores_users
    (w w' : world D) (event e' : perf_event) :
  0 <= fab_users (priv w) < 2 ^ 32 - 1 ->
  fme_perf_event_init event w = Some ((0, e'), w') ->
  exists w'',
    fme_perf_event_destroy e' w' = Some (tt, w'') /\
    fab_users (priv w'') = fab_users (priv w) /\
    fab_port_id (priv w'') = fab_port_id (priv w') /\
    iomem w'' = iomem w' /\ mmio w'' = mmio w' /\ dmesg w'' = dmesg w' /\
    (config_event_type (attr_config (attr event)) <> FME_EVTYPE_FABRIC ->
     w'' = w').
Proof.
  intros Hu Hinit.
  destruct (fme_perf_event_init_cases w event)
    as [(_ & Hrun) | [(_ & Hrun) | [(Hg & i & a & Hres & Hv & Hnf & Hrun)
       | (Hg & i & a & r & w0 & Hres & Hv & Hf & Hfab & Hrun)]]];
    rewrite Hrun in Hinit; try discriminate Hinit.
  - injection Hinit as <- <-.
    pose proof (opened_session_ok event i a Hres Hv) as Hok.
    rewrite (fme_perf_event_destroy_run _ _ (session_ok_type _ Hok)).
    assert (Hb : event_base (hw (opened_session event a))
                 = config_event_type (attr_config (attr event)))
      by reflexivity.
    rewrite Hb. apply Z.eqb_neq in Hnf. rewrite Hnf.
    eexists. split; [ reflexivity | ]. repeat split.
  - injection Hinit as -> <- <-.
    pose proof (opened_session_ok event i a Hres Hv) as Hok.
    rewrite (fme_perf_event_destroy_run _ _ (session_ok_type _ Hok)).
    assert (Hb : event_base (hw (opened_session event a))
                 = config_event_type (attr_config (attr event)))
      by reflexivity.
    rewrite Hb, Hf. cbn [Z.eqb FME_EVTYPE_FABRIC Pos.eqb].
    destruct (fabric_event_init_cases (after_open_debug w)
                (config_event_id (attr_config (attr event)))
                (config_port_id (attr_config (attr event))) (data a))
      as (r0 & w1 & Hfab0 & Hcase).
    rewrite Hfab in Hfab0. injection Hfab0 as <- <-.
    destruct Hcase as [(Hr & _) | (_ & _ & Husers & _)];
      [ discriminate Hr | ].
    eexists. split; [ reflexivity | ]. cbn.
    split.
    { rewrite Husers. cbn.
      rewrite (wrap32_small (fab_users (priv w) + 1))
        by (unfold is_u32; lia).
      replace (fab_users (priv w) + 1 - 1) with (fab_users (priv w)) by lia.
      apply wrap32_small. unfold is_u32. lia. }
    repeat split. intros Hne. contradiction.
Qed.

Lemma driver_reads_functional (w : world D) (e : perf_event) (n m : Z) :
  driver_reads w e n -> driver_reads w e m -> n = m.
Proof.
  intros (ops & w1 & Hops & Hrd) (ops' & w2 & Hops' & Hrd').
  rewrite Hops in Hops'. injection Hops' as <-.
  rewrite Hrd in Hrd'. injection Hrd' as <- _. reflexivity.
Qed.

Lemma wrap64_accumulate (c a b : Z) :
  wrap64 (wrap64 (c + wrap64 a) + wrap64 b) = wrap64 (c + a + b).
Proof.
  unfold wrap64.
  rewrite (Z.add_mod_idemp_r _ b) by lia.
  rewrite (Z.add_mod_idemp_l _ b) by lia.
  replace (c + a mod 2 ^ 64 + b) with (c + b + a mod 2 ^ 64) by lia.
  rewrite (Z.add_mod_idemp_r _ a) by lia.
  f_equal. lia.
Qed.

(** X15: start records the driver's value as the snapshot and leaves the
    count; every read after it adds the distance from that same
    snapshot, which no read moves: after a start at s and two reads at
    n2 and n3 the count has grown by (n2 - s) + (n3 - s), modulo
    2^64. *)
Theorem start_then_reads_accumulate
    (w w1 w2 w3 : world D) (e e1 e2 e3 : perf_event) (flags s n2 n3 : Z) :
  driver_reads w e s ->
  fme_perf_event_start e flags w = Some (e1, w1) ->
  driver_reads w1 e1 n2 ->
  fme_perf_event_read e1 w1 = Some (e2, w2) ->
  driver_reads w2 e2 n3 ->
  fme_perf_event_read e2 w2 = Some (e3, w3) ->
  prev_count (hw e1) = s /\ count e1 = count e /\
  prev_count (hw e2) = s /\ count e2 = wrap64 (count e + (n2 - s)) /\
  prev_count (hw e3) = s /\
  count e3 = wrap64 (count e + (n2 - s) + (n3 - s)).
Proof.
  intros Hs Hstart Hn2 Hr2 Hn3 Hr3.
  destruct (fme_perf_event_start_snapshot w e flags s Hs) as (w1' & Hstart').
  rewrite Hstart' in Hstart. injection Hstart as <- <-.
  destruct (fme_perf_event_update_run w1' _ n2 Hn2) as (w2' & Hr2').
  unfold fme_perf_event_read in Hr2, Hr3.
  rewrite Hr2' in Hr2. injection Hr2 as <- <-.
  destruct (fme_perf_event_update_run w2' _ n3 Hn3) as (w3' & Hr3').
  rewrite Hr3' in Hr3. injection Hr3 as <- <-.
  cbn [hw count prev_count set_hw set_count set_prev_count].
  repeat split.
  - unfold wrap64. rewrite (Z.add_mod_idemp_r _ (n2 - s)) by lia. reflexivity.
  - apply wrap64_accumulate.
Qed.

(** X4: the basic driver knows one event, the clock: for it the result
    is what the clock register of the device holds, got by one read and
    nothing else; for any other event code the result is 0 and the
    machine is not touched.  That second branch is out of reach of a
    well-formed session: the catalog has no basic event but the clock,
    so a basic session always names it, its start() stores the clock
    register as the snapshot and its read() adds the distance from the
    snapshot to the clock register. *)
Theorem basic_read_event_counter_clock_only
    (w : world D) (event port_id data : Z) :
  let clock := wrap64 (fst (dev_readq CLK_CNTR (iomem w))) in
  let w1 := mk_world (priv w) (snd (dev_readq CLK_CNTR (iomem w)))
                     (mmio w ++ [MmioRead CLK_CNTR clock]) (dmesg w) in
  (event = BASIC_EVNT_CLK ->
   basic_read_event_counter event port_id data w = Some (clock, w1)) /\
  (event <> BASIC_EVNT_CLK ->
   basic_read_event_counter event port_id data w = Some (0, w)) /\
  (forall (e : perf_event) (flags : Z),
     session_ok (D := D) e -> event_base (hw e) = FME_EVTYPE_BASIC ->
     idx (hw e) = BASIC_EVNT_CLK /\
     driver_reads w e clock /\
     fme_perf_event_start e flags w =
       Some (set_hw (set_prev_count clock (hw e)) e, w1) /\
     fme_perf_event_read e w =
       Some (set_count
               (wrap64 (count e + wrap64 (clock - prev_count (hw e)))) e,
             w1)).
Proof.
  intros clock w1.
  assert (Hclk : forall p d,
             basic_read_event_counter BASIC_EVNT_CLK p d w = Some (clock, w1)).
  { intros p d. unfold basic_read_event_counter. rewrite Z.eqb_refl.
    apply readq_run. }
  split; [ intros ->; apply Hclk | ].
  split.
  { intros He. unfold basic_read_event_counter.
    apply Z.eqb_neq in He. rewrite He. reflexivity. }
  intros e flags (i & a & Hres & _) Hb.
  assert (Hidx : idx (hw e) = BASIC_EVNT_CLK).
  { rewrite Hb in Hres.
    destruct (get_event_attr_found _ _ _ _ _ (Z.le_refl 0) Hres)
      as (_ & _ & (Hid & _) & g & Hg & Hn & _).
    cbn in Hg. injection Hg as <-. cbn [ev_attrs FME_EVENT_GROUP] in Hn.
    unfold fme_perf_basic_events in Hn.
    destruct i as [ | i ]; [ | destruct i; discriminate Hn ].
    injection Hn as <-. symmetry. exact Hid. }
  assert (Hops : get_event_ops (event_base (hw e)) w
                 = Some (fme_perf_basic_ops, w))
    by (rewrite Hb; reflexivity).
  assert (Hread : read_counter fme_perf_basic_ops (wrap32 (idx (hw e)))
                    (wrap32 (config_base (hw e))) (config (hw e)) w
                  = Some (clock, w1)).
  { rewrite Hidx. change (wrap32 BASIC_EVNT_CLK) with BASIC_EVNT_CLK.
    apply Hclk. }
  split; [ exact Hidx | ].
  split; [ exists fme_perf_basic_ops, w1; split; assumption | ].
  split.
  - unfold fme_perf_event_start, bind. rewrite Hops, Hread. reflexivity.
  - unfold fme_perf_event_read, fme_perf_event_update, bind.
    rewrite Hops, Hread. unfold ret. rewrite wrap64_sub_wrap64_r.
    reflexivity.
Qed.

End Session.

Section Attach.

Context {D : Type} `{MmioDevice D}.

Local Arguments FIELD_GET : simpl never.
Local Arguments wrap32 : simpl never.
Local Arguments wrap64 : simpl never.

(** ** Device attach: what is exported and what can go wrong *)

Lemma group_events (t : Z) :
  (t = FME_EVTYPE_BASIC ->
   nth_error (fme_perf_event_groups (D := D)) (Z.to_nat t)
   = Some (FME_EVENT_GROUP fme_perf_basic_events fme_perf_basic_ops)) /\
  (t = FME_EVTYPE_CACHE ->
   nth_error (fme_perf_event_groups (D := D)) (Z.to_nat t)
   = Some (FME_EVENT_GROUP fme_perf_cache_events fme_perf_cache_ops)) /\
  (t = FME_EVTYPE_FABRIC ->
   nth_error (fme_perf_event_groups (D := D)) (Z.to_nat t)
   = Some (FME_EVENT_GROUP fme_perf_fab_events fme_perf_fab_ops)) /\
  (t = FME_EVTYPE_VTD ->
   nth_error (fme_perf_event_groups (D := D)) (Z.to_nat t)
   = Some (FME_EVENT_GROUP fme_perf_vtd_events fme_perf_vtd_ops)) /\
  (t = FME_EVTYPE_VTD_SIP ->
   nth_error (fme_perf_event_groups (D := D)) (Z.to_nat t)
   = Some (FME_EVENT_GROUP fme_perf_vtd_sip_events fme_perf_vtd_sip_ops)).
Proof. repeat split; intros ->; reflexivity. Qed.

Lemma catalog_member_type (t : nat) (g : fme_perf_event_group)
    (a : fme_perf_event_attr) :
  nth_error (fme_perf_event_groups (D := D)) t = Some g ->
  In a (ev_attrs g) -> event_type a = Z.of_nat t.
Proof.
  intros Hg Ha. apply In_nth_error in Ha. destruct Ha as (i & Hi).
  eapply catalog_types; eassumption.
Qed.

Lemma all_event_names_distinct : NoDup all_event_names.
Proof.
  assert (E : nodup string_dec all_event_names = all_event_names)
    by (vm_compute; reflexivity).
  rewrite <- E. apply NoDup_nodup.
Qed.

(** X16: the events attribute group.  If the array cannot be allocated
    the result is -ENOMEM and nothing has changed.  Otherwise the result
    is 0 and only the events group of the private data is set: it lists
    the basic and fabric events, and the cache and the two IOMMU groups
    as well exactly when the feature id is the one of the full counter
    set; that is 17 or 46 names, no name twice. *)
Theorem fme_perf_setup_attrs_exports (w : world D) (env : attach_env) :
  (kcalloc_ok env = false ->
   fme_perf_setup_attrs env w = Some (- ENOMEM, w)) /\
  (kcalloc_ok env = true ->
   exists names,
     fme_perf_setup_attrs env w =
     Some (0, mk_world (set_events_group names (priv w))
                       (iomem w) (mmio w) (dmesg w)) /\
     NoDup names /\
     List.length names =
       (if id (priv w) =? FME_FEATURE_ID_GLOBAL_IPERF then 46%nat
        else 17%nat) /\
     (forall n,
        In n names <->
        exists t g a,
          nth_error (fme_perf_event_groups (D := D)) t = Some g /\
          In a (ev_attrs g) /\ name a = n /\
          (id (priv w) = FME_FEATURE_ID_GLOBAL_IPERF \/
           event_type a = FME_EVTYPE_BASIC \/
           event_type a = FME_EVTYPE_FABRIC))).
Proof.
  split; intros Hk.
  - unfold fme_perf_setup_attrs, bind, get_priv. rewrite Hk. reflexivity.
  - unfold fme_perf_setup_attrs, bind, get_priv, modify_priv, ret.
    rewrite Hk. cbn [negb].
    destruct (Z.eqb_spec (id (priv w)) FME_FEATURE_ID_GLOBAL_IPERF)
      as [Hid | Hid].
    + exists all_event_names. split; [ reflexivity | ].
      split; [ exact all_event_names_distinct | ].
      split; [ reflexivity | ].
      intros n. unfold all_event_names. rewrite in_map_iff. split.
      * intros (a & Hn & Ha). rewrite !in_app_iff in Ha.
        destruct Ha as [Ha | [Ha | [Ha | [Ha | Ha]]]].
        -- exists 0%nat. eexists. exists a.
           split; [ reflexivity | ]. auto.
        -- exists 2%nat. eexists. exists a.
           split; [ reflexivity | ]. auto.
        -- exists 1%nat. eexists. exists a.
           split; [ reflexivity | ]. auto.
        -- exists 3%nat. eexists. exists a.
           split; [ reflexivity | ]. auto.
        -- exists 4%nat. eexists. exists a.
           split; [ reflexivity | ]. auto.
      * intros (t & g & a & Hg & Ha & Hn & _). exists a.
        split; [ exact Hn | ]. rewrite !in_app_iff.
        do 5 (destruct t as [ | t ];
              [ injection Hg as <-; cbn [ev_attrs FME_EVENT_GROUP] in Ha;
                tauto | ]).
        destruct t; discriminate Hg.
    + exists basic_fabric_event_names. split; [ reflexivity | ].
      split.
      { assert (E : nodup string_dec basic_fabric_event_names
                    = basic_fabric_event_names) by (vm_compute; reflexivity).
        rewrite <- E. apply NoDup_nodup. }
      split; [ reflexivity | ].
      intros n. unfold basic_fabric_event_names. rewrite in_map_iff. split.
      * intros (a & Hn & Ha). rewrite in_app_iff in Ha.
        destruct Ha as [Ha | Ha].
        -- exists 0%nat. eexists. exists a.
           split; [ reflexivity | ]. split; [ exact Ha | ].
           split; [ exact Hn | ]. right. left.
           apply (catalog_member_type 0 _ a eq_refl Ha).
        -- exists 2%nat. eexists. exists a.
           split; [ reflexivity | ]. split; [ exact Ha | ].
           split; [ exact Hn | ]. right. right.
           apply (catalog_member_type 2 _ a eq_refl Ha).
      * intros (t & g & a & Hg & Ha & Hn & Hty). exists a.
        split; [ exact Hn | ]. rewrite in_app_iff.
        pose proof (catalog_member_type t g a Hg Ha) as Het.
        destruct Hty as [Hty | Hty]; [ contradiction | ].
        assert (Ht : t = 0%nat \/ t = 2%nat).
        { unfold FME_EVTYPE_BASIC, FME_EVTYPE_FABRIC in Hty. lia. }
        destruct Ht as [-> | ->]; injection Hg as <-;
          cbn [ev_attrs FME_EVENT_GROUP] in Ha; tauto.
Qed.

(** X17: attach always returns.  The result is 0 exactly when both
    allocations and the registration succeed.  When the private data
    cannot be allocated the result is -ENOMEM and private data and
    registers are untouched; when the attribute array cannot be, it is
    -ENOMEM too and no register has been accessed.  Otherwise the fabric
    control register has been read exactly once, the user count is 0,
    the capabilities are "no interrupt" and "no exclude", and the result
    is that of the registration. *)
Theorem fme_perf_init_outcomes (w : world D) (feature_id : Z)
    (env : attach_env) :
  exists r w',
    fme_perf_init feature_id env w = Some (r, w') /\
    (r = 0 <->
     kzalloc_ok env = true /\ kcalloc_ok env = true /\
     pmu_register_ret env = 0) /\
    (kzalloc_ok env = false ->
     r = - ENOMEM /\ priv w' = priv w /\ iomem w' = iomem w /\
     mmio w' = mmio w) /\
    (kzalloc_ok env = true -> kcalloc_ok env = false ->
     r = - ENOMEM /\ iomem w' = iomem w /\ mmio w' = mmio w) /\
    (kzalloc_ok env = true -> kcalloc_ok env = true ->
     r = pmu_register_ret env /\
     (exists v, mmio w' = mmio w ++ [MmioRead FAB_CTRL v]) /\
     fab_users (priv w') = 0 /\ fab_lock (priv w') = false /\
     id (priv w') = feature_id /\
     pmu_capabilities (priv w') =
       Z.lor PERF_PMU_CAP_NO_INTERRUPT PERF_PMU_CAP_NO_EXCLUDE).
Proof.
  unfold fme_perf_init, fme_perf_pmu_register, fme_perf_setup_attrs,
    fme_perf_setup_hardware, bind, dev_dbg, printk, modify_priv, get_priv,
    ret.
  destruct (kzalloc_ok env) eqn:Hz; cbn [negb].
  2:{ eexists. eexists. split; [ reflexivity | ]. cbn.
      split; [ split; [ discriminate | intros (Hf & _); discriminate Hf ] | ].
      split; [ intros _; repeat split | ].
      split; intros Hf; discriminate Hf. }
  destruct (kcalloc_ok env) eqn:Hc; cbn [negb priv iomem mmio dmesg Z.eqb
    Z.opp ENOMEM].
  2:{ eexists. eexists. split; [ reflexivity | ]. cbn.
      split; [ split; [ discriminate
                      | intros (_ & Hf & _); discriminate Hf ] | ].
      split; [ intros Hf; discriminate Hf | ].
      split; [ intros _ _; repeat split | intros _ Hf; discriminate Hf ]. }
  rewrite readq_run. cbn [priv iomem mmio dmesg].
  destruct (FIELD_GET FAB_PORT_FILTER _ =? FAB_PORT_FILTER_DISABLE);
    cbn [priv iomem mmio dmesg];
    destruct (Z.eqb_spec (pmu_register_ret env) 0) as [Hr | Hr];
    cbn [negb priv iomem mmio dmesg Z.eqb];
    try rewrite Hr;
    try (apply Z.eqb_neq in Hr; rewrite Hr; apply Z.eqb_neq in Hr);
    cbn [negb];
    (eexists; eexists; split; [ reflexivity | ]); cbn;
    (split; [ split; [ try (intros Hf; contradiction); auto
                     | try (intros (_ & _ & Hf); contradiction); auto ] | ]);
    (split; [ intros Hf; discriminate Hf | ]);
    (split; [ intros _ Hf; discriminate Hf | ]);
    intros _ _; repeat split; eauto.
Qed.

End Attach.

Section ArbiterUse.

Context {D : Type} `{MmioDevice D}.

Local Arguments fab_filter_word : simpl never.
Local Arguments FIELD_GET : simpl never.
Local Arguments wrap32 : simpl never.
Local Arguments wrap64 : simpl never.

(** ** Changing the fabric mode *)

Lemma fabric_event_destroy_run (w : world D) (event port_id data : Z) :
  fabric_event_destroy event port_id data w =
  Some (tt, mk_world (set_fab_lock false
                        (set_fab_users (wrap32 (fab_users (priv w) - 1))
                                       (priv w)))
                     (iomem w) (mmio w) (dmesg w)).
Proof. reflexivity. Qed.

(** X18: the mode can only change while nobody uses the counter set.
    From an idle arbiter, an open for port a succeeds; an open for
    another port b is then refused with -EOPNOTSUPP while a second open
    for a succeeds; after both sessions are closed the mode is still a,
    and now the open for b succeeds, reads and writes the fabric control
    register once each and leaves the filter set for b. *)
Theorem fabric_mode_changes_only_when_idle
    (w : world D) (a b ev da : Z) :
  a <> b ->
  fab_users (priv w) = 0 ->
  exists w1 w2 w3 w4 w5 w6 v v',
    fabric_event_init ev a da w = Some (0, w1) /\
    fab_users (priv w1) = 1 /\ fab_port_id (priv w1) = a /\
    fabric_event_init ev b da w1 = Some (- EOPNOTSUPP, w2) /\
    fab_users (priv w2) = 1 /\ fab_port_id (priv w2) = a /\
    mmio w2 = mmio w1 /\
    fabric_event_init ev a da w2 = Some (0, w3) /\
    fab_users (priv w3) = 2 /\ mmio w3 = mmio w1 /\
    fabric_event_destroy ev a da w3 = Some (tt, w4) /\
    fabric_event_destroy ev a da w4 = Some (tt, w5) /\
    fab_users (priv w5) = 0 /\ fab_port_id (priv w5) = a /\
    mmio w5 = mmio w1 /\
    fabric_event_init ev b da w5 = Some (0, w6) /\
    fab_users (priv w6) = 1 /\ fab_port_id (priv w6) = b /\
    mmio w6 = mmio w1 ++ [MmioRead FAB_CTRL v; MmioWrite FAB_CTRL v'] /\
    FIELD_GET FAB_PORT_FILTER v' =
      (if b =? FME_PORTID_ROOT then FAB_PORT_FILTER_DISABLE
       else FAB_PORT_FILTER_ENABLE) /\
    FIELD_GET FAB_PORT_ID v' =
      (if b =? FME_PORTID_ROOT then 0 else b mod 2 ^ 2).
Proof.
  intros Hab Hu.
  assert (Hba : (a =? b) = false) by (apply Z.eqb_neq; exact Hab).
  assert (Hbb : (b =? a) = false) by (apply Z.eqb_neq; congruence).
  (* first open *)
  destruct (fabric_event_init_cases w ev a da)
    as (r1 & w1 & H1 & [(-> & Hn & _) | (-> & _ & Hu1 & Hp1 & _)]);
    [ contradiction | ].
  rewrite Hu in Hu1. change (wrap32 (0 + 1)) with 1 in Hu1.
  (* refused open *)
  assert (H2 := fabric_event_init_conflict w1 ev b da).
  rewrite Hu1, Hp1 in H2. specialize (H2 eq_refl Hba).
  (* second open for a *)
  set (w2 := mk_world (set_fab_lock false (priv w1)) (iomem w1) (mmio w1)
                      (dmesg w1 ++ _)) in H2.
  assert (H3 := fabric_event_init_same_mode w2 ev a da).
  cbn [w2 priv set_fab_lock fab_port_id] in H3.
  rewrite Hp1, Z.eqb_refl in H3. specialize (H3 eq_refl).
  fold w2 in H3. cbn [w2 priv set_fab_lock fab_users] in H3.
  rewrite Hu1 in H3. change (wrap32 (1 + 1)) with 2 in H3.
  set (w3 := mk_world _ (iomem w2) (mmio w2) (dmesg w2)) in H3.
  pose proof (fabric_event_destroy_run w3 ev a da) as H4.
  cbn [w3 priv fab_users set_fab_lock set_fab_users] in H4.
  change (wrap32 (2 - 1)) with 1 in H4.
  set (w4 := mk_world _ (iomem w3) (mmio w3) (dmesg w3)) in H4.
  pose proof (fabric_event_destroy_run w4 ev a da) as H5.
  cbn [w4 priv fab_users set_fab_lock set_fab_users] in H5.
  change (wrap32 (1 - 1)) with 0 in H5.
  set (w5 := mk_world _ (iomem w4) (mmio w4) (dmesg w4)) in H5.
  assert (H6 := fabric_event_init_switch w5 ev b da eq_refl).
  cbn [w5 w4 w3 w2 priv fab_port_id set_fab_lock set_fab_users
       set_fab_port_id] in H6.
  rewrite Hp1 in H6. specialize (H6 Hba). cbn zeta in H6.
  exists w1, w2, w3, w4, w5. eexists. eexists. eexists.
  split; [ exact H1 | ].
  split; [ exact Hu1 | ].
  split; [ exact Hp1 | ].
  split; [ exact H2 | ].
  split; [ exact Hu1 | ].
  split; [ exact Hp1 | ].
  split; [ reflexivity | ].
  split; [ exact H3 | ].
  split; [ reflexivity | ].
  split; [ reflexivity | ].
  split; [ exact H4 | ].
  split; [ exact H5 | ].
  split; [ reflexivity | ].
  split; [ exact Hp1 | ].
  split; [ reflexivity | ].
  split; [ exact H6 | ].
  cbn [priv mmio fab_users fab_port_id set_fab_lock set_fab_users
       set_fab_port_id].
  split; [ reflexivity | ].
  split; [ reflexivity | ].
  split; [ reflexivity | ].
  split; [ apply fab_filter_word_filter | apply fab_filter_word_port ].
Qed.

End ArbiterUse.

(** ** Software mode and hardware mode on plain registers *)

Section PlainRegisters.

Local Arguments fab_filter_word : simpl never.
Local Arguments FIELD_GET : simpl never.
Local Arguments FIELD_PREP : simpl never.
Local Arguments wrap32 : simpl never.
Local Arguments wrap64 : simpl never.
Local Arguments not64 : simpl never.
Local Arguments hw_mode : simpl never.

Lemma regfile_readq (addr : Z) (w : world regfile) :
  readq addr w =
  Some (wrap64 (reg_get addr (iomem w)),
        mk_world (priv w) (iomem w)
                 (mmio w ++ [MmioRead addr (wrap64 (reg_get addr (iomem w)))])
                 (dmesg w)).
Proof. reflexivity. Qed.

Lemma regfile_poll_loop (n : nat) (addr : Z) (cond : Z -> bool)
    (w : world regfile) :
  exists v w',
    poll_loop n addr cond w = Some (v, w') /\
    iomem w' = iomem w /\ priv w' = priv w.
Proof.
  revert w. induction n as [ | n IH ]; intros w; cbn [poll_loop];
    rewrite regfile_readq;
    destruct (cond (wrap64 (reg_get addr (iomem w)))).
  - eexists. eexists. split; [ reflexivity | ]. split; reflexivity.
  - rewrite regfile_readq. eexists. eexists.
    split; [ reflexivity | ]. split; reflexivity.
  - eexists. eexists. split; [ reflexivity | ]. split; reflexivity.
  - destruct (IH (mk_world (priv w) (iomem w)
                   (mmio w ++ [MmioRead addr (wrap64 (reg_get addr (iomem w)))])
                   (dmesg w))) as (v & w' & Hrun & Hio & Hp).
    exists v, w'. split; [ exact Hrun | ]. split; assumption.
Qed.

Lemma regfile_poll (addr : Z) (cond : Z -> bool) (d t : Z)
    (w : world regfile) :
  exists r w',
    readq_poll_timeout_atomic addr cond d t w = Some (r, w') /\
    iomem w' = iomem w /\ priv w' = priv w.
Proof.
  destruct (regfile_poll_loop (dev_poll_rounds (D := regfile) d t) addr cond w)
    as (v & w' & Hrun & Hio & Hp).
  unfold readq_poll_timeout_atomic, bind. rewrite Hrun.
  eexists. eexists. split; [ reflexivity | ]. split; assumption.
Qed.

(** After a polled read the registers are as before but for the
    control register, which holds the word written. *)
Ltac regfile_polled_read :=
  intros;
  unfold cache_read_event_counter, fabric_read_event_counter,
    vtd_read_event_counter, vtd_sip_read_event_counter;
  unfold bind at 1; rewrite regfile_readq;
  unfold bind at 1; unfold writeq at 1;
  match goal with
  | |- context [bind (readq_poll_timeout_atomic ?a ?cond ?d ?t) _ ?w0] =>
      let r := fresh "r" in
      let w1 := fresh "w1" in
      let Hrun := fresh "Hrun" in
      let Hio := fresh "Hio" in
      let Hp := fresh "Hp" in
      destruct (regfile_poll a cond d t w0) as (r & w1 & Hrun & Hio & Hp);
      unfold bind at 1; rewrite Hrun;
      destruct (negb (fst r =? 0));
      [ unfold bind, dev_err, printk, ret
      | unfold bind; rewrite ?regfile_readq; unfold ret ];
      eexists; eexists; eexists; (split; [ reflexivity | ]);
      cbn [iomem priv]; rewrite Hio, Hp; split; reflexivity
  end.

Lemma regfile_fabric_read (event port_id data : Z) (w : world regfile) :
  exists r w' c',
    fabric_read_event_counter event port_id data w = Some (r, w') /\
    iomem w' = reg_set FAB_CTRL c' (iomem w) /\ priv w' = priv w.
Proof. regfile_polled_read. Qed.


Lemma regfile_cache_read (event port_id data : Z) (w : world regfile) :
  exists r w' c',
    cache_read_event_counter event port_id data w = Some (r, w') /\
    iomem w' = reg_set CACHE_CTRL c' (iomem w) /\ priv w' = priv w.
Proof. regfile_polled_read. Qed.

Lemma regfile_vtd_read (event port_id data : Z) (w : world regfile) :
  exists r w' c',
    vtd_read_event_counter event port_id data w = Some (r, w') /\
    iomem w' = reg_set VTD_CTRL c' (iomem w) /\ priv w' = priv w.
Proof. regfile_polled_read. Qed.

Lemma regfile_vtd_sip_read (event port_id data : Z) (w : world regfile) :
  exists r w' c',
    vtd_sip_read_event_counter event port_id data w = Some (r, w') /\
    iomem w' = reg_set VTD_SIP_CTRL c' (iomem w) /\ priv w' = priv w.
Proof. regfile_polled_read. Qed.

(** The word a fabric read writes stands for the mode that the word it
    read stands for. *)
Lemma regfile_fabric_read_mode (event port_id data : Z) (w : world regfile) :
  exists r w',
    fabric_read_event_counter event port_id data w = Some (r, w') /\
    priv w' = priv w /\
    hw_mode (wrap64 (reg_get FAB_CTRL (iomem w')))
    = hw_mode (wrap64 (reg_get FAB_CTRL (iomem w))).
Proof.
  unfold fabric_read_event_counter.
  unfold bind at 1. rewrite regfile_readq.
  unfold bind at 1. unfold writeq at 1.
  set (c := wrap64 (reg_get FAB_CTRL (iomem w))).
  match goal with
  | |- context [bind (readq_poll_timeout_atomic ?a ?cond ?d ?t) _ ?w0] =>
      destruct (regfile_poll a cond d t w0) as (r & w1 & Hrun & Hio & Hp);
      unfold bind at 1; rewrite Hrun
  end.
  assert (Hmode :
    hw_mode (wrap64 (reg_get FAB_CTRL (iomem w1))) = hw_mode c).
  { rewrite Hio. cbn [iomem dev_writeq regfile_device reg_set reg_get].
    rewrite Z.eqb_refl.
    assert (Hc : is_u64 c) by apply wrap64_range.
    destruct (select_word_keeps_filter c event Hc) as [Hf Hp'].
    set (c' := Z.lor _ _) in *.
    assert (Hc' : wrap64 c' = c').
    { subst c'. unfold wrap64. rewrite <- (Z.mod_small c (2 ^ 64)) at 2
        by exact Hc.
      change FAB_CTRL_EVNT with (GENMASK_ULL 19 16). evnt_fields.
      Z.bitblast. }
    rewrite Hc'. unfold hw_mode.
    change FAB_CTRL_EVNT with (GENMASK_ULL 19 16) in c'.
    rewrite Hf, Hp'. reflexivity. }
  destruct (negb (fst r =? 0)).
  - unfold bind, dev_err, printk, ret.
    eexists. eexists. split; [ reflexivity | ]. cbn [priv iomem].
    split; [ rewrite Hp; reflexivity | exact Hmode ].
  - unfold bind. rewrite regfile_readq. unfold ret.
    eexists. eexists. split; [ reflexivity | ]. cbn [priv iomem].
    split; [ rewrite Hp; reflexivity | exact Hmode ].
Qed.

Lemma regfile_session_read_mode (w : world regfile) (e : perf_event) :
  0 <= event_base (hw e) <= FME_EVTYPE_MAX ->
  exists ops now w',
    get_event_ops (event_base (hw e)) w = Some (ops, w) /\
    read_counter ops (wrap32 (idx (hw e))) (wrap32 (config_base (hw e)))
                 (config (hw e)) w = Some (now, w') /\
    priv w' = priv w /\
    hw_mode (wrap64 (reg_get FAB_CTRL (iomem w')))
    = hw_mode (wrap64 (reg_get FAB_CTRL (iomem w))).
Proof.
  intros Ht.
  assert (Hc : event_base (hw e) = 0 \/ event_base (hw e) = 1 \/
               event_base (hw e) = 2 \/ event_base (hw e) = 3 \/
               event_base (hw e) = 4)
    by (unfold FME_EVTYPE_MAX, FME_EVTYPE_VTD_SIP in Ht; lia).
  destruct Hc as [-> | [-> | [-> | [-> | ->]]]].
  - eexists. cbn [get_event_ops]. unfold basic_read_event_counter.
    destruct (wrap32 (idx (hw e)) =? BASIC_EVNT_CLK) eqn:Hclk.
    + eexists. eexists. split; [ reflexivity | ].
      cbn [read_counter fme_perf_basic_ops ops FME_EVENT_GROUP].
      unfold basic_read_event_counter. rewrite Hclk, regfile_readq.
      split; [ reflexivity | ]. split; reflexivity.
    + eexists. eexists. split; [ reflexivity | ].
      cbn [read_counter fme_perf_basic_ops ops FME_EVENT_GROUP].
      unfold basic_read_event_counter. rewrite Hclk.
      split; [ reflexivity | ]. split; reflexivity.
  - destruct (regfile_cache_read (wrap32 (idx (hw e)))
                (wrap32 (config_base (hw e))) (config (hw e)) w)
      as (r & w' & c' & Hrun & Hio & Hp).
    eexists. exists r, w'. split; [ reflexivity | ].
    split; [ exact Hrun | ]. split; [ exact Hp | ]. rewrite Hio. reflexivity.
  - destruct (regfile_fabric_read_mode (wrap32 (idx (hw e)))
                (wrap32 (config_base (hw e))) (config (hw e)) w)
      as (r & w' & Hrun & Hp & Hm).
    eexists. exists r, w'. split; [ reflexivity | ].
    split; [ exact Hrun | ]. split; assumption.
  - destruct (regfile_vtd_read (wrap32 (idx (hw e)))
                (wrap32 (config_base (hw e))) (config (hw e)) w)
      as (r & w' & c' & Hrun & Hio & Hp).
    eexists. exists r, w'. split; [ reflexivity | ].
    split; [ exact Hrun | ]. split; [ exact Hp | ]. rewrite Hio. reflexivity.
  - destruct (regfile_vtd_sip_read (wrap32 (idx (hw e)))
                (wrap32 (config_base (hw e))) (config (hw e)) w)
      as (r & w' & c' & Hrun & Hio & Hp).
    eexists. exists r, w'. split; [ reflexivity | ].
    split; [ exact Hrun | ]. split; [ exact Hp | ]. rewrite Hio. reflexivity.
Qed.


Lemma fab_port_id_field_range (v : Z) : 0 <= FIELD_GET FAB_PORT_ID v < 2 ^ 2.
Proof.
  assert (E : FIELD_GET FAB_PORT_ID v = FIELD_GET FAB_PORT_ID v mod 2 ^ 2).
  { unfold FIELD_GET. change (bf_shf FAB_PORT_ID) with 20.
    rewrite FAB_PORT_ID_ones. Z.bitblast. }
  rewrite E. apply Z.mod_pos_bound. lia.
Qed.

Lemma fab_filter_word_u64 (v port_id : Z) :
  is_u64 v -> wrap64 (fab_filter_word v port_id) = fab_filter_word v port_id.
Proof.
  intros Hv. unfold wrap64 at 1.
  rewrite <- (Z.mod_small v (2 ^ 64)) by exact Hv.
  fab_fields. destruct (port_id =? FME_PORTID_ROOT); Z.bitblast.
Qed.

Lemma fab_filter_word_mode (v port_id : Z) :
  is_u64 v ->
  port_id = FME_PORTID_ROOT \/ 0 <= port_id < 2 ^ 2 ->
  hw_mode (wrap64 (fab_filter_word v port_id)) = port_id.
Proof.
  intros Hv Hport. rewrite (fab_filter_word_u64 v port_id Hv).
  unfold hw_mode. rewrite fab_filter_word_filter, fab_filter_word_port.
  destruct (Z.eqb_spec port_id FME_PORTID_ROOT) as [-> | Hne].
  - reflexivity.
  - cbn [FAB_PORT_FILTER_ENABLE FAB_PORT_FILTER_DISABLE Z.eqb].
    destruct Hport as [Hr | Hr]; [ contradiction | ].
    apply Z.mod_small. exact Hr.
Qed.

Lemma fme_perf_init_zero (w w' : world regfile) (feature_id : Z)
    (env : attach_env) :
  fme_perf_init feature_id env w = Some (0, w') ->
  kzalloc_ok env = true /\ kcalloc_ok env = true /\ pmu_register_ret env = 0.
Proof.
  unfold fme_perf_init, fme_perf_pmu_register, fme_perf_setup_attrs,
    fme_perf_setup_hardware, bind, dev_dbg, printk, modify_priv, get_priv,
    ret.
  destruct (kzalloc_ok env); cbn [negb]; [ | discriminate ].
  destruct (kcalloc_ok env); cbn [negb priv iomem mmio dmesg Z.eqb Z.opp ENOMEM];
    [ | discriminate ].
  rewrite regfile_readq. cbn [priv iomem mmio dmesg].
  destruct (FIELD_GET FAB_PORT_FILTER _ =? FAB_PORT_FILTER_DISABLE);
    cbn [priv iomem mmio dmesg];
    destruct (pmu_register_ret env =? 0) eqn:Hr; cbn [negb]; intros Hrun;
    [ apply Z.eqb_eq in Hr; repeat split; assumption
    | rewrite ?Hr in Hrun; cbn [negb] in Hrun; injection Hrun as Hz _;
      rewrite Hz in Hr; discriminate Hr
    | apply Z.eqb_eq in Hr; repeat split; assumption
    | rewrite ?Hr in Hrun; cbn [negb] in Hrun; injection Hrun as Hz _;
      rewrite Hz in Hr; discriminate Hr ].
Qed.

(** X19: on a device whose registers simply hold what was last written,
    the mode kept in the private data is always the mode that the
    fabric control register stands for (the aggregate sentinel if the
    filter bit is clear, the port-id field otherwise): a successful
    attach establishes this, and every open, whatever its result, every
    destroy, start and read of a well-formed session keeps it. *)
Theorem mode_mirrors_hw_invariant :
  (forall (w0 w : world regfile) (feature_id : Z) (env : attach_env),
     fme_perf_init feature_id env w0 = Some (0, w) -> mode_mirrors_hw w) /\
  (forall w : world regfile,
     mode_mirrors_hw w ->
     (forall event r e' w',
        fme_perf_event_init event w = Some ((r, e'), w') ->
        mode_mirrors_hw w') /\
     (forall e w',
        session_ok (D := regfile) e ->
        fme_perf_event_destroy e w = Some (tt, w') -> mode_mirrors_hw w') /\
     (forall e flags e' w',
        session_ok (D := regfile) e ->
        fme_perf_event_start e flags w = Some (e', w') ->
        mode_mirrors_hw w') /\
     (forall e e' w',
        session_ok (D := regfile) e ->
        fme_perf_event_read e w = Some (e', w') -> mode_mirrors_hw w')).
Proof.
  split.
  - intros w0 w feature_id env Hrun.
    destruct (fme_perf_init_zero _ _ _ _ Hrun) as (Hz & Hc & Hr).
    destruct (fme_perf_init_attached w0 feature_id env Hz Hc Hr)
      as (p & Hinit & _ & _ & _ & _ & Hmode).
    rewrite Hinit in Hrun. injection Hrun as <-.
    unfold mode_mirrors_hw. cbn [priv iomem]. rewrite Hmode.
    cbn [dev_readq regfile_device fst snd]. unfold hw_mode.
    destruct (FIELD_GET FAB_PORT_FILTER _ =? FAB_PORT_FILTER_DISABLE);
      [ reflexivity | ].
    apply wrap32_small. unfold is_u32.
    pose proof (fab_port_id_field_range
                  (wrap64 (reg_get FAB_CTRL (iomem w0)))). lia.
  - intros w Hinv. repeat split.
    + intros event r e' w' Hrun.
      destruct (fme_perf_event_init_cases w event)
        as [(_ & Hrun') | [(_ & Hrun') | [(Hg & i & a & Hres & Hv & Hnf & Hrun')
           | (Hg & i & a & r0 & w0 & Hres & Hv & Hf & Hfab & Hrun')]]];
        rewrite Hrun' in Hrun; injection Hrun as <- <- <-;
        try exact Hinv.
      set (wd := after_open_debug w) in *.
      set (port := config_port_id (attr_config (attr event))) in *.
      assert (Hport : port = FME_PORTID_ROOT \/ 0 <= port < 2 ^ 2).
      { unfold valid_port_for, PERF_MAX_PORT_NUM in Hv.
        destruct (is_port_event a); [ right; lia | left; exact Hv ]. }
      destruct (fab_port_id (priv wd) =? port) eqn:Hp.
      * rewrite fabric_event_init_same_mode in Hfab by exact Hp.
        injection Hfab as <- <-. exact Hinv.
      * destruct (fab_users (priv wd) =? 0) eqn:Hz.
        -- rewrite fabric_event_init_switch in Hfab by assumption.
           injection Hfab as <- <-.
           unfold mode_mirrors_hw.
           cbn [priv iomem fab_port_id set_fab_lock set_fab_port_id
                set_fab_users dev_writeq dev_readq regfile_device fst snd
                reg_set reg_get].
           rewrite Z.eqb_refl. symmetry.
           apply fab_filter_word_mode; [ apply wrap64_range | exact Hport ].
        -- rewrite fabric_event_init_conflict in Hfab by assumption.
           injection Hfab as <- <-. exact Hinv.
    + intros e w' Hok Hrun.
      rewrite (fme_perf_event_destroy_run w e (session_ok_type e Hok)) in Hrun.
      injection Hrun as <-.
      destruct (event_base (hw e) =? FME_EVTYPE_FABRIC); exact Hinv.
    + intros e flags e' w' Hok Hrun.
      destruct (regfile_session_read_mode w e (session_ok_type e Hok))
        as (ops & now & w1 & Hops & Hrd & Hp & Hm).
      unfold fme_perf_event_start, bind in Hrun. rewrite Hops, Hrd in Hrun.
      injection Hrun as _ <-. unfold mode_mirrors_hw in *.
      rewrite Hp, Hm. exact Hinv.
    + intros e e' w' Hok Hrun.
      destruct (regfile_session_read_mode w e (session_ok_type e Hok))
        as (ops & now & w1 & Hops & Hrd & Hp & Hm).
      unfold fme_perf_event_read, fme_perf_event_update, bind in Hrun.
      rewrite Hops, Hrd in Hrun.
      injection Hrun as _ <-. unfold mode_mirrors_hw in *.
      rewrite Hp, Hm. exact Hinv.
Qed.

End PlainRegisters.

(** ** The event listing *)

Lemma sprintf_02x_reads_back (n : Z) :
  0 <= n -> Z.of_N (HexString.Raw.to_N (sprintf_02x n) 0) = n.
Proof.
  intros Hn. destruct n as [ | p | p ]; [ reflexivity | | lia ].
  unfold sprintf_02x.
  destruct (String.length (HexString.Raw.of_pos p "") <? 2)%nat.
  - change (HexString.Raw.to_N ("0" ++ HexString.Raw.of_pos p "")%string 0)
      with (HexString.Raw.to_N (HexString.Raw.of_pos p "") 0).
    rewrite HexString.Raw.to_N_of_pos. reflexivity.
  - rewrite HexString.Raw.to_N_of_pos. reflexivity.
Qed.

Lemma sprintf_02x_width (n : Z) : (2 <= String.length (sprintf_02x n))%nat.
Proof.
  destruct n as [ | p | p ]; cbn [sprintf_02x]; try (cbn; lia).
  destruct (Nat.ltb_spec (String.length (HexString.Raw.of_pos p "")) 2)
    as [Hlt | Hge]; [ | exact Hge ].
  cbn [String.length String.append].
  assert (1 <= String.length (HexString.Raw.of_pos p ""))%nat; [ | lia ].
  assert (Hgrow : forall q rest,
            (String.length rest < String.length (HexString.Raw.of_pos q rest))%nat).
  { fix IH 1. intros q rest.
    do 4 try destruct q as [q | q | ]; cbn [HexString.Raw.of_pos];
      try (cbn [String.length]; lia);
      match goal with
      | |- (_ < String.length (HexString.Raw.of_pos ?q' ?r'))%nat =>
          pose proof (IH q' r'); cbn [String.length] in *; lia
      end. }
  pose proof (Hgrow p ""%string). cbn [String.length] in *. lia.
Qed.

Lemma string_app_assoc (a b c : string) :
  ((a ++ b) ++ c)%string = (a ++ (b ++ c))%string.
Proof.
  induction a as [ | ch a IH ]; cbn; [ reflexivity | ].
  rewrite IH. reflexivity.
Qed.

(** X20: the listing line of a descriptor is "event=0x", the id,
    ",evtype=0x", the type, ",portid=" and then "?" for a per-port
    event and "0xff", the aggregate sentinel, for a global one, closed by
    a newline; id and type are written with at least two hexadecimal
    digits that read back to the numbers, and the value returned is the
    length of the line. *)
Theorem fme_perf_event_sysfs_show_line (a : fme_perf_event_attr) :
  0 <= event_id a -> 0 <= event_type a ->
  exists h1 h2 p,
    fme_perf_event_sysfs_show a =
    (("event=0x" ++ h1 ++ ",evtype=0x" ++ h2 ++ ",portid=" ++ p ++ newline)%string,
     Z.of_nat (String.length
       ("event=0x" ++ h1 ++ ",evtype=0x" ++ h2 ++ ",portid=" ++ p
        ++ newline)%string)) /\
    Z.of_N (HexString.Raw.to_N h1 0) = event_id a /\
    Z.of_N (HexString.Raw.to_N h2 0) = event_type a /\
    (2 <= String.length h1)%nat /\ (2 <= String.length h2)%nat /\
    (is_port_event a = true -> p = "?"%string) /\
    (is_port_event a = false ->
     p = "0xff"%string /\ Z.of_N (HexString.to_N p) = FME_PORTID_ROOT).
Proof.
  intros Hid Hty.
  exists (sprintf_02x (event_id a)), (sprintf_02x (event_type a)).
  exists (if is_port_event a then "?"%string else "0xff"%string).
  split.
  { unfold fme_perf_event_sysfs_show.
    destruct (is_port_event a);
      rewrite !string_app_assoc; reflexivity. }
  split; [ apply sprintf_02x_reads_back; exact Hid | ].
  split; [ apply sprintf_02x_reads_back; exact Hty | ].
  split; [ apply sprintf_02x_width | ].
  split; [ apply sprintf_02x_width | ].
  destruct (is_port_event a); split; intros E; try discriminate E;
    auto.
Qed.

(** * The further properties on sample machines *)

Lemma fabric_read_event_counter_protocol_sample :
  0 <= 23 /\ ~ 16 <= 23 <= 19 /\
  exists w',
    fabric_read_event_counter FAB_EVNT_PCIE0_RD FME_PORTID_ROOT 0
                              wrapped_fab_world = Some (5, w') /\
    priv w' = priv wrapped_fab_world.
Proof.
  split; [ lia | ]. split; [ lia | ].
  destruct (fabric_read_event_counter_protocol wrapped_fab_world
              FAB_EVNT_PCIE0_RD FME_PORTID_ROOT 0)
    as (r & w' & c & polled & lastv & Hrun & Hp & _ & _ & _ & _ & _ & Hbits & _).
  pose proof (Hbits 23 ltac:(lia) ltac:(lia)) as _.
  exists w'. split; [ | exact Hp ].
  rewrite Hrun. vm_compute in Hrun. injection Hrun as <- _. reflexivity.
Defined.

Lemma vtd_read_event_counter_offsets_by_port_sample :
  0 <= 23 /\ ~ 16 <= 23 <= 19 /\
  exists w',
    vtd_read_event_counter VTD_EVNT_AFU_MEM_RD_TRANS 0 0
                           (boot [(VTD_CNTR, 9)] zero_priv) = Some (9, w').
Proof.
  split; [ lia | ]. split; [ lia | ].
  destruct (vtd_read_event_counter_offsets_by_port
              (boot [(VTD_CNTR, 9)] zero_priv) VTD_EVNT_AFU_MEM_RD_TRANS 0 0)
    as (r & w' & c & polled & lastv & Hrun & _ & _ & _ & _ & Hbits & _).
  pose proof (Hbits 23 ltac:(lia) ltac:(lia)) as _.
  exists w'. rewrite Hrun. vm_compute in Hrun. injection Hrun as <- _.
  reflexivity.
Defined.

Lemma vtd_sip_read_event_counter_protocol_sample :
  0 <= 23 /\ ~ 16 <= 23 <= 19 /\
  exists w',
    vtd_sip_read_event_counter VTD_SIP_EVNT_IOTLB_4K_HIT FME_PORTID_ROOT 0
                               (boot [(VTD_SIP_CNTR, 4)] zero_priv)
    = Some (4, w').
Proof.
  split; [ lia | ]. split; [ lia | ].
  destruct (vtd_sip_read_event_counter_protocol
              (boot [(VTD_SIP_CNTR, 4)] zero_priv)
              VTD_SIP_EVNT_IOTLB_4K_HIT FME_PORTID_ROOT 0)
    as (r & w' & c & polled & lastv & Hrun & _ & _ & _ & _ & Hbits & _).
  pose proof (Hbits 23 ltac:(lia) ltac:(lia)) as _.
  exists w'. rewrite Hrun. vm_compute in Hrun. injection Hrun as <- _.
  reflexivity.
Defined.

Lemma clock_session_ok : session_ok (D := regfile) clock_session.
Proof.
  exists 0%nat, (FME_EVENT_BASIC "clock" BASIC_EVNT_CLK).
  repeat split; try reflexivity; try (vm_compute; discriminate).
Defined.

Lemma basic_read_event_counter_clock_only_sample :
  BASIC_EVNT_CLK = BASIC_EVNT_CLK /\ 1 <> BASIC_EVNT_CLK /\
  session_ok (D := regfile) clock_session /\
  event_base (hw clock_session) = FME_EVTYPE_BASIC /\
  (exists w',
     basic_read_event_counter BASIC_EVNT_CLK FME_PORTID_ROOT 0 clock_world
     = Some (100, w') /\
     exists e1,
       fme_perf_event_start clock_session 0 clock_world = Some (e1, w') /\
       prev_count (hw e1) = 100) /\
  basic_read_event_counter 1 FME_PORTID_ROOT 0 clock_world
  = Some (0, clock_world).
Proof.
  split; [ reflexivity | ]. split; [ discriminate | ].
  split; [ exact clock_session_ok | ]. split; [ reflexivity | ].
  destruct (basic_read_event_counter_clock_only clock_world BASIC_EVNT_CLK
              FME_PORTID_ROOT 0) as (Hclk & _ & Hsession).
  destruct (basic_read_event_counter_clock_only clock_world 1
              FME_PORTID_ROOT 0) as (_ & Hother & _).
  split; [ | apply Hother; discriminate ].
  destruct (Hsession clock_session 0 clock_session_ok eq_refl)
    as (_ & _ & Hstart & _).
  eexists. split; [ exact (Hclk eq_refl) | ].
  eexists. split; [ exact Hstart | reflexivity ].
Defined.


Lemma cache_read_event_counter_sums_banks_sample :
  exists w',
    cache_read_event_counter CACHE_EVNT_RD_HIT FME_PORTID_ROOT
      CACHE_CHANNEL_RD (boot cache_banks zero_priv) = Some (18, w') /\
    mmio w' =
      [MmioRead CACHE_CTRL 0; MmioWrite CACHE_CTRL 0;
       MmioRead CACHE_CNTR0 7; MmioRead CACHE_CNTR0 7;
       MmioRead CACHE_CNTR1 11] /\
    device_answers cache_banks (mmio w') (iomem w').
Proof.
  destruct (cache_read_event_counter_sums_banks (boot cache_banks zero_priv)
              CACHE_EVNT_RD_HIT FME_PORTID_ROOT CACHE_CHANNEL_RD)
    as (r & w' & c & c' & polled & lastv & Hrun & Hc & _ & _ & _ & _ & _ & _
        & [(Htag & v0 & v1 & Hm & Hans & Hr & _)
          | (Htag & Hlen & Hm & Hans & Hr & _)]).
  - assert (Hw : r = 18 /\
                 mmio w' =
                   [MmioRead CACHE_CTRL 0; MmioWrite CACHE_CTRL 0;
                    MmioRead CACHE_CNTR0 7; MmioRead CACHE_CNTR0 7;
                    MmioRead CACHE_CNTR1 11]).
    { clear Hm Hans. vm_compute in Hrun. injection Hrun as <- <-.
      split; reflexivity. }
    destruct Hw as (-> & Hlist). exists w'.
    split; [ exact Hrun | ]. split; [ exact Hlist | ].
    rewrite Hm. exact Hans.
  - exfalso. clear Hm Hans. vm_compute in Hrun. injection Hrun as Hz _.
    rewrite Hr in Hz. discriminate Hz.
Defined.

Lemma read_counter_stays_within_its_type_sample :
  0 <= FME_EVTYPE_CACHE <= FME_EVTYPE_MAX /\
  exists r w' l,
    cache_read_event_counter CACHE_EVNT_RD_HIT FME_PORTID_ROOT
      CACHE_CHANNEL_RD (boot cache_banks zero_priv) = Some (r, w') /\
    mmio w' = l /\
    Forall (fun op => In (mmio_addr op) [CACHE_CTRL; CACHE_CNTR0; CACHE_CNTR1])
           l.
Proof.
  assert (Ht : 0 <= FME_EVTYPE_CACHE <= FME_EVTYPE_MAX)
    by (vm_compute; split; discriminate).
  split; [ exact Ht | ].
  destruct (read_counter_stays_within_its_type (boot cache_banks zero_priv)
              FME_EVTYPE_CACHE CACHE_EVNT_RD_HIT FME_PORTID_ROOT
              CACHE_CHANNEL_RD Ht)
    as (ops & r & w' & l & Hops & Hrun & _ & _ & Hm & Hin & _).
  injection Hops as <-.
  exists r, w', l. split; [ exact Hrun | ]. split; [ exact Hm | exact Hin ].
Defined.

Lemma config_fields_round_trip_sample :
  0 <= 3 < 2 ^ 12 /\ 0 <= 2 < 2 ^ 4 /\ 0 <= 255 < 2 ^ 8 /\
  config_event_id 0x5ff2003 = 3 /\
  config_event_type 0x5ff2003 = 2 /\
  config_port_id 0x5ff2003 = 255.
Proof.
  assert (H1 : 0 <= 3 < 2 ^ 12) by lia.
  assert (H2 : 0 <= 2 < 2 ^ 4) by lia.
  assert (H3 : 0 <= 255 < 2 ^ 8) by lia.
  repeat (split; [ assumption | ]).
  destruct (config_fields_round_trip 3 2 255 5 H1 H2 H3)
    as (Hid & Hty & Hpo & _).
  split; [ exact Hid | ]. split; [ exact Hty | exact Hpo ].
Defined.

Lemma get_event_attr_exact_sample :
  0 <= FME_EVTYPE_FABRIC /\
  get_event_attr (D := regfile) FAB_EVNT_UPI_RD FME_EVTYPE_FABRIC
                 FME_PORTID_ROOT
  = Some (4%nat, FME_EVENT_FABRIC "upi_read" FAB_EVNT_UPI_RD) /\
  event_type (FME_EVENT_FABRIC "upi_read" FAB_EVNT_UPI_RD) = FME_EVTYPE_FABRIC.
Proof.
  assert (Ht : 0 <= FME_EVTYPE_FABRIC) by (vm_compute; discriminate).
  split; [ exact Ht | ].
  assert (Hget : get_event_attr (D := regfile) FAB_EVNT_UPI_RD
                   FME_EVTYPE_FABRIC FME_PORTID_ROOT
                 = Some (4%nat, FME_EVENT_FABRIC "upi_read" FAB_EVNT_UPI_RD))
    by reflexivity.
  split; [ exact Hget | ].
  destruct (get_event_attr_exact (D := regfile) FAB_EVNT_UPI_RD
              FME_EVTYPE_FABRIC FME_PORTID_ROOT Ht) as (Hsome & _).
  destruct (Hsome _ _ Hget) as (_ & Het & _). exact Het.
Defined.

Lemma fme_perf_event_init_unknown_event_sample :
  let event := counting_request 0 0x0ff5000 in
  let w := boot [] zero_priv in
  attr_type (attr event) = pmu_type (priv w) /\
  get_event_attr (D := regfile) 0 5 255 = None /\
  fme_perf_event_init event w = Some ((- EINVAL, event), w).
Proof.
  intros event w. split; [ reflexivity | ]. split; [ reflexivity | ].
  apply (fme_perf_event_init_unknown_event w event); reflexivity.
Defined.

Lemma cache_request_passes_gates :
  passes_gates (boot [] zero_priv) (counting_request 0 0x0ff1000).
Proof. repeat split. cbn. lia. Defined.

Lemma fme_perf_event_init_accepts_sample :
  let event := counting_request 0 0x0ff1000 in
  let w := boot [] zero_priv in
  passes_gates w event /\
  exists a,
    valid_port_for a 255 /\ event_type a <> FME_EVTYPE_FABRIC /\
    fme_perf_event_init event w =
    Some ((0, opened_session event a), after_open_debug w).
Proof.
  intros event w. split; [ exact cache_request_passes_gates | ].
  exists (FME_EVENT_CACHE "read_hit" CACHE_EVNT_RD_HIT CACHE_CHANNEL_RD).
  assert (Hv : valid_port_for
                 (FME_EVENT_CACHE "read_hit" CACHE_EVNT_RD_HIT CACHE_CHANNEL_RD)
                 255) by reflexivity.
  assert (Hnf : event_type
                  (FME_EVENT_CACHE "read_hit" CACHE_EVNT_RD_HIT CACHE_CHANNEL_RD)
                <> FME_EVTYPE_FABRIC) by discriminate.
  split; [ exact Hv | ]. split; [ exact Hnf | ].
  apply (fme_perf_event_init_accepts w event 0%nat _
           cache_request_passes_gates eq_refl Hv Hnf).
Defined.

Lemma aggregate_request_passes_gates :
  passes_gates aggregate_in_use (counting_request 0 0x0ff2000).
Proof. repeat split. cbn. lia. Defined.

Lemma fme_perf_event_init_fabric_arbitrated_sample :
  let event := counting_request 0 0x0ff2000 in
  passes_gates aggregate_in_use event /\
  is_u32 (fab_users (priv aggregate_in_use)) /\
  exists e' w',
    fme_perf_event_init event aggregate_in_use = Some ((0, e'), w') /\
    fab_users (priv w') = 2.
Proof.
  intros event.
  assert (Hu : is_u32 (fab_users (priv aggregate_in_use)))
    by (unfold is_u32; cbn; lia).
  split; [ exact aggregate_request_passes_gates | ]. split; [ exact Hu | ].
  destruct (fme_perf_event_init_fabric_arbitrated aggregate_in_use event
              0%nat (FME_EVENT_FABRIC "pcie0_read" FAB_EVNT_PCIE0_RD)
              aggregate_request_passes_gates eq_refl eq_refl eq_refl Hu)
    as (r & w' & Hrun & Hcases & Hiff & _ & Hok).
  assert (Hr : r = 0).
  { destruct Hcases as [Hbusy | Hzero]; [ | exact Hzero ].
    destruct (proj1 Hiff Hbusy) as (_ & Hmode).
    exfalso. apply Hmode. reflexivity. }
  subst r. eexists. exists w'. split; [ exact Hrun | ].
  destruct (Hok eq_refl) as (Husers & _). rewrite Husers. reflexivity.
Defined.

Lemma fme_perf_event_init_outcomes_sample :
  (exists r e' w',
     fme_perf_event_init (counting_request 7 0x0002000) aggregate_in_use
     = Some ((r, e'), w') /\
     r = - ENOENT /\ e' = counting_request 7 0x0002000 /\
     w' = aggregate_in_use) /\
  exists e' w',
    fme_perf_event_init (counting_request 0xffffffff 0x0ff1000) negative_pmu
    = Some ((0, e'), w') /\
    passes_gates negative_pmu (counting_request 0xffffffff 0x0ff1000) /\
    session_ok (D := regfile) e'.
Proof.
  split.
  - destruct (fme_perf_event_init_outcomes aggregate_in_use
                (counting_request 7 0x0002000))
      as (r & e' & w' & Hrun & _ & Hnoent & Hsame & _).
    assert (Hr : r = - ENOENT) by (apply Hnoent; discriminate).
    destruct (Hsame (or_introl Hr)) as (He & Hw).
    exists r, e', w'. repeat split; assumption.
  - destruct (fme_perf_event_init_outcomes negative_pmu
                (counting_request 0xffffffff 0x0ff1000))
      as (r & e' & w' & Hrun & _ & _ & _ & _ & Hok).
    assert (Hr : r = 0).
    { destruct (fme_perf_event_init (counting_request 0xffffffff 0x0ff1000)
                  negative_pmu) as [[[r0 e0] w0] | ] eqn:Hev;
        [ | discriminate Hrun ].
      injection Hrun as -> _ _. vm_compute in Hev.
      injection Hev as <- _ _. reflexivity. }
    subst r. destruct (Hok (or_intror eq_refl)) as (Hg & Hs & _).
    exists e', w'. split; [ exact Hrun | ]. split; [ exact Hg | exact Hs ].
Defined.

Lemma session_operations_defined_sample :
  session_ok (D := regfile) clock_session /\
  (exists e1 w1,
     fme_perf_event_start clock_session 0 clock_world = Some (e1, w1) /\
     prev_count (hw e1) = 100) /\
  fme_perf_event_destroy clock_session clock_world = Some (tt, clock_world).
Proof.
  split; [ exact clock_session_ok | ].
  destruct (session_operations_defined clock_world clock_session 0
              clock_session_ok)
    as ((e1 & w1 & Hstart & _) & _ & _ & (w2 & Hdestroy & _ & _ & _ & _ & Hsame & _)).
  split.
  - exists e1, w1. split; [ exact Hstart | ].
    vm_compute in Hstart. injection Hstart as <- _. reflexivity.
  - rewrite Hdestroy. rewrite (Hsame ltac:(discriminate)). reflexivity.
Defined.

Lemma open_then_destroy_restores_users_sample :
  let event := counting_request 0 0x0ff2000 in
  0 <= fab_users (priv aggregate_in_use) < 2 ^ 32 - 1 /\
  exists e' w' w'',
    fme_perf_event_init event aggregate_in_use = Some ((0, e'), w') /\
    fab_users (priv w') = 2 /\
    fme_perf_event_destroy e' w' = Some (tt, w'') /\
    fab_users (priv w'') = 1.
Proof.
  intros event.
  assert (Hu : 0 <= fab_users (priv aggregate_in_use) < 2 ^ 32 - 1)
    by (cbn; lia).
  split; [ exact Hu | ].
  destruct (fme_perf_event_init event aggregate_in_use)
    as [[[r e'] w'] | ] eqn:Hinit;
    [ | vm_compute in Hinit; discriminate Hinit ].
  assert (Hr : r = 0 /\ fab_users (priv w') = 2).
  { vm_compute in Hinit. injection Hinit as <- _ <-. split; reflexivity. }
  destruct Hr as (-> & Hw').
  destruct (open_then_destroy_restores_users aggregate_in_use w' event e'
              Hu Hinit) as (w'' & Hd & Husers & _).
  exists e', w', w''. repeat split; assumption.
Defined.

Lemma fme_perf_setup_attrs_exports_sample :
  kcalloc_ok (mk_env true false 0 0) = false /\
  kcalloc_ok attach_ok = true /\
  fme_perf_setup_attrs (mk_env true false 0 0) aggregate_in_use
  = Some (- ENOMEM, aggregate_in_use) /\
  exists names,
    fme_perf_setup_attrs attach_ok (boot [] zero_priv) =
    Some (0, boot [] (set_events_group names zero_priv)) /\
    List.length names = 17%nat.
Proof.
  split; [ reflexivity | ]. split; [ reflexivity | ].
  destruct (fme_perf_setup_attrs_exports aggregate_in_use
              (mk_env true false 0 0)) as [Hfail _].
  destruct (fme_perf_setup_attrs_exports (boot [] zero_priv) attach_ok)
    as [_ Hok].
  split; [ exact (Hfail eq_refl) | ].
  destruct (Hok eq_refl) as (names & Hrun & _ & Hlen & _).
  exists names. split; [ exact Hrun | exact Hlen ].
Defined.

Lemma fme_perf_init_outcomes_sample :
  kzalloc_ok (mk_env false true 0 0) = false /\
  exists w',
    fme_perf_init FME_FEATURE_ID_GLOBAL_DPERF (mk_env false true 0 0)
                  (boot port1_regs zero_priv) = Some (- ENOMEM, w') /\
    mmio w' = [].
Proof.
  split; [ reflexivity | ].
  destruct (fme_perf_init_outcomes (boot port1_regs zero_priv)
              FME_FEATURE_ID_GLOBAL_DPERF (mk_env false true 0 0))
    as (r & w' & Hrun & _ & Hfail & _).
  destruct (Hfail eq_refl) as (-> & _ & _ & Hm).
  exists w'. split; [ exact Hrun | exact Hm ].
Defined.

Lemma fabric_mode_changes_only_when_idle_sample :
  FME_PORTID_ROOT <> 0 /\ fab_users (priv (boot [] zero_priv)) = 0 /\
  exists w1 w2,
    fabric_event_init 0 FME_PORTID_ROOT 0 (boot [] zero_priv) = Some (0, w1) /\
    fabric_event_init 0 0 0 w1 = Some (- EOPNOTSUPP, w2) /\
    fab_users (priv w2) = 1.
Proof.
  assert (Hne : FME_PORTID_ROOT <> 0) by discriminate.
  split; [ exact Hne | ]. split; [ reflexivity | ].
  destruct (fabric_mode_changes_only_when_idle (boot [] zero_priv)
              FME_PORTID_ROOT 0 0 0 Hne eq_refl)
    as (w1 & w2 & w3 & w4 & w5 & w6 & v & v' & H1 & _ & _ & H2 & Hu2 & _).
  exists w1, w2. repeat split; assumption.
Defined.

Lemma mode_mirrors_hw_invariant_sample :
  exists w r e' w',
    fme_perf_init FME_FEATURE_ID_GLOBAL_IPERF attach_ok
                  (boot port1_regs zero_priv) = Some (0, w) /\
    mode_mirrors_hw w /\ fab_port_id (priv w) = 1 /\
    fme_perf_event_init (counting_request 9 0x0ff2000) w
    = Some ((r, e'), w') /\
    mode_mirrors_hw w' /\ fab_port_id (priv w') = FME_PORTID_ROOT.
Proof.
  destruct (fme_perf_init FME_FEATURE_ID_GLOBAL_IPERF attach_ok
              (boot port1_regs zero_priv)) as [[r0 w] | ] eqn:Hinit;
    [ | vm_compute in Hinit; discriminate Hinit ].
  assert (Hr : r0 = 0 /\ fab_port_id (priv w) = 1).
  { vm_compute in Hinit. injection Hinit as <- <-. split; reflexivity. }
  destruct Hr as (-> & Hport).
  destruct mode_mirrors_hw_invariant as (Hattach & Hkeep).
  pose proof (Hattach _ _ _ _ Hinit) as Hw.
  destruct (Hkeep w Hw) as (Hopen & _).
  destruct (fme_perf_event_init (counting_request 9 0x0ff2000) w)
    as [[[r e'] w'] | ] eqn:Hev.
  - exists w, r, e', w'.
    split; [ reflexivity | ]. split; [ exact Hw | ].
    split; [ exact Hport | ]. split; [ exact Hev | ].
    split; [ exact (Hopen _ _ _ _ Hev) | ].
    vm_compute in Hinit. injection Hinit as <-.
    vm_compute in Hev. injection Hev as _ _ <-. reflexivity.
  - exfalso. vm_compute in Hinit. injection Hinit as <-.
    vm_compute in Hev. discriminate Hev.
Defined.

Lemma fme_perf_event_sysfs_show_line_sample :
  0 <= event_id (FME_EVENT_FABRIC "upi_write" FAB_EVNT_UPI_WR) /\
  0 <= event_type (FME_EVENT_FABRIC "upi_write" FAB_EVNT_UPI_WR) /\
  fme_perf_event_sysfs_show (FME_EVENT_FABRIC "upi_write" FAB_EVNT_UPI_WR)
  = (("event=0x05,evtype=0x02,portid=0xff" ++ newline)%string, 35) /\
  exists h1 h2 p,
    fst (fme_perf_event_sysfs_show
           (FME_EVENT_FABRIC "upi_write" FAB_EVNT_UPI_WR))
    = ("event=0x" ++ h1 ++ ",evtype=0x" ++ h2 ++ ",portid=" ++ p
       ++ newline)%string /\
    Z.of_N (HexString.Raw.to_N h1 0) = FAB_EVNT_UPI_WR /\
    Z.of_N (HexString.Raw.to_N h2 0) = FME_EVTYPE_FABRIC /\
    p = "0xff"%string.
Proof.
  assert (H1 : 0 <= event_id (FME_EVENT_FABRIC "upi_write" FAB_EVNT_UPI_WR))
    by (vm_compute; discriminate).
  assert (H2 : 0 <= event_type (FME_EVENT_FABRIC "upi_write" FAB_EVNT_UPI_WR))
    by (vm_compute; discriminate).
  split; [ exact H1 | ]. split; [ exact H2 | ].
  split; [ vm_compute; reflexivity | ].
  destruct (fme_perf_event_sysfs_show_line
              (FME_EVENT_FABRIC "upi_write" FAB_EVNT_UPI_WR) H1 H2)
    as (h1 & h2 & p & Hline & Hid & Hty & _ & _ & _ & Hglobal).
  exists h1, h2, p. rewrite Hline.
  split; [ reflexivity | ]. split; [ exact Hid | ].
  split; [ exact Hty | ]. destruct (Hglobal eq_refl) as (Hp & _). exact Hp.
Defined.

Section TickingClock.

#[local] Existing Instance ticking_device.

Lemma start_then_reads_accumulate_sample :
  exists e1 w1 e2 w2 e3 w3,
    driver_reads ticking_start clock_session 0 /\
    fme_perf_event_start clock_session 0 ticking_start = Some (e1, w1) /\
    driver_reads w1 e1 10 /\
    fme_perf_event_read e1 w1 = Some (e2, w2) /\
    driver_reads w2 e2 20 /\
    fme_perf_event_read e2 w2 = Some (e3, w3) /\
    count e2 = 10 /\ count e3 = 30.
Proof.
  assert (R0 : driver_reads ticking_start clock_session 0).
  { eexists. eexists. split; [ reflexivity | cbv; reflexivity ]. }
  destruct (fme_perf_event_start clock_session 0 ticking_start)
    as [[e1 w1] | ] eqn:H1; [ | vm_compute in H1; discriminate H1 ].
  assert (E1 : (e1, w1) =
               (set_hw (set_prev_count 0 (hw clock_session)) clock_session,
                mk_world zero_priv 10 [MmioRead CLK_CNTR 0] [])).
  { vm_compute in H1. injection H1 as <- <-. reflexivity. }
  injection E1 as -> ->.
  assert (R1 : driver_reads (mk_world zero_priv 10 [MmioRead CLK_CNTR 0] [])
                 (set_hw (set_prev_count 0 (hw clock_session)) clock_session)
                 10).
  { eexists. eexists. split; [ reflexivity | cbv; reflexivity ]. }
  destruct (fme_perf_event_read
              (set_hw (set_prev_count 0 (hw clock_session)) clock_session)
              (mk_world zero_priv 10 [MmioRead CLK_CNTR 0] []))
    as [[e2 w2] | ] eqn:H2; [ | vm_compute in H2; discriminate H2 ].
  assert (E2 : (e2, w2) =
               (set_count 10
                  (set_hw (set_prev_count 0 (hw clock_session)) clock_session),
                mk_world zero_priv 20
                  [MmioRead CLK_CNTR 0; MmioRead CLK_CNTR 10] [])).
  { vm_compute in H2. injection H2 as <- <-. reflexivity. }
  injection E2 as -> ->.
  assert (R2 : driver_reads
                 (mk_world zero_priv 20
                    [MmioRead CLK_CNTR 0; MmioRead CLK_CNTR 10] [])
                 (set_count 10
                    (set_hw (set_prev_count 0 (hw clock_session))
                            clock_session)) 20).
  { eexists. eexists. split; [ reflexivity | cbv; reflexivity ]. }
  destruct (fme_perf_event_read
              (set_count 10
                 (set_hw (set_prev_count 0 (hw clock_session)) clock_session))
              (mk_world zero_priv 20
                 [MmioRead CLK_CNTR 0; MmioRead CLK_CNTR 10] []))
    as [[e3 w3] | ] eqn:H3; [ | vm_compute in H3; discriminate H3 ].
  destruct (start_then_reads_accumulate _ _ _ _ _ _ _ _ 0 0 10 20
              R0 H1 R1 H2 R2 H3) as (_ & _ & _ & Hc2 & _ & Hc3).
  exists (set_hw (set_prev_count 0 (hw clock_session)) clock_session),
         (mk_world zero_priv 10 [MmioRead CLK_CNTR 0] []),
         (set_count 10
            (set_hw (set_prev_count 0 (hw clock_session)) clock_session)),
         (mk_world zero_priv 20
            [MmioRead CLK_CNTR 0; MmioRead CLK_CNTR 10] []),
         e3, w3.
  split; [ exact R0 | ]. split; [ exact H1 | ]. split; [ exact R1 | ].
  split; [ exact H2 | ]. split; [ exact R2 | ]. split; [ exact H3 | ].
  split; [ reflexivity | rewrite Hc3; reflexivity ].
Defined.

End TickingClock.
